(** * Fast dual contouring (fast_dc.cpp): a shallow embedding

    The development follows the source file top-down: the packed voxel and
    edge identifiers, the two lookup tables, the edge sampler, the scanner
    [FindActiveVoxels], the vertex placer [GenerateVertexData], the
    triangulator [GenerateTriangles] and the driver [GenerateMesh].

    - C++ [int] / [uint32_t] values are integers of [Z]; the 32-bit
      wrap-around is written out with [s32] and [u32].
    - [float] is IEEE binary32, taken from the specification of
      floating-point numbers of the standard library ([spec_float] with
      precision 24 and maximal exponent 128).
    - [std::unordered_set<uint32_t>] is a [gset Z], the two
      [std::unordered_map]s are [gmap Z _]; their iteration order is left
      open (any duplicate-free enumeration).
    - The density function, the QEF solver and the glm functions [mix] and
      [normalize] are parameters.  The [printf] calls are left out.
    - Loop variables and the counters [idxCounter], [numVertices] and
      [numTriangles] are integers of [Z] without wrap-around. *)

From Stdlib Require Import ZArith Lia SpecFloat.
From stdpp Require Import gmap list.

Local Open Scope Z_scope.

(** ** Machine integers *)

(** Conversion of a mathematical integer to [uint32_t]. *)
Definition u32 (z : Z) : Z := z mod 2 ^ 32.

(** The value a 32-bit two's complement [int] holds after wrap-around. *)
Definition s32 (z : Z) : Z := (z + 2 ^ 31) mod 2 ^ 32 - 2 ^ 31.

(** [glm::ivec4] *)
Record ivec4 : Type := Ivec4 { ix : Z; iy : Z; iz : Z; iw : Z }.

(** [ivec4(0)] : all four components take the scalar. *)
Definition ivec4_splat (k : Z) : ivec4 := Ivec4 k k k k.

(** Component-wise [operator-] on [ivec4]. *)
Definition ivec4_sub (a b : ivec4) : ivec4 :=
  Ivec4 (s32 (ix a - ix b)) (s32 (iy a - iy b)) (s32 (iz a - iz b)) (s32 (iw a - iw b)).

(** ** The lookup tables *)

Definition EDGE_NODE_OFFSETS : list (list ivec4) :=
  [ [ ivec4_splat 0; Ivec4 0 0 1 0; Ivec4 0 1 0 0; Ivec4 0 1 1 0 ];
    [ ivec4_splat 0; Ivec4 1 0 0 0; Ivec4 0 0 1 0; Ivec4 1 0 1 0 ];
    [ ivec4_splat 0; Ivec4 0 1 0 0; Ivec4 1 0 0 0; Ivec4 1 1 0 0 ] ].

Definition ENCODED_EDGE_NODE_OFFSETS : list Z :=
  [ 0x00000000; 0x00100000; 0x00000400; 0x00100400;
    0x00000000; 0x00000001; 0x00100000; 0x00100001;
    0x00000000; 0x00000400; 0x00000001; 0x00000401 ].

Definition ENCODED_EDGE_OFFSETS : list Z :=
  [ 0x00000000; 0x00100000; 0x00000400; 0x00100400;
    0x40000000; 0x40100000; 0x40000001; 0x40100001;
    0x80000000; 0x80000400; 0x80000001; 0x80000401 ].

(** [EDGE_NODE_OFFSETS[axis]]: the row of a 3-row table.  The callers only
    index it with the loop variable [axis] in 0..2. *)
Definition edge_node_row (axis : Z) : list ivec4 :=
  nth (Z.to_nat axis) EDGE_NODE_OFFSETS [].

Definition edge_node_offset (axis i : Z) : ivec4 :=
  nth (Z.to_nat i) (edge_node_row axis) (ivec4_splat 0).

(** Reading a 12-entry [const uint32_t] table at index [i].  An index
    past the end is outside what C++ defines; [oob i] stands for whatever
    word the read yields there. *)
Definition table_read (oob : Z -> Z) (tbl : list Z) (i : Z) : Z :=
  match tbl !! Z.to_nat i with
  | Some w => if 0 <=? i then w else oob i
  | None => oob i
  end.

(** ** VoxelIdentity *)

(** [idxPos.x | (idxPos.y << 10) | (idxPos.z << 20)], computed on [int]
    and returned as [uint32_t]. *)
Definition EncodeVoxelUniqueID (idxPos : ivec4) : Z :=
  u32 (Z.lor (Z.lor (ix idxPos) (s32 (Z.shiftl (iy idxPos) 10)))
             (s32 (Z.shiftl (iz idxPos) 20))).

Definition DecodeVoxelUniqueID (id : Z) : ivec4 :=
  Ivec4 (Z.land id 0x3ff)
        (Z.land (Z.shiftr id 10) 0x3ff)
        (Z.land (Z.shiftr id 20) 0x3ff)
        0.

(** [(x << 0) | (y << 10) | (z << 20) | (axis << 30)] *)
Definition EncodeAxisUniqueID (axis x y z : Z) : Z :=
  u32 (Z.lor (Z.lor (Z.lor (s32 (Z.shiftl x 0)) (s32 (Z.shiftl y 10)))
                    (s32 (Z.shiftl z 20)))
             (s32 (Z.shiftl axis 30))).

(** *** The canonical edges of a voxel, in three dimensions

    For an edge direction [a] the four edges of a voxel that run along [a]
    start at the voxel's base corner moved by a unit offset on the two
    other axes.  With [u < v] the two other axes, the [i]-th offset moves
    by [i / 2] along [u] and by [i mod 2] along [v]. *)
Definition canonical_edge_base_offset (a i : Z) : ivec4 :=
  let hi := i / 2 in
  let lo := i mod 2 in
  if a =? 0 then Ivec4 0 hi lo 0
  else if a =? 1 then Ivec4 hi 0 lo 0
  else Ivec4 hi lo 0 0.

(** The edge key of the [i]-th canonical edge along [a] of the voxel at
    [(x, y, z)], computed from the coordinates. *)
Definition canonical_edge_id (a i x y z : Z) : Z :=
  let o := canonical_edge_base_offset a i in
  EncodeAxisUniqueID a (x + ix o) (y + iy o) (z + iz o).

(** The [i]-th voxel around the edge along [a] based at [(x, y, z)],
    computed from the coordinates as the scanner does. *)
Definition edge_voxel_id (a i x y z : Z) : Z :=
  EncodeVoxelUniqueID (ivec4_sub (Ivec4 x y z 0) (edge_node_offset a i)).

(** ** Floating point and vectors *)

(** C++ [float]: IEEE binary32. *)
Definition float : Type := spec_float.

Definition fadd : float -> float -> float := SFadd 24 128.
Definition fsub : float -> float -> float := SFsub 24 128.
Definition fmul : float -> float -> float := SFmul 24 128.
Definition fdiv : float -> float -> float := SFdiv 24 128.

(** Conversion [int -> float], round to nearest even. *)
Definition float_of_int (z : Z) : float := binary_normalize 24 128 z 0 false.

(** [a >= b] and [a < b] on [float]; both are false when an operand is a
    NaN. *)
Definition fge (a b : float) : bool := SFleb b a.
Definition flt (a b : float) : bool := SFltb a b.

(** [glm::abs] on a [float]. *)
Definition glm_abs (a : float) : float := SFabs a.

(** (2 - 2^-23) * 2^127 *)
Definition FLT_MAX : float := S754_finite false (2 ^ 24 - 1) 104.

Definition f0 : float := float_of_int 0.
Definition f1 : float := float_of_int 1.

Record vec3 : Type := Vec3 { x3 : float; y3 : float; z3 : float }.
Record vec4 : Type := Vec4 { vx : float; vy : float; vz : float; vw : float }.

(** [vec3(p)] drops the fourth component, [vec4(v, w)] appends one. *)
Definition vec3_of (p : vec4) : vec3 := Vec3 (vx p) (vy p) (vz p).
Definition vec4_of (v : vec3) (w : float) : vec4 := Vec4 (x3 v) (y3 v) (z3 v) w.

Definition vec4_add (a b : vec4) : vec4 :=
  Vec4 (fadd (vx a) (vx b)) (fadd (vy a) (vy b)) (fadd (vz a) (vz b)) (fadd (vw a) (vw b)).
Definition vec4_sub (a b : vec4) : vec4 :=
  Vec4 (fsub (vx a) (vx b)) (fsub (vy a) (vy b)) (fsub (vz a) (vz b)) (fsub (vw a) (vw b)).
(** [v *= s] *)
Definition vec4_scale (a : vec4) (s : float) : vec4 :=
  Vec4 (fmul (vx a) s) (fmul (vy a) s) (fmul (vz a) s) (fmul (vw a) s).
(** A default-constructed [vec4] ([vec4 nodeNormal;]): glm's constructor is
    taken to zero-initialise, as the accumulation in [GenerateVertexData]
    relies on. *)
Definition vec4_default : vec4 := Vec4 f0 f0 f0 f0.

Definition AXIS_OFFSET (axis : Z) : vec4 :=
  nth (Z.to_nat axis)
      [ Vec4 f1 f0 f0 f0; Vec4 f0 f1 f0 f0; Vec4 f0 f0 f1 f0 ]
      vec4_default.

(** ** Data of one mesh generation *)

Record EdgeInfo : Type := mkEdgeInfo {
  pos : vec4;
  normal : vec4;
  winding : bool
}.

(** Modelled from the spec: fast_dc.h, which declares [MeshVertex],
    [MeshTriangle] and [MeshBuffer], is not part of the sources; the
    fields are the ones fast_dc.cpp reads and writes. *)
Record MeshVertex : Type := mkMeshVertex { xyz : vec4; vertex_normal : vec4 }.

(** Modelled from the spec: [MeshTriangle] of fast_dc.h, an array
    [indices_[3]]. *)
Record MeshTriangle : Type := mkMeshTriangle {
  indices_0 : Z; indices_1 : Z; indices_2 : Z
}.

(** Modelled from the spec: [MeshBuffer] of fast_dc.h.  The two arrays
    are written through a moving pointer that starts at slot 0 and advances
    by one after each write; the lists hold the slots written so far. *)
Record MeshBuffer : Type := mkMeshBuffer {
  vertices : list MeshVertex;
  numVertices : Z;
  triangles : list MeshTriangle;
  numTriangles : Z
}.

(** One invocation of the external QEF solver: the two sample arrays (the
    entries that were filled in) and the count passed with them. *)
Record qef_call : Type := mkQefCall {
  qef_positions : list vec4;
  qef_normals : list vec4;
  qef_count : Z
}.

(** A counting [for (int i = 0; i < n; i++)] loop over a state. *)
Definition for_range {S : Type} (n : Z) (body : Z -> S -> S) (s : S) : S :=
  foldl (fun s i => body i s) s (seqZ 0 n).

(** The state of the scanner: the two containers it fills. *)
Record scan_state : Type := mkScan {
  activeVoxels : gset Z;
  activeEdges : gmap Z EdgeInfo
}.

(** The state of the sampling loop of [FindIntersection]. *)
Record search_state : Type := mkSearch {
  minValue : float;
  currentT : float;
  best_t : float
}.

(** The state of the vertex placer.  [qefCalls] is a ghost trace of the
    solver invocations, latest last. *)
Record vertex_state : Type := mkVertexState {
  vertexIndices : gmap Z Z;
  vs_vertices : list MeshVertex;
  vs_numVertices : Z;
  idxCounter : Z;
  cellData : list float;
  qefCalls : list qef_call
}.

(** The samples a voxel gathers from its 12 canonical edges. *)
Record gathered : Type := mkGathered {
  g_p : list vec4;
  g_n : list vec4;
  g_idx : Z
}.

(** The slots of [edgeVoxels] filled so far, with their count. *)
Record found_voxels : Type := mkFound {
  edgeVoxels : list Z;
  numFoundVoxels : Z
}.

Section FastDC.

(** *** External collaborators *)

(** density.h *)
Variable Density_Func : vec3 -> float.
(** qef_simd.h: positions, normals, count; yields the solved position. *)
Variable qef_solve_from_points_4d : list vec4 -> list vec4 -> Z -> vec4.
(** glm *)
Variable glm_mix : vec4 -> vec4 -> float -> vec4.
Variable glm_mix3 : vec3 -> vec3 -> float -> vec3.
Variable glm_normalize : vec4 -> vec4.
(** What a read past the end of a lookup table yields. *)
Variable oob : Z -> Z.
(** The order in which the two hash containers are iterated. *)
Variable iter_set : gset Z -> list Z.
Variable iter_map : gmap Z EdgeInfo -> list (Z * EdgeInfo).

Definition Density (p : vec4) : float := Density_Func (vec3_of p).

(** *** EdgeSampler *)

Definition FIND_EDGE_INFO_STEPS : Z := 16.
Definition FIND_EDGE_INFO_INCREMENT : float :=
  fdiv f1 (float_of_int FIND_EDGE_INFO_STEPS).

Definition FindIntersection_step (p0 p1 : vec4) (s : search_state) : search_state :=
  let p := glm_mix p0 p1 (currentT s) in
  let d := glm_abs (Density p) in
  let s' := if flt d (minValue s)
            then mkSearch d (currentT s) (currentT s)
            else s in
  mkSearch (minValue s') (fadd (currentT s') FIND_EDGE_INFO_INCREMENT) (best_t s').

Definition FindIntersection (p0 p1 : vec4) : float :=
  best_t (for_range FIND_EDGE_INFO_STEPS
            (fun _ => FindIntersection_step p0 p1)
            (mkSearch FLT_MAX f0 f0)).

(** *** ActiveVoxelScanner *)

(** The position of grid corner [(x, y, z)]:
    [vec4(x - gridOffset + worldX, ..., 1.f)]. *)
Definition corner_position (worldX worldY worldZ voxelGridSize x y z : Z) : vec4 :=
  let gridOffset := fdiv (float_of_int voxelGridSize) (float_of_int 2) in
  Vec4 (fadd (fsub (float_of_int x) gridOffset) (float_of_int worldX))
       (fadd (fsub (float_of_int y) gridOffset) (float_of_int worldY))
       (fadd (fsub (float_of_int z) gridOffset) (float_of_int worldZ))
       f1.

Definition zeroCrossing (pDensity qDensity : float) : bool :=
  (fge pDensity f0 && flt qDensity f0) || (flt pDensity f0 && fge qDensity f0).

Definition H : float := fdiv f1 (float_of_int 1000).

(** The [EdgeInfo] built for a crossing on the edge from [p] to [q]. *)
Definition edge_info (p q : vec4) : EdgeInfo :=
  let pDensity := Density p in
  let t := FindIntersection p q in
  let pos := vec4_of (glm_mix3 (vec3_of p) (vec3_of q) t) f1 in
  let normal := glm_normalize (Vec4
    (fsub (Density (vec4_add pos (Vec4 H f0 f0 f0))) (Density (vec4_sub pos (Vec4 H f0 f0 f0))))
    (fsub (Density (vec4_add pos (Vec4 f0 H f0 f0))) (Density (vec4_sub pos (Vec4 f0 H f0 f0))))
    (fsub (Density (vec4_add pos (Vec4 f0 f0 H f0))) (Density (vec4_sub pos (Vec4 f0 f0 H f0))))
    f0) in
  mkEdgeInfo pos normal (fge pDensity f0).

(** The inner loop over the four voxels around an edge. *)
Definition insert_edge_node (idxPos : ivec4) (axis i : Z) (voxels : gset Z) : gset Z :=
  let nodeIdxPos := ivec4_sub idxPos (edge_node_offset axis i) in
  let nodeID := EncodeVoxelUniqueID nodeIdxPos in
  if (ix nodeIdxPos <? 0) || (iy nodeIdxPos <? 0) || (iz nodeIdxPos <? 0)
  then voxels
  else {[ nodeID ]} ∪ voxels.

(** The body of the loop over [axis]. *)
Definition scan_axis (worldX worldY worldZ voxelGridSize x y z axis : Z)
    (st : scan_state) : scan_state :=
  let idxPos := Ivec4 x y z 0 in
  let p := corner_position worldX worldY worldZ voxelGridSize x y z in
  let q := vec4_add p (AXIS_OFFSET axis) in
  let pDensity := Density p in
  let qDensity := Density q in
  if negb (zeroCrossing pDensity qDensity) then st
  else
    let info := edge_info p q in
    let code := EncodeAxisUniqueID axis x y z in
    mkScan (for_range 4 (insert_edge_node idxPos axis) (activeVoxels st))
           (<[ code := info ]> (activeEdges st)).

Definition FindActiveVoxels (st : scan_state)
    (worldX worldY worldZ voxelGridSize : Z) : scan_state :=
  for_range voxelGridSize (fun x =>
    for_range voxelGridSize (fun y =>
      for_range voxelGridSize (fun z =>
        for_range 3 (scan_axis worldX worldY worldZ voxelGridSize x y z)))) st.

(** *** VertexPlacer *)

(** [edges.find(voxelID + ENCODED_EDGE_OFFSETS[i])] *)
Definition find_edge (edges : gmap Z EdgeInfo) (voxelID i : Z) : option EdgeInfo :=
  edges !! u32 (voxelID + table_read oob ENCODED_EDGE_OFFSETS i).

Definition gather_edge (edges : gmap Z EdgeInfo) (voxelID i : Z) (g : gathered) : gathered :=
  match find_edge edges voxelID i with
  | Some info => mkGathered (g_p g ++ [pos info]) (g_n g ++ [normal info]) (g_idx g + 1)
  | None => g
  end.

Definition gather_edges (edges : gmap Z EdgeInfo) (voxelID : Z) : gathered :=
  for_range 12 (gather_edge edges voxelID) (mkGathered [] [] 0).

(** The normal computed for a voxel from the [idx] normals it gathered. *)
Definition node_normal (g : gathered) : vec4 :=
  let nodeNormal := foldl vec4_add vec4_default (g_n g) in
  if negb (g_idx g =? 0)
  then vec4_scale nodeNormal (fdiv f1 (float_of_int (g_idx g)))
  else nodeNormal.

(** The body of the loop over the active voxels. *)
Definition place_vertex (edges : gmap Z EdgeInfo) (st : vertex_state) (voxelID : Z)
    : vertex_state :=
  let g := gather_edges edges voxelID in
  let nodePos := qef_solve_from_points_4d (g_p g) (g_n g) (g_idx g) in
  let calls := qefCalls st ++ [mkQefCall (g_p g) (g_n g) (g_idx g)] in
  let cells := cellData st ++ [vx nodePos; vy nodePos; vz nodePos] in
  let nodeNormal := node_normal g in
  if 1 <? g_idx g then
    mkVertexState (<[ voxelID := idxCounter st ]> (vertexIndices st))
                  (vs_vertices st ++ [mkMeshVertex nodePos nodeNormal])
                  (vs_numVertices st + 1)
                  (idxCounter st + 1)
                  cells calls
  else
    mkVertexState (vertexIndices st) (vs_vertices st) (vs_numVertices st)
                  (idxCounter st) cells calls.

(** [voxels] is the active set in iteration order.  The vertex array is
    freshly allocated and the counter starts at 0; [vertexIndices],
    [numVertices] and [cellData] come from the caller. *)
Definition GenerateVertexData (voxels : list Z) (edges : gmap Z EdgeInfo)
    (vertexIndices0 : gmap Z Z) (numVertices0 : Z) (cellData0 : list float)
    : vertex_state :=
  foldl (place_vertex edges)
        (mkVertexState vertexIndices0 [] numVertices0 0 cellData0 [])
        voxels.

(** *** Triangulator *)

Definition edge_axis (edge : Z) : Z := Z.land (Z.shiftr edge 30) 0xff.

(** [edge & ~0xc0000000], stored in an [int]. *)
Definition edge_nodeID (edge : Z) : Z :=
  s32 (Z.land edge (u32 (Z.lnot 0xc0000000))).

(** [voxelIDs[i]] *)
Definition voxelIDs (edge i : Z) : Z :=
  u32 (edge_nodeID edge
       - table_read oob ENCODED_EDGE_NODE_OFFSETS (edge_axis edge * 4 + i)).

Definition find_voxel (vertexIndices : gmap Z Z) (edge i : Z) (f : found_voxels)
    : found_voxels :=
  match vertexIndices !! voxelIDs edge i with
  | Some v => mkFound (edgeVoxels f ++ [v]) (numFoundVoxels f + 1)
  | None => f
  end.

Definition find_voxels (vertexIndices : gmap Z Z) (edge : Z) : found_voxels :=
  for_range 4 (find_voxel vertexIndices edge) (mkFound [] 0).

(** Reading [edgeVoxels[k]]. *)
Definition edgeVoxel (f : found_voxels) (k : nat) : Z := nth k (edgeVoxels f) 0.

(** The body of the loop over the recorded edges. *)
Definition triangulate_edge (vertexIndices : gmap Z Z) (buffer : MeshBuffer)
    (pair : Z * EdgeInfo) : MeshBuffer :=
  let edge := fst pair in
  let info := snd pair in
  let f := find_voxels vertexIndices edge in
  if numFoundVoxels f <? 4 then buffer
  else
    let tris :=
      if winding info then
        [ mkMeshTriangle (edgeVoxel f 0) (edgeVoxel f 1) (edgeVoxel f 3);
          mkMeshTriangle (edgeVoxel f 0) (edgeVoxel f 3) (edgeVoxel f 2) ]
      else
        [ mkMeshTriangle (edgeVoxel f 0) (edgeVoxel f 3) (edgeVoxel f 1);
          mkMeshTriangle (edgeVoxel f 0) (edgeVoxel f 2) (edgeVoxel f 3) ] in
    mkMeshBuffer (vertices buffer) (numVertices buffer)
                 (triangles buffer ++ tris) (numTriangles buffer + 2).

(** [edges] is the edge map in iteration order; the triangle array is
    freshly allocated. *)
Definition GenerateTriangles (edges : list (Z * EdgeInfo)) (vertexIndices : gmap Z Z)
    (buffer : MeshBuffer) : MeshBuffer :=
  foldl (triangulate_edge vertexIndices)
        (mkMeshBuffer (vertices buffer) (numVertices buffer) [] (numTriangles buffer))
        edges.

(** *** MeshGenerator *)

(** Everything one call of [GenerateMesh] computes. *)
Record mesh_run : Type := mkRun {
  run_scan : scan_state;
  run_vertex : vertex_state;
  run_buffer : MeshBuffer
}.

Definition GenerateMesh_run (x y z cellSize : Z) (cellData0 : list float) : mesh_run :=
  let sc := FindActiveVoxels (mkScan ∅ ∅) x y z cellSize in
  let vs := GenerateVertexData (iter_set (activeVoxels sc)) (activeEdges sc) ∅ 0 cellData0 in
  let buffer1 := mkMeshBuffer (vs_vertices vs) (vs_numVertices vs) [] 0 in
  mkRun sc vs (GenerateTriangles (iter_map (activeEdges sc)) (vertexIndices vs) buffer1).

Definition GenerateMesh (x y z cellSize : Z) (cellData0 : list float) : MeshBuffer :=
  run_buffer (GenerateMesh_run x y z cellSize cellData0).

End FastDC.

(** ** The steps of the edge search *)

(** The parametric position of step [k]: the [float] [k / 16], which is
    exact in binary32. *)
Definition step_t (k : Z) : float := binary_normalize 24 128 k (-4) false.

(** The magnitude of the density the search sees at step [k] of the
    segment from [p0] to [p1]. *)
Definition sample_magnitude (Density_Func : vec3 -> float)
    (glm_mix : vec4 -> vec4 -> float -> vec4) (p0 p1 : vec4) (k : Z) : float :=
  glm_abs (Density Density_Func (glm_mix p0 p1 (step_t k))).

(** The samples of a search are ordinary numbers: none is a NaN and none
    exceeds [FLT_MAX]. *)
Definition finite_samples (d : Z -> float) : Prop :=
  forall j : Z, 0 <= j < 16 -> d j <> S754_nan /\ flt FLT_MAX (d j) = false.


(** After [i] iterations the search holds either its initial values,
    no sample so far having been below [FLT_MAX], or the step [k] of the
    last strict improvement. *)
Definition search_inv (d : Z -> float) (i : Z) (s : search_state) : Prop :=
  currentT s = step_t i /\
  ((minValue s = FLT_MAX /\ best_t s = f0 /\
    forall j, 0 <= j < i -> flt (d j) FLT_MAX = false)
   \/
   (exists k, 0 <= k < i /\ best_t s = step_t k /\ minValue s = d k /\
      (finite_samples d ->
         (forall j, 0 <= j < i -> flt (d j) (d k) = false) /\
         (forall j, 0 <= j < k -> flt (d k) (d j) = true)))).

(** ** What the scanner records, stated on grid coordinates *)

Section Recorded.

Variable Density_Func : vec3 -> float.
Variable glm_mix : vec4 -> vec4 -> float -> vec4.
Variable glm_mix3 : vec3 -> vec3 -> float -> vec3.
Variable glm_normalize : vec4 -> vec4.
Variables worldX worldY worldZ voxelGridSize : Z.

Definition in_grid (x y z : Z) : Prop :=
  0 <= x < voxelGridSize /\ 0 <= y < voxelGridSize /\ 0 <= z < voxelGridSize.

(** The two endpoints of the grid edge that leaves corner [(x, y, z)]
    along [axis]. *)
Definition lower_endpoint (x y z : Z) : vec4 :=
  corner_position worldX worldY worldZ voxelGridSize x y z.
Definition upper_endpoint (x y z axis : Z) : vec4 :=
  vec4_add (lower_endpoint x y z) (AXIS_OFFSET axis).

Definition crossing_edge (x y z axis : Z) : bool :=
  zeroCrossing (Density Density_Func (lower_endpoint x y z))
               (Density Density_Func (upper_endpoint x y z axis)).

(** [code] and [info] are what the scanner stores for some crossing
    edge of the grid. *)
Definition recorded_edge (code : Z) (info : EdgeInfo) : Prop :=
  exists x y z axis : Z,
    in_grid x y z /\ 0 <= axis < 3 /\
    crossing_edge x y z axis = true /\
    code = EncodeAxisUniqueID axis x y z /\
    info = edge_info Density_Func glm_mix glm_mix3 glm_normalize
             (lower_endpoint x y z) (upper_endpoint x y z axis).

(** [id] identifies one of the four voxels around an edge of the grid
    whose key is in [edges], and that voxel has no negative
    coordinate. *)
Definition activated_voxel (edges : gmap Z EdgeInfo) (id : Z) : Prop :=
  exists x y z axis i : Z,
    in_grid x y z /\ 0 <= axis < 3 /\ 0 <= i < 4 /\
    is_Some (edges !! EncodeAxisUniqueID axis x y z) /\
    let nodeIdxPos := ivec4_sub (Ivec4 x y z 0) (edge_node_offset axis i) in
    0 <= ix nodeIdxPos /\ 0 <= iy nodeIdxPos /\ 0 <= iz nodeIdxPos /\
    id = EncodeVoxelUniqueID nodeIdxPos.

Definition scan_inv (st : scan_state) : Prop :=
  (forall id : Z, id ∈ activeVoxels st -> activated_voxel (activeEdges st) id) /\
  (forall (code : Z) (info : EdgeInfo),
      activeEdges st !! code = Some info -> recorded_edge code info).

End Recorded.

(** ** What the vertex placer computes for a voxel, stated on its edges *)

Section Placed.

Variable qef_solve_from_points_4d : list vec4 -> list vec4 -> Z -> vec4.
Variable oob : Z -> Z.
Variable edges : gmap Z EdgeInfo.

(** The crossings recorded on the 12 canonical edges of a voxel, in
    table order. *)
Definition recorded_canonical_edges (voxelID : Z) : list EdgeInfo :=
  omap (find_edge oob edges voxelID) (seqZ 0 12).

Definition crossing_count (voxelID : Z) : Z :=
  Z.of_nat (length (recorded_canonical_edges voxelID)).

Definition contributing_positions (voxelID : Z) : list vec4 :=
  map pos (recorded_canonical_edges voxelID).
Definition contributing_normals (voxelID : Z) : list vec4 :=
  map normal (recorded_canonical_edges voxelID).

(** The keys of the 12 canonical edges of a voxel. *)
Definition canonical_edge_keys (voxelID : Z) : list Z :=
  map (fun i => u32 (voxelID + table_read oob ENCODED_EDGE_OFFSETS i)) (seqZ 0 12).

(** The sum of the vectors of a list, from the zero vector, left to
    right. *)
Definition vec4_sum (l : list vec4) : vec4 := foldl vec4_add (Vec4 f0 f0 f0 f0) l.

(** The unweighted mean as the program forms it: the sum times the
    reciprocal of the count. *)
Definition unweighted_mean (l : list vec4) : vec4 :=
  vec4_scale (vec4_sum l) (fdiv f1 (float_of_int (Z.of_nat (length l)))).

(** The solver invocation made for a voxel. *)
Definition solver_call (voxelID : Z) : qef_call :=
  mkQefCall (contributing_positions voxelID) (contributing_normals voxelID)
            (crossing_count voxelID).

(** The vertex of a voxel with at least two crossings. *)
Definition placed_vertex (voxelID : Z) : MeshVertex :=
  mkMeshVertex
    (qef_solve_from_points_4d (contributing_positions voxelID)
                              (contributing_normals voxelID)
                              (crossing_count voxelID))
    (unweighted_mean (contributing_normals voxelID)).

(** The voxels of a list that have at least two crossings, in order. *)
Definition placed_voxels (voxels : list Z) : list Z :=
  filter (fun v => 2 <= crossing_count v) voxels.


(** Every index handed out so far is below the counter, and the counter
    is the number of vertices written. *)
Definition indices_below_counter (numVertices0 : Z) (st : vertex_state) : Prop :=
  idxCounter st = Z.of_nat (length (vs_vertices st)) /\
  vs_numVertices st = numVertices0 + idxCounter st /\
  (forall v i, vertexIndices st !! v = Some i -> 0 <= i < idxCounter st).

(** The exact contents of the placer's state after a duplicate-free list
    of voxels. *)
Definition placer_state_of (voxels : list Z) (n0 : Z) (st : vertex_state) : Prop :=
  vs_vertices st = map placed_vertex (placed_voxels voxels) /\
  idxCounter st = Z.of_nat (length (placed_voxels voxels)) /\
  vs_numVertices st = n0 + Z.of_nat (length (placed_voxels voxels)) /\
  (forall v i, vertexIndices st !! v = Some i <->
               exists k : nat, i = Z.of_nat k /\ placed_voxels voxels !! k = Some v) /\
  size (vertexIndices st) = length (placed_voxels voxels) /\
  omap (fun v => vertexIndices st !! v) voxels = seqZ 0 (idxCounter st) /\
  qefCalls st = map solver_call voxels.

End Placed.

(** ** What the triangulator emits for an edge, stated on its four voxels *)

Section Quads.

Variable oob : Z -> Z.
Variable vertexIndices : gmap Z Z.

(** The vertex indices of the four voxels around an edge, in corner
    order, when all four have one. *)
Definition resolved_voxels (edge : Z) : option (Z * Z * Z * Z) :=
  match vertexIndices !! voxelIDs oob edge 0, vertexIndices !! voxelIDs oob edge 1,
        vertexIndices !! voxelIDs oob edge 2, vertexIndices !! voxelIDs oob edge 3 with
  | Some v0, Some v1, Some v2, Some v3 => Some (v0, v1, v2, v3)
  | _, _, _, _ => None
  end.

(** The two triangles of a quad, by winding. *)
Definition quad_triangles (flag : bool) (q : Z * Z * Z * Z) : list MeshTriangle :=
  let '(v0, v1, v2, v3) := q in
  if flag
  then [ mkMeshTriangle v0 v1 v3; mkMeshTriangle v0 v3 v2 ]
  else [ mkMeshTriangle v0 v3 v1; mkMeshTriangle v0 v2 v3 ].

Definition emitted_triangles (pair : Z * EdgeInfo) : list MeshTriangle :=
  match resolved_voxels (fst pair) with
  | Some q => quad_triangles (winding (snd pair)) q
  | None => []
  end.

(** The edges of a list that resolve all four voxels. *)
Definition resolved_edges (edges : list (Z * EdgeInfo)) : list (Z * EdgeInfo) :=
  filter (fun pair => is_Some (resolved_voxels (fst pair))) edges.

Definition triangle_indices_below (bound : Z) (t : MeshTriangle) : Prop :=
  0 <= indices_0 t < bound /\ 0 <= indices_1 t < bound /\ 0 <= indices_2 t < bound.

End Quads.

(** ** A reference instance of the collaborators

    A plane as density field, [glm]'s formulas for [mix] and [normalize],
    the centroid of the samples in place of the QEF solver, and stdpp's
    enumerations as iteration orders.  The instance is used to run the
    pipeline on concrete grids. *)

Module Reference.

(** The plane [x = 1/4]: negative below, positive above. *)
Definition Density_Func (p : vec3) : float :=
  fsub (x3 p) (fdiv f1 (float_of_int 4)).

(** [x * (1 - a) + y * a] *)
Definition glm_mix (x y : vec4) (a : float) : vec4 :=
  vec4_add (vec4_scale x (fsub f1 a)) (vec4_scale y a).

Definition glm_mix3 (x y : vec3) (a : float) : vec3 :=
  vec3_of (glm_mix (vec4_of x f0) (vec4_of y f0) a).

Definition dot (a b : vec4) : float :=
  fadd (fadd (fadd (fmul (vx a) (vx b)) (fmul (vy a) (vy b)))
             (fmul (vz a) (vz b)))
       (fmul (vw a) (vw b)).

(** [v * inversesqrt(dot(v, v))] *)
Definition glm_normalize (v : vec4) : vec4 :=
  vec4_scale v (fdiv f1 (SFsqrt 24 128 (dot v v))).

(** The centroid of the sample positions. *)
Definition qef_solve_from_points_4d (p n : list vec4) (count : Z) : vec4 :=
  vec4_scale (foldl vec4_add (Vec4 f0 f0 f0 f0) p) (fdiv f1 (float_of_int count)).

Definition oob (i : Z) : Z := 0.

Definition iter_set (s : gset Z) : list Z := elements s.
Definition iter_map (m : gmap Z EdgeInfo) : list (Z * EdgeInfo) := map_to_list m.

Definition scan (cellSize : Z) : scan_state :=
  FindActiveVoxels Density_Func glm_mix glm_mix3 glm_normalize
    (mkScan ∅ ∅) 0 0 0 cellSize.

Definition run (cellSize : Z) : mesh_run :=
  GenerateMesh_run Density_Func qef_solve_from_points_4d glm_mix glm_mix3
    glm_normalize oob iter_set iter_map 0 0 0 cellSize [].

(** The endpoints of the grid edge that leaves corner (0, 0, 0) along x
    in the one-cell grid. *)
Definition p0 : vec4 := corner_position 0 0 0 1 0 0 0.
Definition p1 : vec4 := vec4_add p0 (AXIS_OFFSET 0).

(** The edges recorded on the grid of 3 cells per axis, and three of its
    active voxels: (1, 0, 0), (1, 1, 0) and (1, 2, 0). *)
Definition edges3 : gmap Z EdgeInfo := activeEdges (scan 3).
Definition voxels3 : list Z := [1; 1025; 2049].

(** An edge on the lower y boundary of a grid of 1024 cells per axis: the
    x edge based at (512, 0, 2), with a vertex index for each of the four
    voxels (512, 0, 2), (512, 0, 1), (512, 1023, 1) and (512, 1023, 0). *)
Definition boundary_edge : Z := EncodeAxisUniqueID 0 512 0 2.
Definition boundary_indices : gmap Z Z :=
  <[ EncodeVoxelUniqueID (Ivec4 512 0 2 0) := 0 ]>
    (<[ EncodeVoxelUniqueID (Ivec4 512 0 1 0) := 1 ]>
       (<[ EncodeVoxelUniqueID (Ivec4 512 1023 1 0) := 2 ]>
          (<[ EncodeVoxelUniqueID (Ivec4 512 1023 0 0) := 3 ]> ∅))).

(** The sphere of radius 3/2 about the origin, as [|p|^2 - 9/4]. *)
Definition sphere (p : vec3) : float :=
  fsub (fadd (fadd (fmul (x3 p) (x3 p)) (fmul (y3 p) (y3 p))) (fmul (z3 p) (z3 p)))
       (fdiv (float_of_int 9) (float_of_int 4)).

(** The slab [|y + 506| < 1/2]: on a grid of 1024 cells per axis about
    the origin it holds the corners with y = 6 and no others. *)
Definition slab (p : vec3) : float :=
  fsub (glm_abs (fadd (y3 p) (float_of_int 506))) (fdiv f1 (float_of_int 2)).


End Reference.

(** ** The super primitive *)

Record vec2 : Type := Vec2 { x2 : float; y2 : float }.

(** Unary minus on a [float]. *)
Definition fneg (a : float) : float := SFopp a.

(** [glm::max(a, b)] is [(a < b) ? b : a] and [glm::min(a, b)] is
    [(b < a) ? b : a]. *)
Definition glm_max (a b : float) : float := if flt a b then b else a.
Definition glm_min (a b : float) : float := if flt b a then b else a.

(** [glm::length] of a [vec2] is a parameter. *)
Definition sdSuperprim (glm_length : vec2 -> float) (p : vec3) (s : vec4) (r : vec2)
    : float :=
  let d := Vec3 (fsub (glm_abs (x3 p)) (vx s))
                (fsub (glm_abs (y3 p)) (vy s))
                (fsub (glm_abs (z3 p)) (vz s)) in
  let q0 := glm_length (Vec2 (glm_max (fadd (x3 d) (x2 r)) f0)
                             (glm_max (fadd (y3 d) (x2 r)) f0)) in
  let q1 := fadd q0 (glm_min (fneg (x2 r)) (glm_max (x3 d) (y3 d))) in
  let q := fsub (glm_abs (fadd q1 (vw s))) (vw s) in
  fadd (glm_length (Vec2 (glm_max (fadd q (y2 r)) f0)
                         (glm_max (fadd (z3 d) (y2 r)) f0)))
       (glm_min (fneg (y2 r)) (glm_max q (z3 d))).

(** ** Crossing edges and their neighbours, stated on grid coordinates *)

Section Crossing.

Variable Density_Func : vec3 -> float.
Variables worldX worldY worldZ voxelGridSize : Z.

(** [id] identifies a voxel without negative coordinate around a crossing
    edge of the grid. *)
Definition crossing_neighbour (id : Z) : Prop :=
  exists x y z axis i : Z,
    in_grid voxelGridSize x y z /\ 0 <= axis < 3 /\ 0 <= i < 4 /\
    crossing_edge Density_Func worldX worldY worldZ voxelGridSize x y z axis = true /\
    let nodeIdxPos := ivec4_sub (Ivec4 x y z 0) (edge_node_offset axis i) in
    0 <= ix nodeIdxPos /\ 0 <= iy nodeIdxPos /\ 0 <= iz nodeIdxPos /\
    id = EncodeVoxelUniqueID nodeIdxPos.

(** The density is outside ([>= 0]) or inside ([< 0]) at a corner. *)
Definition outside_at (p : vec4) : bool := fge (Density Density_Func p) f0.
Definition inside_at (p : vec4) : bool := flt (Density Density_Func p) f0.

End Crossing.

(** The three floats the placer appends to [cellData] for a voxel. *)
Definition logged_position (qef_solve_from_points_4d : list vec4 -> list vec4 -> Z -> vec4)
    (oob : Z -> Z) (edges : gmap Z EdgeInfo) (voxelID : Z) : list float :=
  let g := gather_edges oob edges voxelID in
  let nodePos := qef_solve_from_points_4d (g_p g) (g_n g) (g_idx g) in
  [vx nodePos; vy nodePos; vz nodePos].

(** The three indices of a triangle are pairwise different. *)
Definition distinct_indices (t : MeshTriangle) : Prop :=
  indices_0 t <> indices_1 t /\ indices_0 t <> indices_2 t /\ indices_1 t <> indices_2 t.

(** ** The claims' words, on grid coordinates *)

(** The mean as a quotient: the sum of the vectors divided by their
    number, component by component. *)
Definition mean_by_division (l : list vec4) : vec4 :=
  let s := foldl vec4_add (Vec4 f0 f0 f0 f0) l in
  let n := float_of_int (Z.of_nat (length l)) in
  Vec4 (fdiv (vx s) n) (fdiv (vy s) n) (fdiv (vz s) n) (fdiv (vw s) n).

(** The 12 canonical edges of a voxel: an axis and one of its four
    edge-base offsets. *)
Definition canonical_edges : list (Z * Z) :=
  flat_map (fun a => map (fun i => (a, i)) (seqZ 0 4)) (seqZ 0 3).

(** The key of a canonical edge of the voxel at [(x, y, z)] when the
    edge is an edge of the grid, that is, when its base corner is a corner
    the scanner visits. *)
Definition grid_canonical_edge_key (cellSize x y z : Z) (e : Z * Z) : option Z :=
  let o := canonical_edge_base_offset (fst e) (snd e) in
  if (x + ix o <? cellSize) && (y + iy o <? cellSize) && (z + iz o <? cellSize)
  then Some (EncodeAxisUniqueID (fst e) (x + ix o) (y + iy o) (z + iz o))
  else None.

(** How many of the 12 canonical edges of the voxel at [(x, y, z)] are
    edges of the grid with a crossing in [edges]. *)
Definition recorded_crossings (edges : gmap Z EdgeInfo) (cellSize x y z : Z) : Z :=
  Z.of_nat (length (filter (fun k => is_Some (edges !! k))
                           (omap (grid_canonical_edge_key cellSize x y z) canonical_edges))).

(** * Properties *)

(** ** Bit-level facts *)

Lemma u32_small z : 0 <= z < 2 ^ 32 -> u32 z = z.
Proof. intros H. unfold u32. apply Z.mod_small. exact H. Qed.

Lemma s32_small z : - 2 ^ 31 <= z < 2 ^ 31 -> s32 z = z.
Proof. intros H. unfold s32. rewrite Z.mod_small; lia. Qed.

Lemma testbit_high (k a n : Z) : 0 <= k -> 0 <= a < 2 ^ k -> k <= n -> Z.testbit a n = false.
Proof.
  intros Hk Ha Hn.
  rewrite <- (Z.mod_small a (2 ^ k)) by exact Ha.
  apply Z.mod_pow2_bits_high. lia.
Qed.

Lemma lor_shifted_add (k a b : Z) :
  0 <= k -> 0 <= a < 2 ^ k -> Z.lor a (b * 2 ^ k) = a + b * 2 ^ k.
Proof.
  intros Hk Ha.
  assert (Hland : Z.land a (b * 2 ^ k) = 0).
  { apply Z.bits_inj'. intros n Hn.
    rewrite Z.land_spec, Z.bits_0.
    destruct (Z.lt_ge_cases n k) as [Hlt | Hge].
    - rewrite (Z.mul_pow2_bits_low b k n) by lia. apply andb_false_r.
    - rewrite (testbit_high k a n) by lia. reflexivity. }
  rewrite <- Z.lxor_lor by exact Hland.
  symmetry. apply Z.add_nocarry_lxor. exact Hland.
Qed.

Lemma encode_voxel_arith x y z w :
  0 <= x < 1024 -> 0 <= y < 1024 -> 0 <= z < 1024 ->
  EncodeVoxelUniqueID (Ivec4 x y z w) = x + y * 2 ^ 10 + z * 2 ^ 20.
Proof.
  intros Hx Hy Hz. unfold EncodeVoxelUniqueID. cbn [ix iy iz].
  rewrite !Z.shiftl_mul_pow2 by lia.
  rewrite !s32_small by lia.
  rewrite (lor_shifted_add 10 x y) by lia.
  rewrite (lor_shifted_add 20 (x + y * 2 ^ 10) z) by lia.
  apply u32_small. lia.
Qed.

Lemma u32_range z : 0 <= u32 z < 2 ^ 32.
Proof. unfold u32. apply Z.mod_pos_bound. lia. Qed.

Lemma u32_land z : u32 z = Z.land z (Z.ones 32).
Proof. unfold u32. symmetry. apply Z.land_ones. lia. Qed.

Lemma u32_lor a b : u32 (Z.lor a b) = Z.lor (u32 a) (u32 b).
Proof. rewrite !u32_land. apply Z.land_lor_distr_l. Qed.

Lemma u32_s32 z : u32 (s32 z) = u32 z.
Proof.
  unfold u32, s32. rewrite Zminus_mod_idemp_l. f_equal. lia.
Qed.

Lemma encode_axis_arith a x y z :
  0 <= a < 4 -> 0 <= x < 1024 -> 0 <= y < 1024 -> 0 <= z < 1024 ->
  EncodeAxisUniqueID a x y z = x + y * 2 ^ 10 + z * 2 ^ 20 + a * 2 ^ 30.
Proof.
  intros Ha Hx Hy Hz. unfold EncodeAxisUniqueID.
  rewrite !u32_lor, !u32_s32.
  rewrite !Z.shiftl_mul_pow2 by lia.
  rewrite !u32_small by lia.
  rewrite Z.pow_0_r, Z.mul_1_r.
  rewrite (lor_shifted_add 10 x y) by lia.
  rewrite (lor_shifted_add 20 (x + y * 2 ^ 10) z) by lia.
  rewrite (lor_shifted_add 30 (x + y * 2 ^ 10 + z * 2 ^ 20) a) by lia.
  reflexivity.
Qed.

Lemma decode_arith x y z r :
  0 <= x < 1024 -> 0 <= y < 1024 -> 0 <= z < 1024 -> 0 <= r ->
  DecodeVoxelUniqueID (x + y * 2 ^ 10 + z * 2 ^ 20 + r * 2 ^ 30) = Ivec4 x y z 0.
Proof.
  intros Hx Hy Hz Hr. unfold DecodeVoxelUniqueID.
  change 0x3ff with (Z.ones 10).
  rewrite !Z.land_ones, !Z.shiftr_div_pow2 by lia.
  f_equal.
  - Z.div_mod_to_equations. lia.
  - Z.div_mod_to_equations. lia.
  - Z.div_mod_to_equations. lia.
Qed.

Lemma decode_range id :
  0 <= ix (DecodeVoxelUniqueID id) < 1024 /\
  0 <= iy (DecodeVoxelUniqueID id) < 1024 /\
  0 <= iz (DecodeVoxelUniqueID id) < 1024.
Proof.
  unfold DecodeVoxelUniqueID. cbn [ix iy iz].
  change 0x3ff with (Z.ones 10).
  rewrite !Z.land_ones by lia.
  change (2 ^ 10) with 1024.
  repeat split; apply Z.mod_pos_bound; lia.
Qed.

Lemma decode_encode x y z w :
  0 <= x < 1024 -> 0 <= y < 1024 -> 0 <= z < 1024 ->
  DecodeVoxelUniqueID (EncodeVoxelUniqueID (Ivec4 x y z w)) = Ivec4 x y z 0.
Proof.
  intros Hx Hy Hz.
  rewrite encode_voxel_arith by assumption.
  replace (x + y * 2 ^ 10 + z * 2 ^ 20)
    with (x + y * 2 ^ 10 + z * 2 ^ 20 + 0 * 2 ^ 30) by lia.
  apply decode_arith; lia.
Qed.

(** C5: on coordinates in [0, 1024) decoding an encoded voxel gives the
    coordinates back, and so two voxels with the same identifier are the
    same voxel. *)
Theorem C5_decode_encode_roundtrip :
  forall x y z w : Z,
    0 <= x < 1024 -> 0 <= y < 1024 -> 0 <= z < 1024 ->
    let d := DecodeVoxelUniqueID (EncodeVoxelUniqueID (Ivec4 x y z w)) in
    (ix d = x /\ iy d = y /\ iz d = z) /\
    (forall x' y' z' w' : Z,
        0 <= x' < 1024 -> 0 <= y' < 1024 -> 0 <= z' < 1024 ->
        EncodeVoxelUniqueID (Ivec4 x y z w) = EncodeVoxelUniqueID (Ivec4 x' y' z' w') ->
        x = x' /\ y = y' /\ z = z').
Proof.
  intros x y z w Hx Hy Hz d. subst d. split.
  - rewrite decode_encode by assumption. cbn. auto.
  - intros x' y' z' w' Hx' Hy' Hz' Heq.
    apply (f_equal DecodeVoxelUniqueID) in Heq.
    rewrite !decode_encode in Heq by assumption.
    inversion Heq. auto.
Qed.

Lemma C5_decode_encode_roundtrip_witness :
  ix (DecodeVoxelUniqueID (EncodeVoxelUniqueID (Ivec4 1023 5 700 0))) = 1023 /\
  iy (DecodeVoxelUniqueID (EncodeVoxelUniqueID (Ivec4 1023 5 700 0))) = 5 /\
  iz (DecodeVoxelUniqueID (EncodeVoxelUniqueID (Ivec4 1023 5 700 0))) = 700.
Proof.
  exact (proj1 (C5_decode_encode_roundtrip 1023 5 700 0
                  ltac:(lia) ltac:(lia) ltac:(lia))).
Defined.

Lemma edge_key_fields a x y z :
  0 <= a < 4 -> 0 <= x < 1024 -> 0 <= y < 1024 -> 0 <= z < 1024 ->
  edge_axis (EncodeAxisUniqueID a x y z) = a /\
  edge_nodeID (EncodeAxisUniqueID a x y z) = x + y * 2 ^ 10 + z * 2 ^ 20.
Proof.
  intros Ha Hx Hy Hz. rewrite encode_axis_arith by assumption.
  unfold edge_axis, edge_nodeID. split.
  - change 0xff with (Z.ones 8).
    rewrite Z.land_ones, Z.shiftr_div_pow2 by lia.
    Z.div_mod_to_equations. lia.
  - change (u32 (Z.lnot 0xc0000000)) with (Z.ones 30).
    rewrite Z.land_ones by lia.
    rewrite s32_small.
    + Z.div_mod_to_equations. lia.
    + assert (0 <= (x + y * 2 ^ 10 + z * 2 ^ 20 + a * 2 ^ 30) mod 2 ^ 30 < 2 ^ 30)
        by (apply Z.mod_pos_bound; lia).
      lia.
Qed.

(** Case analysis on an axis in 0..2 and a corner in 0..3. *)
Ltac axis_corner_cases a i :=
  let Ha := fresh in
  let Hi := fresh in
  assert (Ha : a = 0 \/ a = 1 \/ a = 2) by lia;
  assert (Hi : i = 0 \/ i = 1 \/ i = 2 \/ i = 3) by lia;
  destruct Ha as [-> | [-> | ->]];
  destruct Hi as [-> | [-> | [-> | ->]]].

(** Replace the table entries at constant indices by their values. *)
Ltac eval_entry t := let v := eval vm_compute in t in change t with v.
Ltac eval_tables :=
  repeat match goal with
    | |- context [table_read ?o ?T ?k] => progress eval_entry (table_read o T k)
    | |- context [edge_node_offset ?a ?i] => progress eval_entry (edge_node_offset a i)
    | |- context [canonical_edge_base_offset ?a ?i] =>
        progress eval_entry (canonical_edge_base_offset a i)
    end.

Lemma voxelIDs_from_coordinates oob a i x y z :
  0 <= a < 3 -> 0 <= i < 4 ->
  0 <= x < 1024 -> 0 <= y < 1024 -> 0 <= z < 1024 ->
  0 <= x - ix (edge_node_offset a i) ->
  0 <= y - iy (edge_node_offset a i) ->
  0 <= z - iz (edge_node_offset a i) ->
  voxelIDs oob (EncodeAxisUniqueID a x y z) i = edge_voxel_id a i x y z.
Proof.
  intros Ha Hi Hx Hy Hz Hox Hoy Hoz.
  unfold voxelIDs, edge_voxel_id.
  destruct (edge_key_fields a x y z ltac:(lia) Hx Hy Hz) as [-> ->].
  axis_corner_cases a i;
    revert Hox Hoy Hoz; eval_tables; unfold ivec4_sub; cbn [ix iy iz iw];
    intros Hox Hoy Hoz;
    rewrite !s32_small by lia;
    rewrite encode_voxel_arith by lia;
    rewrite u32_small by lia; lia.
Qed.

Lemma canonical_edge_key oob a i x y z :
  0 <= a < 3 -> 0 <= i < 4 ->
  0 <= x -> 0 <= y -> 0 <= z ->
  x + ix (canonical_edge_base_offset a i) < 1024 ->
  y + iy (canonical_edge_base_offset a i) < 1024 ->
  z + iz (canonical_edge_base_offset a i) < 1024 ->
  u32 (EncodeVoxelUniqueID (Ivec4 x y z 0)
       + table_read oob ENCODED_EDGE_OFFSETS (4 * a + i))
  = canonical_edge_id a i x y z.
Proof.
  intros Ha Hi Hx Hy Hz Hox Hoy Hoz.
  unfold canonical_edge_id.
  axis_corner_cases a i;
    eval_tables; cbn [ix iy iz iw];
    (assert (x < 1024 /\ y < 1024 /\ z < 1024) as (Hx' & Hy' & Hz')
       by (revert Hox Hoy Hoz; eval_tables; cbn [ix iy iz iw]; lia));
    revert Hox Hoy Hoz; eval_tables; cbn [ix iy iz iw]; intros Hox Hoy Hoz;
    rewrite encode_voxel_arith by lia;
    rewrite encode_axis_arith by lia;
    rewrite u32_small by lia; lia.
Qed.

(** Where a coordinate minus its offset is negative the packed subtraction
    borrows from the next field: for the x edge based at (512, 0, 2) the
    triangulator's third candidate is voxel (512, 1023, 1), while the 3D
    computation gives the y coordinate -1, whose identifier is no voxel's;
    with indices for the four candidates the edge yields a quad. *)
Lemma table_lookup_borrows_at_lower_boundary :
  iy (ivec4_sub (Ivec4 512 0 2 0) (edge_node_offset 0 2)) = -1 /\
  voxelIDs Reference.oob Reference.boundary_edge 2
    = EncodeVoxelUniqueID (Ivec4 512 1023 1 0) /\
  edge_voxel_id 0 2 512 0 2 = 0xFFFFFE00 /\
  voxelIDs Reference.oob Reference.boundary_edge 2 <> edge_voxel_id 0 2 512 0 2 /\
  Reference.boundary_indices !! voxelIDs Reference.oob Reference.boundary_edge 2 = Some 2 /\
  Reference.boundary_indices !! edge_voxel_id 0 2 512 0 2 = None /\
  triangles (triangulate_edge Reference.oob Reference.boundary_indices
               (mkMeshBuffer [] 4 [] 0)
               (Reference.boundary_edge, mkEdgeInfo vec4_default vec4_default false))
  = [ mkMeshTriangle 0 3 1; mkMeshTriangle 0 2 3 ].
Proof.
  split; [reflexivity |].
  split; [vm_compute; reflexivity |].
  split; [vm_compute; reflexivity |].
  split; [vm_compute; discriminate |].
  split; [vm_compute; reflexivity |].
  split; [vm_compute; reflexivity |].
  vm_compute. reflexivity.
Qed.

(** The four edges along an axis are listed in a different order in the
    two tables for axis 1: the voxel table follows [EDGE_NODE_OFFSETS],
    the edge table lists the offsets in increasing (x, z) order. *)
Remark edge_tables_order_on_axis_1 :
  canonical_edge_base_offset 1 1 = Ivec4 0 0 1 0 /\
  edge_node_offset 1 1 = Ivec4 1 0 0 0 /\
  canonical_edge_base_offset 1 2 = edge_node_offset 1 1.
Proof. repeat split. Qed.

(** ** Loops *)

Lemma foldl_invariant {S A : Type} (P : S -> Prop) (f : S -> A -> S) (l : list A) (s : S) :
  P s -> (forall x s, x ∈ l -> P s -> P (f s x)) -> P (foldl f s l).
Proof.
  revert s. induction l as [| x l IH]; intros s Hs Hstep; cbn.
  - exact Hs.
  - apply IH.
    + apply Hstep; [left | exact Hs].
    + intros y s' Hy. apply Hstep. right. exact Hy.
Qed.

Lemma for_range_invariant {S : Type} (P : S -> Prop) (n : Z) (body : Z -> S -> S) (s : S) :
  P s -> (forall i s, 0 <= i < n -> P s -> P (body i s)) -> P (for_range n body s).
Proof.
  intros Hs Hstep. unfold for_range. apply foldl_invariant; [exact Hs |].
  intros i s' Hi. apply Hstep. apply elem_of_seqZ in Hi. lia.
Qed.

Lemma omap_length_le {A B : Type} (f : A -> option B) (l : list A) :
  (length (omap f l) <= length l)%nat.
Proof.
  induction l as [| x l IH]; cbn; [lia |].
  destruct (f x); cbn; lia.
Qed.

(** The invariant may depend on the number of iterations done. *)
Lemma for_range_counted {S : Type} (P : Z -> S -> Prop) (n : Z) (body : Z -> S -> S) (s : S) :
  0 <= n -> P 0 s ->
  (forall i s, 0 <= i < n -> P i s -> P (i + 1) (body i s)) ->
  P n (for_range n body s).
Proof.
  intros Hn Hs Hstep. unfold for_range.
  rewrite <- (Z2Nat.id n) in Hstep |- * by exact Hn.
  induction (Z.to_nat n) as [| k IH].
  - exact Hs.
  - rewrite seqZ_S, foldl_app. cbn [foldl].
    replace (Z.of_nat (Datatypes.S k)) with (Z.of_nat k + 1) by lia.
    rewrite Z.add_0_l. apply Hstep; [lia |].
    apply IH. intros i s' Hi. apply Hstep. lia.
Qed.

(** ** The scanner *)

Section Scanner.

Variable Density_Func : vec3 -> float.
Variable glm_mix : vec4 -> vec4 -> float -> vec4.
Variable glm_mix3 : vec3 -> vec3 -> float -> vec3.
Variable glm_normalize : vec4 -> vec4.
Variables worldX worldY worldZ voxelGridSize : Z.

Local Abbreviation scan_axis' :=
  (scan_axis Density_Func glm_mix glm_mix3 glm_normalize
             worldX worldY worldZ voxelGridSize).
Local Abbreviation inv :=
  (scan_inv Density_Func glm_mix glm_mix3 glm_normalize
            worldX worldY worldZ voxelGridSize).

Lemma insert_edge_nodes_elem idxPos axis (V : gset Z) id :
  id ∈ for_range 4 (insert_edge_node idxPos axis) V ->
  id ∈ V \/
  exists i, 0 <= i < 4 /\
    let nodeIdxPos := ivec4_sub idxPos (edge_node_offset axis i) in
    0 <= ix nodeIdxPos /\ 0 <= iy nodeIdxPos /\ 0 <= iz nodeIdxPos /\
    id = EncodeVoxelUniqueID nodeIdxPos.
Proof.
  revert id.
  apply (for_range_invariant (fun V' : gset Z => forall id, id ∈ V' -> _)).
  - intros id Hid. left. exact Hid.
  - intros i V' Hi IH id. unfold insert_edge_node.
    destruct (_ || _) eqn:Hneg.
    + apply IH.
    + intros [Hnew | Hold]%elem_of_union.
      * apply elem_of_singleton in Hnew. right. exists i.
        apply orb_false_elim in Hneg as [Hneg Hz].
        apply orb_false_elim in Hneg as [Hx Hy].
        cbv zeta. repeat split; first [lia | exact Hnew].
      * apply IH. exact Hold.
Qed.

Lemma scan_axis_inv x y z axis st :
  in_grid voxelGridSize x y z -> 0 <= axis < 3 ->
  inv st -> inv (scan_axis' x y z axis st).
Proof.
  intros Hgrid Haxis [Hvox Hedge]. unfold scan_axis.
  destruct (negb _) eqn:Hcross; [split; assumption |].
  apply negb_false_iff in Hcross.
  split; cbn [activeVoxels activeEdges].
  - intros id Hid. apply insert_edge_nodes_elem in Hid as [Hold | (i & Hi & Hn)].
    + destruct (Hvox id Hold) as (x' & y' & z' & a' & i' & Hg & Ha & Hi & Hsome & Hn).
      exists x', y', z', a', i'.
      split; [exact Hg |]. split; [exact Ha |]. split; [exact Hi |].
      split; [| exact Hn].
      destruct (decide (EncodeAxisUniqueID axis x y z = EncodeAxisUniqueID a' x' y' z'))
        as [Heq | Hne].
      * rewrite <- Heq, lookup_insert_eq. eauto.
      * rewrite lookup_insert_ne by exact Hne. exact Hsome.
    + exists x, y, z, axis, i.
      split; [exact Hgrid |]. split; [exact Haxis |]. split; [exact Hi |].
      split; [| exact Hn].
      rewrite lookup_insert_eq. eauto.
  - intros code info Hlook.
    destruct (decide (EncodeAxisUniqueID axis x y z = code)) as [Heq | Hne].
    + subst code. rewrite lookup_insert_eq in Hlook. inversion Hlook; subst info.
      exists x, y, z, axis.
      split; [exact Hgrid |]. split; [exact Haxis |]. split; [exact Hcross |].
      split; reflexivity.
    + rewrite lookup_insert_ne in Hlook by exact Hne. apply Hedge. exact Hlook.
Qed.

Lemma FindActiveVoxels_inv st :
  inv st ->
  inv (FindActiveVoxels Density_Func glm_mix glm_mix3 glm_normalize
         st worldX worldY worldZ voxelGridSize).
Proof.
  intros Hst. unfold FindActiveVoxels.
  apply for_range_invariant; [exact Hst |]. intros x s1 Hx H1.
  apply for_range_invariant; [exact H1 |]. intros y s2 Hy H2.
  apply for_range_invariant; [exact H2 |]. intros z s3 Hz H3.
  apply for_range_invariant; [exact H3 |]. intros axis s4 Ha H4.
  apply scan_axis_inv; [repeat split; lia | exact Ha | exact H4].
Qed.

Lemma scan_inv_empty : inv (mkScan ∅ ∅).
Proof.
  split; cbn.
  - intros id Hid. apply not_elem_of_empty in Hid. destruct Hid.
  - intros code info Hlook. rewrite lookup_empty in Hlook. discriminate.
Qed.

End Scanner.

(** ** The vertex placer *)

Section VertexPlacer.

Variable qef_solve_from_points_4d : list vec4 -> list vec4 -> Z -> vec4.
Variable oob : Z -> Z.
Variable edges : gmap Z EdgeInfo.

Local Abbreviation place := (place_vertex qef_solve_from_points_4d oob edges).
Local Abbreviation count := (crossing_count oob edges).
Local Abbreviation kept := (placed_voxels oob edges).

Lemma gather_edge_fold voxelID (l : list Z) (g : gathered) :
  foldl (fun g i => gather_edge oob edges voxelID i g) g l
  = mkGathered
      (g_p g ++ map pos (omap (find_edge oob edges voxelID) l))
      (g_n g ++ map normal (omap (find_edge oob edges voxelID) l))
      (g_idx g + Z.of_nat (length (omap (find_edge oob edges voxelID) l))).
Proof.
  revert g. induction l as [| i l IH]; intros g.
  - cbn. rewrite !app_nil_r, Z.add_0_r. destruct g; reflexivity.
  - cbn [foldl]. rewrite IH. unfold gather_edge. cbn [omap list_omap].
    destruct (find_edge oob edges voxelID i) as [info |]; cbn [g_p g_n g_idx].
    + cbn [map length]. rewrite <- !app_assoc. cbn [app]. f_equal. lia.
    + reflexivity.
Qed.

Lemma gather_edges_spec voxelID :
  gather_edges oob edges voxelID
  = mkGathered (contributing_positions oob edges voxelID)
               (contributing_normals oob edges voxelID)
               (count voxelID).
Proof.
  unfold gather_edges, for_range. rewrite gather_edge_fold. reflexivity.
Qed.

Lemma crossing_count_range voxelID : 0 <= count voxelID <= 12.
Proof.
  unfold crossing_count, recorded_canonical_edges.
  pose proof (omap_length_le (find_edge oob edges voxelID) (seqZ 0 12)) as Hlen.
  rewrite length_seqZ in Hlen. change (Z.to_nat 12) with 12%nat in Hlen. lia.
Qed.

Lemma contributing_normals_length voxelID :
  Z.of_nat (length (contributing_normals oob edges voxelID)) = count voxelID.
Proof. unfold contributing_normals. rewrite length_map. reflexivity. Qed.

(** The normal the loop body computes is the mean, whenever there is a
    crossing at all. *)
Lemma node_normal_mean voxelID :
  count voxelID <> 0 ->
  node_normal (gather_edges oob edges voxelID)
  = unweighted_mean (contributing_normals oob edges voxelID).
Proof.
  intros Hne. rewrite gather_edges_spec. unfold node_normal, unweighted_mean, vec4_sum.
  cbn [g_n g_idx]. rewrite contributing_normals_length.
  destruct (Z.eqb_spec (count voxelID) 0) as [Heq | _]; [contradiction | reflexivity].
Qed.

(** One iteration, by the number of crossings found. *)
Lemma place_vertex_placed st voxelID :
  2 <= count voxelID ->
  place st voxelID
  = mkVertexState (<[ voxelID := idxCounter st ]> (vertexIndices st))
      (vs_vertices st ++ [placed_vertex qef_solve_from_points_4d oob edges voxelID])
      (vs_numVertices st + 1) (idxCounter st + 1)
      (cellData st ++
         [vx (xyz (placed_vertex qef_solve_from_points_4d oob edges voxelID));
          vy (xyz (placed_vertex qef_solve_from_points_4d oob edges voxelID));
          vz (xyz (placed_vertex qef_solve_from_points_4d oob edges voxelID))])
      (qefCalls st ++ [solver_call oob edges voxelID]).
Proof.
  intros Hcount. unfold place_vertex.
  rewrite node_normal_mean by lia. rewrite gather_edges_spec. cbn [g_p g_n g_idx].
  destruct (Z.ltb_spec 1 (count voxelID)) as [_ | Hlt]; [reflexivity | lia].
Qed.

Lemma place_vertex_skipped st voxelID :
  count voxelID < 2 ->
  place st voxelID
  = mkVertexState (vertexIndices st) (vs_vertices st) (vs_numVertices st) (idxCounter st)
      (cellData st ++
         [vx (xyz (placed_vertex qef_solve_from_points_4d oob edges voxelID));
          vy (xyz (placed_vertex qef_solve_from_points_4d oob edges voxelID));
          vz (xyz (placed_vertex qef_solve_from_points_4d oob edges voxelID))])
      (qefCalls st ++ [solver_call oob edges voxelID]).
Proof.
  intros Hcount. unfold place_vertex.
  rewrite gather_edges_spec. cbn [g_p g_n g_idx].
  destruct (Z.ltb_spec 1 (count voxelID)) as [Hlt | _]; [lia | reflexivity].
Qed.

End VertexPlacer.

Section VertexLoop.

Variable qef_solve_from_points_4d : list vec4 -> list vec4 -> Z -> vec4.
Variable oob : Z -> Z.
Variable edges : gmap Z EdgeInfo.

Local Abbreviation place := (place_vertex qef_solve_from_points_4d oob edges).
Local Abbreviation count := (crossing_count oob edges).
Local Abbreviation kept := (placed_voxels oob edges).
Local Abbreviation vertex_of := (placed_vertex qef_solve_from_points_4d oob edges).
Local Abbreviation run :=
  (GenerateVertexData qef_solve_from_points_4d oob).

Lemma place_vertex_below n0 st v :
  indices_below_counter n0 st -> indices_below_counter n0 (place st v).
Proof.
  intros (Hlen & Hnum & Hidx).
  destruct (Z.le_gt_cases 2 (count v)) as [Hplaced | Hskipped].
  - rewrite place_vertex_placed by exact Hplaced.
    split; [| split]; cbn [idxCounter vs_vertices vs_numVertices vertexIndices].
    + rewrite length_app. cbn [length]. lia.
    + lia.
    + intros v' i Hlook. rewrite lookup_insert in Hlook.
      destruct (decide (v = v')) as [_ | _].
      * inversion Hlook. lia.
      * apply Hidx in Hlook. lia.
  - rewrite place_vertex_skipped by lia.
    split; [| split]; cbn [idxCounter vs_vertices vs_numVertices vertexIndices];
      assumption.
Qed.

Lemma GenerateVertexData_below voxels n0 c0 :
  indices_below_counter n0 (run voxels edges ∅ n0 c0).
Proof.
  unfold GenerateVertexData. apply foldl_invariant.
  - split; [| split]; cbn; [reflexivity | lia |].
    intros v i Hlook. rewrite lookup_empty in Hlook. discriminate.
  - intros v st _. apply place_vertex_below.
Qed.

Lemma placed_voxels_snoc l v :
  kept (l ++ [v]) = kept l ++ (if decide (2 <= count v) then [v] else []).
Proof.
  unfold placed_voxels. rewrite filter_app. reflexivity.
Qed.

Lemma placed_voxels_elem l v : v ∈ kept l <-> 2 <= count v /\ v ∈ l.
Proof.
  unfold placed_voxels.
  apply (list_elem_of_filter (fun v => 2 <= count v) l v).
Qed.

Lemma omap_agree {A B : Type} (f g : A -> option B) (l : list A) :
  (forall x, x ∈ l -> f x = g x) -> omap f l = omap g l.
Proof.
  induction l as [| x l IH]; intros Hfg; [reflexivity |].
  cbn. rewrite (Hfg x) by left. rewrite IH; [reflexivity |].
  intros y Hy. apply Hfg. right. exact Hy.
Qed.

Lemma GenerateVertexData_exact voxels n0 c0 :
  NoDup voxels ->
  placer_state_of qef_solve_from_points_4d oob edges voxels n0 (run voxels edges ∅ n0 c0).
Proof.
  unfold GenerateVertexData.
  induction voxels as [| v l IH] using rev_ind; intros Hnodup.
  - repeat split; cbn; try reflexivity; try lia.
    + intros Hlook. rewrite lookup_empty in Hlook. discriminate.
    + intros (k & _ & Hk). rewrite lookup_nil in Hk. discriminate.
  - apply NoDup_app in Hnodup as (Hl & Hfresh & _).
    assert (Hv : v ∉ l) by (intros Hin; apply (Hfresh v Hin); left).
    destruct (IH Hl) as (Hverts & Hcnt & Hnum & Hidx & Hsize & Hseq & Hcalls).
    rewrite foldl_app. cbn [foldl]. unfold placer_state_of.
    rewrite placed_voxels_snoc.
    set (st := foldl place _ l) in *.
    assert (Hnew : vertexIndices st !! v = None).
    { destruct (vertexIndices st !! v) as [i |] eqn:Hlook; [| reflexivity].
      apply Hidx in Hlook as (k & _ & Hk).
      apply list_elem_of_lookup_2, placed_voxels_elem in Hk. tauto. }
    destruct (decide (2 <= count v)) as [Hplaced | Hskipped].
    + rewrite place_vertex_placed by exact Hplaced.
      cbn [idxCounter vs_vertices vs_numVertices vertexIndices qefCalls].
      rewrite map_app, length_app, map_app. cbn [map length].
      split; [rewrite Hverts; reflexivity |].
      split; [lia |]. split; [lia |].
      split; [| split; [| split; [| rewrite Hcalls; reflexivity]]].
      * intros v' i. rewrite lookup_insert. destruct (decide (v = v')) as [<- | Hne].
        -- split.
           ++ intros [= <-]. exists (length (kept l)). split; [exact Hcnt |].
              apply list_lookup_middle. reflexivity.
           ++ intros (k & -> & Hk). f_equal.
              apply lookup_app_Some in Hk as [Hk | [Hge Hk]].
              ** apply list_elem_of_lookup_2, placed_voxels_elem in Hk. tauto.
              ** apply lookup_lt_Some in Hk as Hlt. cbn in Hlt. lia.
        -- rewrite Hidx. split.
           ++ intros (k & -> & Hk). exists k. split; [reflexivity |].
              apply lookup_app_l_Some. exact Hk.
           ++ intros (k & -> & Hk). exists k. split; [reflexivity |].
              apply lookup_app_Some in Hk as [Hk | [Hge Hk]]; [exact Hk |].
              apply list_lookup_singleton_Some in Hk as [_ Heq]. congruence.
      * rewrite map_size_insert_None by exact Hnew. lia.
      * rewrite omap_app. cbn [omap list_omap]. rewrite lookup_insert_eq.
        rewrite (omap_agree _ (fun u => vertexIndices st !! u)).
        -- rewrite Hseq, Hcnt.
           replace (Z.of_nat (length (kept l)) + 1)
             with (Z.of_nat (Datatypes.S (length (kept l)))) by lia.
           rewrite seqZ_S. reflexivity.
        -- intros u Hu. apply lookup_insert_ne. intros ->. contradiction.
    + rewrite place_vertex_skipped by lia.
      cbn [idxCounter vs_vertices vs_numVertices vertexIndices qefCalls].
      rewrite app_nil_r, map_app. cbn [map].
      split; [exact Hverts |]. split; [exact Hcnt |]. split; [exact Hnum |].
      split; [exact Hidx |]. split; [exact Hsize |].
      split; [| rewrite Hcalls; reflexivity].
      rewrite omap_app. cbn [omap list_omap]. rewrite Hnew, app_nil_r. exact Hseq.
Qed.

Lemma place_vertex_calls st v :
  qefCalls (place st v) = qefCalls st ++ [solver_call oob edges v].
Proof.
  destruct (Z.le_gt_cases 2 (count v)) as [Hplaced | Hskipped].
  - rewrite place_vertex_placed by exact Hplaced. reflexivity.
  - rewrite place_vertex_skipped by lia. reflexivity.
Qed.

(** The solver is called once per voxel, whatever the voxel gathered. *)
Lemma GenerateVertexData_calls voxels m0 n0 c0 :
  qefCalls (run voxels edges m0 n0 c0) = map (solver_call oob edges) voxels.
Proof.
  unfold GenerateVertexData.
  induction voxels as [| v l IH] using rev_ind; [reflexivity |].
  rewrite foldl_app. cbn [foldl]. rewrite place_vertex_calls, IH, map_app. reflexivity.
Qed.

(** Only voxels of the list get an index. *)
Lemma GenerateVertexData_keys voxels n0 c0 v :
  is_Some (vertexIndices (run voxels edges ∅ n0 c0) !! v) -> v ∈ voxels /\ 2 <= count v.
Proof.
  unfold GenerateVertexData.
  apply (foldl_invariant
           (fun st => is_Some (vertexIndices st !! v) -> v ∈ voxels /\ 2 <= count v)).
  - cbn. rewrite lookup_empty. intros [? ?]. discriminate.
  - intros u st Hu IH.
    destruct (Z.le_gt_cases 2 (count u)) as [Hplaced | Hskipped].
    + rewrite place_vertex_placed by exact Hplaced. cbn [vertexIndices].
      rewrite lookup_insert. destruct (decide (u = v)) as [<- | _]; [auto | exact IH].
    + rewrite place_vertex_skipped by lia. exact IH.
Qed.

End VertexLoop.

(** ** The triangulator *)

Section Triangulator.

Variable oob : Z -> Z.
Variable vertexIndices : gmap Z Z.

Local Abbreviation emitted := (emitted_triangles oob vertexIndices).

Lemma emitted_triangles_length pair :
  length (emitted pair)
  = if decide (is_Some (resolved_voxels oob vertexIndices (fst pair))) then 2%nat else 0%nat.
Proof.
  unfold emitted_triangles.
  destruct (resolved_voxels oob vertexIndices (fst pair)) as [[[[v0 v1] v2] v3] |].
  - destruct (decide (is_Some _)) as [_ | Hn]; [| destruct Hn; eauto].
    unfold quad_triangles. destruct (winding (snd pair)); reflexivity.
  - destruct (decide (is_Some _)) as [Hs | _]; [| reflexivity].
    destruct Hs as [q Hq]. discriminate.
Qed.

Lemma triangulate_edge_spec buffer pair :
  triangulate_edge oob vertexIndices buffer pair
  = mkMeshBuffer (vertices buffer) (numVertices buffer)
      (triangles buffer ++ emitted pair)
      (numTriangles buffer + Z.of_nat (length (emitted pair))).
Proof.
  unfold triangulate_edge, find_voxels, for_range, emitted_triangles, resolved_voxels.
  change (seqZ 0 4) with [0; 1; 2; 3]. cbn [foldl]. unfold find_voxel.
  destruct buffer as [vs nv ts nt].
  destruct (vertexIndices !! voxelIDs oob (fst pair) 0) as [v0 |];
    destruct (vertexIndices !! voxelIDs oob (fst pair) 1) as [v1 |];
    destruct (vertexIndices !! voxelIDs oob (fst pair) 2) as [v2 |];
    destruct (vertexIndices !! voxelIDs oob (fst pair) 3) as [v3 |];
    cbn; rewrite ?app_nil_r, ?Z.add_0_r; try reflexivity.
  destruct (winding (snd pair)); reflexivity.
Qed.

Lemma GenerateTriangles_fold edges buffer :
  foldl (triangulate_edge oob vertexIndices) buffer edges
  = mkMeshBuffer (vertices buffer) (numVertices buffer)
      (triangles buffer ++ flat_map emitted edges)
      (numTriangles buffer + Z.of_nat (length (flat_map emitted edges))).
Proof.
  revert buffer. induction edges as [| pair edges IH]; intros buffer.
  - cbn. rewrite app_nil_r, Z.add_0_r. destruct buffer; reflexivity.
  - cbn [foldl flat_map]. rewrite IH, triangulate_edge_spec.
    cbn [vertices numVertices triangles numTriangles].
    rewrite length_app, <- app_assoc. f_equal. lia.
Qed.

Lemma GenerateTriangles_spec edges buffer :
  GenerateTriangles oob edges vertexIndices buffer
  = mkMeshBuffer (vertices buffer) (numVertices buffer)
      (flat_map emitted edges)
      (numTriangles buffer + Z.of_nat (length (flat_map emitted edges))).
Proof. unfold GenerateTriangles. rewrite GenerateTriangles_fold. reflexivity. Qed.

Lemma flat_map_emitted_length edges :
  length (flat_map emitted edges)
  = (2 * length (resolved_edges oob vertexIndices edges))%nat.
Proof.
  unfold resolved_edges. induction edges as [| pair edges IH]; [reflexivity |].
  cbn [flat_map]. rewrite length_app, emitted_triangles_length, filter_cons.
  destruct (decide (is_Some _)); cbn [length]; lia.
Qed.

Lemma emitted_triangles_below bound pair :
  (forall v i, vertexIndices !! v = Some i -> 0 <= i < bound) ->
  Forall (triangle_indices_below bound) (emitted pair).
Proof.
  intros Hbound. unfold emitted_triangles, resolved_voxels.
  destruct (vertexIndices !! voxelIDs oob (fst pair) 0) as [v0 |] eqn:H0;
    destruct (vertexIndices !! voxelIDs oob (fst pair) 1) as [v1 |] eqn:H1;
    destruct (vertexIndices !! voxelIDs oob (fst pair) 2) as [v2 |] eqn:H2;
    destruct (vertexIndices !! voxelIDs oob (fst pair) 3) as [v3 |] eqn:H3;
    try constructor.
  apply Hbound in H0, H1, H2, H3.
  unfold quad_triangles.
  destruct (winding (snd pair)); repeat constructor; cbn; lia.
Qed.

Lemma flat_map_emitted_below bound edges :
  (forall v i, vertexIndices !! v = Some i -> 0 <= i < bound) ->
  Forall (triangle_indices_below bound) (flat_map emitted edges).
Proof.
  intros Hbound. induction edges as [| pair edges IH]; cbn [flat_map].
  - constructor.
  - apply Forall_app. split; [apply emitted_triangles_below; exact Hbound | exact IH].
Qed.

End Triangulator.

(** ** Order on [float] *)

Ltac compare_cases :=
  repeat match goal with
    | H : context [Z.compare ?a ?b] |- _ => destruct (Z.compare_spec a b)
    | |- context [Z.compare ?a ?b] => destruct (Z.compare_spec a b)
    | H : context [Pos.compare_cont Eq ?a ?b] |- _ =>
        change (Pos.compare_cont Eq a b) with (Pos.compare a b) in *;
        destruct (Pos.compare_spec a b)
    | |- context [Pos.compare_cont Eq ?a ?b] =>
        change (Pos.compare_cont Eq a b) with (Pos.compare a b) in *;
        destruct (Pos.compare_spec a b)
    end.

Ltac float_order :=
  unfold flt, SFltb, SFcompare in *;
  repeat match goal with
    | x : float |- _ => destruct x as [[] | [] | | [] ? ?]
    end;
  cbn in *; try congruence; try tauto;
  compare_cases; cbn in *; subst; try congruence; try lia; try tauto.

Lemma flt_irrefl (a : float) : flt a a = false.
Proof. float_order. Qed.

Lemma flt_trans (a b c : float) : flt a b = true -> flt b c = true -> flt a c = true.
Proof. intros H1 H2. float_order. Qed.

Lemma flt_cotrans (a b c : float) :
  flt a c = true -> b <> S754_nan -> flt a b = true \/ flt b c = true.
Proof. intros H1 H2. float_order. Qed.

(** ** The edge sampler *)

Ltac step_cases k :=
  let H := fresh in
  assert (H : k = 0 \/ k = 1 \/ k = 2 \/ k = 3 \/ k = 4 \/ k = 5 \/ k = 6 \/ k = 7 \/
              k = 8 \/ k = 9 \/ k = 10 \/ k = 11 \/ k = 12 \/ k = 13 \/ k = 14 \/ k = 15)
    by lia;
  repeat (destruct H as [-> | H]); [.. | subst k].

Lemma step_t_next k :
  0 <= k < 16 -> fadd (step_t k) FIND_EDGE_INFO_INCREMENT = step_t (k + 1).
Proof. intros Hk. step_cases k; vm_compute; reflexivity. Qed.


Section EdgeSampler.

Variable Density_Func : vec3 -> float.
Variable glm_mix : vec4 -> vec4 -> float -> vec4.
Variables p0 p1 : vec4.

Local Abbreviation d := (sample_magnitude Density_Func glm_mix p0 p1).
Local Abbreviation step := (FindIntersection_step Density_Func glm_mix p0 p1).

Lemma FindIntersection_step_inv i s :
  0 <= i < 16 -> search_inv d i s -> search_inv d (i + 1) (step s).
Proof.
  intros Hi [Ht Hcase]. unfold FindIntersection_step.
  fold (sample_magnitude Density_Func glm_mix p0 p1 i) in |- *.
  rewrite Ht. change (glm_abs (Density Density_Func (glm_mix p0 p1 (step_t i)))) with (d i).
  destruct (flt (d i) (minValue s)) eqn:Hlt; cbn [minValue currentT best_t].
  - (* a strict improvement: step [i] becomes the best *)
    split; [apply step_t_next; exact Hi |]. right. exists i.
    split; [lia |]. split; [reflexivity |]. split; [reflexivity |].
    intros Hfin. destruct Hcase as [(Hmin & _ & Hnone) | (k & Hk & _ & Hmin & Hbest)].
    + rewrite Hmin in Hlt. split.
      * intros j Hj. destruct (Z.eq_dec j i) as [-> | Hne]; [apply flt_irrefl |].
        destruct (flt (d j) (d i)) eqn:Hji; [| reflexivity].
        rewrite <- (Hnone j ltac:(lia)). symmetry.
        exact (flt_trans _ _ _ Hji Hlt).
      * intros j Hj.
        destruct (flt_cotrans _ (d j) _ Hlt (proj1 (Hfin j ltac:(lia)))) as [H | H];
          [exact H |].
        rewrite (Hnone j ltac:(lia)) in H. discriminate.
    + rewrite Hmin in Hlt. destruct (Hbest Hfin) as [Hleast Hfirst]. split.
      * intros j Hj. destruct (Z.eq_dec j i) as [-> | Hne]; [apply flt_irrefl |].
        destruct (flt (d j) (d i)) eqn:Hji; [| reflexivity].
        rewrite <- (Hleast j ltac:(lia)). symmetry.
        exact (flt_trans _ _ _ Hji Hlt).
      * intros j Hj.
        destruct (flt_cotrans _ (d j) _ Hlt (proj1 (Hfin j ltac:(lia)))) as [H | H];
          [exact H |].
        rewrite (Hleast j ltac:(lia)) in H. discriminate.
  - (* no improvement: the state keeps its best step *)
    split; [rewrite Ht; apply step_t_next; exact Hi |].
    destruct Hcase as [(Hmin & Hbest & Hnone) | (k & Hk & Hbest & Hmin & Hord)].
    + left. split; [exact Hmin |]. split; [exact Hbest |].
      intros j Hj. destruct (Z.eq_dec j i) as [-> | Hne].
      * rewrite <- Hmin. exact Hlt.
      * apply Hnone. lia.
    + right. exists k. split; [lia |]. split; [exact Hbest |]. split; [exact Hmin |].
      intros Hfin. destruct (Hord Hfin) as [Hleast Hfirst]. split; [| exact Hfirst].
      intros j Hj. destruct (Z.eq_dec j i) as [-> | Hne].
      * rewrite <- Hmin. exact Hlt.
      * apply Hleast. lia.
Qed.

Lemma FindIntersection_search_inv :
  search_inv d 16 (for_range 16 (fun _ => step) (mkSearch FLT_MAX f0 f0)).
Proof.
  apply (for_range_counted (search_inv d) 16 (fun _ => step)); [lia | |].
  - split; [reflexivity |]. left. repeat split. intros j Hj. lia.
  - intros i s Hi Hs. apply FindIntersection_step_inv; assumption.
Qed.

(** Whatever the density does, the result is one of the 16 step
    positions, all of which lie in [0, 1]. *)
Lemma FindIntersection_is_a_step :
  exists k, 0 <= k < 16 /\
    FindIntersection Density_Func glm_mix p0 p1 = step_t k.
Proof.
  unfold FindIntersection. change FIND_EDGE_INFO_STEPS with 16.
  destruct FindIntersection_search_inv as [_ [(_ & Hbest & _) | (k & Hk & Hbest & _)]].
  - exists 0. split; [lia | exact Hbest].
  - exists k. split; [lia | exact Hbest].
Qed.


End EdgeSampler.

(** ** The canonical edges of a voxel *)

Lemma omap_length_pos {A B : Type} (f : A -> option B) (l : list A) (x : A) :
  x ∈ l -> is_Some (f x) -> (1 <= length (omap f l))%nat.
Proof.
  intros Hx [y Hy].
  assert (Hin : y ∈ omap f l) by (apply list_elem_of_omap; eauto).
  destruct (omap f l); [inversion Hin | cbn; lia].
Qed.

Lemma omap_length_filter {A B : Type} (g : Z -> option B) (key : A -> Z) (l : list A) :
  length (omap (fun i => g (key i)) l)
  = length (filter (fun k => is_Some (g k)) (map key l)).
Proof.
  induction l as [| i l IH]; [reflexivity |].
  cbn [omap list_omap map]. rewrite filter_cons.
  destruct (g (key i)) as [b |] eqn:Hg.
  - destruct (decide (is_Some (Some b))) as [_ | Hn]; [| destruct Hn; eauto].
    cbn [length]. rewrite <- IH. reflexivity.
  - destruct (decide (is_Some None)) as [[? ?] | _]; [discriminate | exact IH].
Qed.

Lemma canonical_edge_keys_table oob v :
  canonical_edge_keys oob v = map (fun c => u32 (v + c)) ENCODED_EDGE_OFFSETS.
Proof.
  unfold canonical_edge_keys. change (seqZ 0 12) with [0; 1; 2; 3; 4; 5; 6; 7; 8; 9; 10; 11].
  cbn [map]. eval_tables. reflexivity.
Qed.

Lemma canonical_edge_keys_NoDup oob v : NoDup (canonical_edge_keys oob v).
Proof.
  rewrite canonical_edge_keys_table.
  apply (NoDup_fmap_2_strong (fun c => u32 (v + c))).
  - intros c1 c2 H1 H2 Heq.
    assert (Hrange : Forall (fun c => 0 <= c < 2 ^ 32) ENCODED_EDGE_OFFSETS)
      by (repeat constructor; lia).
    rewrite Forall_forall in Hrange.
    pose proof (Hrange c1 H1). pose proof (Hrange c2 H2).
    unfold u32 in Heq. Z.div_mod_to_equations. lia.
  - refine (bool_decide_unpack (NoDup ENCODED_EDGE_OFFSETS) _). vm_compute. reflexivity.
Qed.

(** The count a voxel gathers is the number of its canonical edge keys
    that are recorded. *)
Lemma crossing_count_keys oob edges v :
  crossing_count oob edges v
  = Z.of_nat (length (filter (fun k => is_Some (edges !! k)) (canonical_edge_keys oob v))).
Proof.
  unfold crossing_count, recorded_canonical_edges, canonical_edge_keys, find_edge.
  rewrite (omap_length_filter (fun k => edges !! k)
             (fun i => u32 (v + table_read oob ENCODED_EDGE_OFFSETS i))).
  reflexivity.
Qed.

Ltac try_edge_index j :=
  exists j; split; [lia |]; eval_tables; rewrite u32_small by lia; lia.

(** In a grid of at most 1024 cells per axis, the edge that activated a
    voxel is one of the voxel's canonical edges. *)
Lemma activated_voxel_edge_index oob cellSize edges id :
  cellSize <= 1024 ->
  activated_voxel cellSize edges id ->
  exists j, 0 <= j < 12 /\ is_Some (find_edge oob edges id j).
Proof.
  intros Hsz (x & y & z & axis & i & (Hgx & Hgy & Hgz) & Ha & Hi & Hsome & Hn).
  cbv zeta in Hn. destruct Hn as (Hx & Hy & Hz & ->).
  unfold find_edge.
  enough (exists j, 0 <= j < 12 /\
            u32 (EncodeVoxelUniqueID (ivec4_sub (Ivec4 x y z 0) (edge_node_offset axis i))
                 + table_read oob ENCODED_EDGE_OFFSETS j)
            = EncodeAxisUniqueID axis x y z) as (j & Hj & Hkey).
  { exists j. split; [exact Hj |]. rewrite Hkey. exact Hsome. }
  clear Hsome. rewrite encode_axis_arith by lia.
  axis_corner_cases axis i;
    revert Hx Hy Hz; eval_tables; unfold ivec4_sub; cbn [ix iy iz iw];
    rewrite !s32_small by lia; intros Hx Hy Hz;
    rewrite encode_voxel_arith by lia;
    first [ try_edge_index 0 | try_edge_index 1 | try_edge_index 2 | try_edge_index 3
          | try_edge_index 4 | try_edge_index 5 | try_edge_index 6 | try_edge_index 7
          | try_edge_index 8 | try_edge_index 9 | try_edge_index 10 | try_edge_index 11 ].
Qed.

Lemma activated_voxel_crossing oob cellSize edges id :
  cellSize <= 1024 ->
  activated_voxel cellSize edges id ->
  1 <= crossing_count oob edges id.
Proof.
  intros Hsz Hact.
  destruct (activated_voxel_edge_index oob cellSize edges id Hsz Hact) as (j & Hj & Hsome).
  unfold crossing_count, recorded_canonical_edges.
  pose proof (omap_length_pos (find_edge oob edges id) (seqZ 0 12) j) as Hlen.
  assert (Hin : j ∈ seqZ 0 12) by (apply elem_of_seqZ; lia).
  specialize (Hlen Hin Hsome). lia.
Qed.

(** A voxel the scanner activated decodes to coordinates of the grid. *)
Lemma activated_voxel_decodes_in_grid cellSize edges id :
  activated_voxel cellSize edges id ->
  0 <= ix (DecodeVoxelUniqueID id) < cellSize /\
  0 <= iy (DecodeVoxelUniqueID id) < cellSize /\
  0 <= iz (DecodeVoxelUniqueID id) < cellSize.
Proof.
  intros (x & y & z & axis & i & (Hgx & Hgy & Hgz) & Ha & Hi & _ & Hn).
  cbv zeta in Hn. destruct Hn as (Hx & Hy & Hz & ->).
  destruct (Z.le_gt_cases cellSize 1024) as [Hsmall | Hlarge].
  - axis_corner_cases axis i;
      revert Hx Hy Hz; eval_tables; unfold ivec4_sub; cbn [ix iy iz iw];
      rewrite !s32_small by lia; intros Hx Hy Hz;
      rewrite decode_encode by lia; cbn [ix iy iz]; lia.
  - pose proof (decode_range
                  (EncodeVoxelUniqueID
                     (ivec4_sub (Ivec4 x y z 0) (edge_node_offset axis i)))).
    lia.
Qed.

Lemma list_lookup_map {A B : Type} (f : A -> B) (l : list A) (k : nat) :
  map f l !! k = f <$> (l !! k).
Proof.
  revert k. induction l as [| x l IH]; intros [| k]; cbn; try reflexivity. apply IH.
Qed.

Lemma testbit_neg_shift (s n : Z) :
  0 <= s -> 0 <= n -> Z.testbit (Z.shiftl (-1) s) (n + s) = true.
Proof.
  intros Hs Hn. rewrite Z.shiftl_spec by lia.
  replace (n + s - s) with n by lia. apply Z.bits_m1. exact Hn.
Qed.

Lemma decode_field_all_ones (id s : Z) :
  0 <= s -> s + 10 <= 32 -> 0 <= id < 2 ^ 32 ->
  (forall n, 0 <= n < 10 -> Z.testbit id (n + s) = true) ->
  Z.land (Z.shiftr id s) 0x3ff = 1023.
Proof.
  intros Hs Hs' Hid Hbits. change 0x3ff with (Z.ones 10). change 1023 with (Z.ones 10).
  apply Z.bits_inj'. intros n Hn.
  rewrite Z.land_spec, Z.shiftr_spec by lia.
  destruct (Z.lt_ge_cases n 10) as [Hlt | Hge].
  - rewrite Z.ones_spec_low by lia. rewrite Hbits by lia. reflexivity.
  - rewrite Z.ones_spec_high by lia. apply andb_false_r.
Qed.

Lemma testbit_u32 (z n : Z) : 0 <= n < 32 -> Z.testbit (u32 z) n = Z.testbit z n.
Proof.
  intros Hn. rewrite u32_land, Z.land_spec, Z.ones_spec_low by lia. apply andb_true_r.
Qed.

Lemma encode_negative_x (ny nz w : Z) :
  ix (DecodeVoxelUniqueID (EncodeVoxelUniqueID (Ivec4 (-1) ny nz w))) = 1023.
Proof.
  unfold DecodeVoxelUniqueID, EncodeVoxelUniqueID. cbn [ix iy iz].
  rewrite <- (Z.shiftr_0_r (u32 _)).
  apply decode_field_all_ones; [lia | lia | apply u32_range |].
  intros n Hn. rewrite Z.add_0_r, testbit_u32, !Z.lor_spec by lia.
  rewrite Z.bits_m1 by lia. reflexivity.
Qed.

Lemma encode_negative_y (nx nz w : Z) :
  iy (DecodeVoxelUniqueID (EncodeVoxelUniqueID (Ivec4 nx (-1) nz w))) = 1023.
Proof.
  unfold DecodeVoxelUniqueID, EncodeVoxelUniqueID. cbn [ix iy iz].
  apply decode_field_all_ones; [lia | lia | apply u32_range |].
  intros n Hn. rewrite testbit_u32, !Z.lor_spec by lia.
  change (s32 (Z.shiftl (-1) 10)) with (Z.shiftl (-1) 10).
  rewrite testbit_neg_shift by lia. rewrite orb_true_r. reflexivity.
Qed.

Lemma encode_negative_z (nx ny w : Z) :
  iz (DecodeVoxelUniqueID (EncodeVoxelUniqueID (Ivec4 nx ny (-1) w))) = 1023.
Proof.
  unfold DecodeVoxelUniqueID, EncodeVoxelUniqueID. cbn [ix iy iz].
  apply decode_field_all_ones; [lia | lia | apply u32_range |].
  intros n Hn. rewrite testbit_u32, !Z.lor_spec by lia.
  change (s32 (Z.shiftl (-1) 20)) with (Z.shiftl (-1) 20).
  rewrite testbit_neg_shift by lia. apply orb_true_r.
Qed.

Lemma voxelIDs_borrow_not_key oob a i x y z kx ky kz :
  0 <= a < 3 -> 0 <= i < 4 ->
  0 <= x < 1023 -> 0 <= y < 1023 -> 0 <= z < 1023 ->
  x - ix (edge_node_offset a i) < 0 \/
  y - iy (edge_node_offset a i) < 0 \/
  z - iz (edge_node_offset a i) < 0 ->
  0 <= kx < 1023 -> 0 <= ky < 1023 -> 0 <= kz < 1023 ->
  voxelIDs oob (EncodeAxisUniqueID a x y z) i <> kx + ky * 2 ^ 10 + kz * 2 ^ 20.
Proof.
  intros Ha Hi Hx Hy Hz Hneg Hkx Hky Hkz.
  unfold voxelIDs.
  destruct (edge_key_fields a x y z ltac:(lia) ltac:(lia) ltac:(lia) ltac:(lia)) as [-> ->].
  axis_corner_cases a i;
    revert Hneg; eval_tables; cbn [ix iy iz iw]; intros Hneg;
    unfold u32; Z.div_mod_to_equations; lia.
Qed.

Lemma edge_voxel_id_negative_not_key a i x y z kx ky kz :
  0 <= a < 3 -> 0 <= i < 4 ->
  0 <= x < 1023 -> 0 <= y < 1023 -> 0 <= z < 1023 ->
  x - ix (edge_node_offset a i) < 0 \/
  y - iy (edge_node_offset a i) < 0 \/
  z - iz (edge_node_offset a i) < 0 ->
  0 <= kx < 1023 -> 0 <= ky < 1023 -> 0 <= kz < 1023 ->
  edge_voxel_id a i x y z <> kx + ky * 2 ^ 10 + kz * 2 ^ 20.
Proof.
  intros Ha Hi Hx Hy Hz Hneg Hkx Hky Hkz Heq.
  assert (Hdec : DecodeVoxelUniqueID (edge_voxel_id a i x y z) = Ivec4 kx ky kz 0).
  { rewrite Heq.
    replace (kx + ky * 2 ^ 10 + kz * 2 ^ 20)
      with (kx + ky * 2 ^ 10 + kz * 2 ^ 20 + 0 * 2 ^ 30) by lia.
    apply decode_arith; lia. }
  clear Heq. unfold edge_voxel_id in Hdec.
  axis_corner_cases a i;
    revert Hneg Hdec; eval_tables; unfold ivec4_sub; cbn [ix iy iz iw];
    intros Hneg Hdec;
    destruct Hneg as [Hn | [Hn | Hn]]; try lia;
    first [ assert (x = 0) by lia | assert (y = 0) by lia | assert (z = 0) by lia ].
  all: subst; change (s32 (0 - 1)) with (-1) in Hdec.
  all: first
    [ apply (f_equal ix) in Hdec; rewrite encode_negative_x in Hdec; cbn in Hdec; lia
    | apply (f_equal iy) in Hdec; rewrite encode_negative_y in Hdec; cbn in Hdec; lia
    | apply (f_equal iz) in Hdec; rewrite encode_negative_z in Hdec; cbn in Hdec; lia ].
Qed.

(** On a map whose keys are voxels with coordinates below 1023, looking
    up the triangulator's candidate and looking up the voxel computed from
    the coordinates give the same result, also at the lower boundary. *)
Lemma voxel_lookups_agree oob (m : gmap Z Z) a i x y z :
  (forall id, is_Some (m !! id) ->
     exists kx ky kz, 0 <= kx < 1023 /\ 0 <= ky < 1023 /\ 0 <= kz < 1023 /\
       id = kx + ky * 2 ^ 10 + kz * 2 ^ 20) ->
  0 <= a < 3 -> 0 <= i < 4 ->
  0 <= x < 1023 -> 0 <= y < 1023 -> 0 <= z < 1023 ->
  m !! voxelIDs oob (EncodeAxisUniqueID a x y z) i = m !! edge_voxel_id a i x y z.
Proof.
  intros Hkeys Ha Hi Hx Hy Hz.
  destruct (Z.lt_ge_cases (x - ix (edge_node_offset a i)) 0) as [Hbx | Hbx];
    [| destruct (Z.lt_ge_cases (y - iy (edge_node_offset a i)) 0) as [Hby | Hby];
       [| destruct (Z.lt_ge_cases (z - iz (edge_node_offset a i)) 0) as [Hbz | Hbz]]].
  4: { rewrite voxelIDs_from_coordinates by lia. reflexivity. }
  all: assert (Hneg : x - ix (edge_node_offset a i) < 0 \/
                      y - iy (edge_node_offset a i) < 0 \/
                      z - iz (edge_node_offset a i) < 0) by tauto.
  all: destruct (m !! voxelIDs oob (EncodeAxisUniqueID a x y z) i) as [v |] eqn:Htab;
    [ destruct (Hkeys _ (ex_intro _ v Htab)) as (kx & ky & kz & ? & ? & ? & Hid);
      exfalso; revert Hid; apply voxelIDs_borrow_not_key; assumption |].
  all: destruct (m !! edge_voxel_id a i x y z) as [v |] eqn:Hgeo;
    [ destruct (Hkeys _ (ex_intro _ v Hgeo)) as (kx & ky & kz & ? & ? & ? & Hid);
      exfalso; revert Hid; apply edge_voxel_id_negative_not_key; assumption
    | reflexivity ].
Qed.

(** The identifier of an activated voxel, as a sum of its coordinates. *)
Lemma activated_voxel_sum cellSize edges id :
  cellSize <= 1024 ->
  activated_voxel cellSize edges id ->
  exists kx ky kz,
    0 <= kx < cellSize /\ 0 <= ky < cellSize /\ 0 <= kz < cellSize /\
    id = kx + ky * 2 ^ 10 + kz * 2 ^ 20.
Proof.
  intros Hsz (x & y & z & axis & i & (Hgx & Hgy & Hgz) & Ha & Hi & _ & Hn).
  cbv zeta in Hn. destruct Hn as (Hx & Hy & Hz & ->).
  axis_corner_cases axis i;
    revert Hx Hy Hz; eval_tables; unfold ivec4_sub; cbn [ix iy iz iw];
    rewrite !s32_small by lia; intros Hx Hy Hz;
    rewrite encode_voxel_arith by lia;
    eexists _, _, _; (split; [| split; [| split; [| reflexivity]]]); lia.
Qed.

(** * The claims *)

Section SamplerClaims.

Variable Density_Func : vec3 -> float.
Variable glm_mix : vec4 -> vec4 -> float -> vec4.


End SamplerClaims.

(** Adding vectors adds their components. *)
Lemma vec4_add_components (l : list vec4) (acc : vec4) :
  vx (foldl vec4_add acc l) = foldl fadd (vx acc) (map vx l) /\
  vy (foldl vec4_add acc l) = foldl fadd (vy acc) (map vy l) /\
  vz (foldl vec4_add acc l) = foldl fadd (vz acc) (map vz l) /\
  vw (foldl vec4_add acc l) = foldl fadd (vw acc) (map vw l).
Proof.
  revert acc. induction l as [| a l IH]; intros acc; [repeat split |].
  cbn [foldl map]. destruct (IH (vec4_add acc a)) as (Hx & Hy & Hz & Hw).
  rewrite Hx, Hy, Hz, Hw. repeat split.
Qed.

Section PlacerClaims.

Variable qef_solve_from_points_4d : list vec4 -> list vec4 -> Z -> vec4.
Variable oob : Z -> Z.

Local Abbreviation vertex_data := (GenerateVertexData qef_solve_from_points_4d oob).
Local Abbreviation vertex_of := (placed_vertex qef_solve_from_points_4d oob).

(** After the placer has gone through a duplicate-free active set, a
    voxel has a vertex index exactly when it is in the set and at least
    two of the 12 keys the placer forms for it (its identifier plus the
    entries of [ENCODED_EDGE_OFFSETS]) are recorded; its vertex is the
    one stored at that index, so there are as many vertices as such
    voxels.  The 12 keys of a voxel are pairwise different, and the count
    is the number of them that are recorded. *)
Lemma vertex_iff_two_table_hits :
  forall (edges : gmap Z EdgeInfo) (voxels : list Z) (n0 : Z) (c0 : list float),
    NoDup voxels ->
    let st := vertex_data voxels edges ∅ n0 c0 in
    (forall v : Z,
        is_Some (vertexIndices st !! v) <->
        v ∈ voxels /\ 2 <= crossing_count oob edges v)
    /\ (forall v i : Z,
          vertexIndices st !! v = Some i ->
          0 <= i /\ vs_vertices st !! Z.to_nat i = Some (vertex_of edges v))
    /\ length (vs_vertices st)
       = length (filter (fun v => 2 <= crossing_count oob edges v) voxels)
    /\ (forall v : Z,
          NoDup (canonical_edge_keys oob v) /\
          length (canonical_edge_keys oob v) = 12%nat /\
          crossing_count oob edges v
          = Z.of_nat (length (filter (fun k => is_Some (edges !! k))
                                     (canonical_edge_keys oob v)))).
Proof.
  intros edges voxels n0 c0 Hnodup st.
  destruct (GenerateVertexData_exact qef_solve_from_points_4d oob edges voxels n0 c0 Hnodup)
    as (Hverts & Hcnt & Hnum & Hidx & Hsize & Hseq & Hcalls).
  fold st in Hverts, Hcnt, Hnum, Hidx, Hsize, Hseq, Hcalls.
  split; [| split; [| split]].
  - intros v. split.
    + intros Hsome. pose proof (GenerateVertexData_keys _ _ _ _ _ _ _ Hsome). tauto.
    + intros [Hin Hcount].
      assert (Hkept : v ∈ placed_voxels oob edges voxels)
        by (apply placed_voxels_elem; tauto).
      apply list_elem_of_lookup_1 in Hkept as [k Hk].
      exists (Z.of_nat k). apply Hidx. eauto.
  - intros v i Hlook. apply Hidx in Hlook as (k & -> & Hk).
    split; [lia |]. rewrite Nat2Z.id, Hverts, list_lookup_map, Hk. reflexivity.
  - rewrite Hverts, length_map. reflexivity.
  - intros v. split; [apply canonical_edge_keys_NoDup |].
    split; [reflexivity | apply crossing_count_keys].
Qed.

(** C9, as the code computes it: each component of the normal stored
    for a voxel that received a vertex is the [float] sum of that
    component over the normals of the recorded canonical edges, added one
    by one to 0 in table order, multiplied by the [float] reciprocal
    [1.f / n] of their number n, where n >= 2; nothing is applied to it
    afterwards.  The accumulator starts as the default-constructed
    [vec4], the zero vector. *)
Theorem C9_vertex_normal_is_sum_times_reciprocal :
  forall (edges : gmap Z EdgeInfo) (voxels : list Z) (n0 : Z) (c0 : list float)
         (v i : Z),
    NoDup voxels ->
    let st := vertex_data voxels edges ∅ n0 c0 in
    vertexIndices st !! v = Some i ->
    exists vert : MeshVertex,
      vs_vertices st !! Z.to_nat i = Some vert /\
      let ns := map normal (recorded_canonical_edges oob edges v) in
      let n := Z.of_nat (length ns) in
      let r := fdiv f1 (float_of_int n) in
      2 <= n /\
      n = crossing_count oob edges v /\
      vx (vertex_normal vert) = fmul (foldl fadd f0 (map vx ns)) r /\
      vy (vertex_normal vert) = fmul (foldl fadd f0 (map vy ns)) r /\
      vz (vertex_normal vert) = fmul (foldl fadd f0 (map vz ns)) r /\
      vw (vertex_normal vert) = fmul (foldl fadd f0 (map vw ns)) r.
Proof.
  intros edges voxels n0 c0 v i Hnodup st Hlook.
  destruct (GenerateVertexData_exact qef_solve_from_points_4d oob edges voxels n0 c0 Hnodup)
    as (Hverts & _ & _ & Hidx & _).
  fold st in Hverts, Hidx.
  apply Hidx in Hlook as (k & -> & Hk).
  exists (vertex_of edges v). split.
  - rewrite Nat2Z.id, Hverts, list_lookup_map, Hk. reflexivity.
  - cbv zeta. fold (contributing_normals oob edges v).
    rewrite contributing_normals_length.
    apply list_elem_of_lookup_2, placed_voxels_elem in Hk as [Hcount _].
    split; [exact Hcount |]. split; [reflexivity |].
    cbn [vertex_normal placed_vertex]. unfold unweighted_mean, vec4_sum, vec4_scale.
    rewrite contributing_normals_length. cbn [vx vy vz vw].
    destruct (vec4_add_components (contributing_normals oob edges v) (Vec4 f0 f0 f0 f0))
      as (-> & -> & -> & ->).
    repeat split.
Qed.

(** C10: after the placer has gone through a duplicate-free active set,
    starting from an empty map and a vertex count of 0, the indices in the
    map are exactly 0 .. numVertices - 1, different voxels have different
    indices, they were handed out in increasing order along the
    iteration, numVertices is the size of the map and the number of
    vertices written, and slot i holds the vertex of the voxel with
    index i. *)
Theorem C10_indices_are_sequential :
  forall (edges : gmap Z EdgeInfo) (voxels : list Z) (c0 : list float),
    NoDup voxels ->
    let st := vertex_data voxels edges ∅ 0 c0 in
    (forall i : Z, (exists v : Z, vertexIndices st !! v = Some i) <->
                   0 <= i < vs_numVertices st)
    /\ (forall v v' i : Z,
          vertexIndices st !! v = Some i -> vertexIndices st !! v' = Some i -> v = v')
    /\ omap (fun v => vertexIndices st !! v) voxels = seqZ 0 (vs_numVertices st)
    /\ vs_numVertices st = Z.of_nat (size (vertexIndices st))
    /\ vs_numVertices st = Z.of_nat (length (vs_vertices st))
    /\ (forall v i : Z,
          vertexIndices st !! v = Some i ->
          vs_vertices st !! Z.to_nat i = Some (vertex_of edges v)).
Proof.
  intros edges voxels c0 Hnodup st.
  destruct (GenerateVertexData_exact qef_solve_from_points_4d oob edges voxels 0 c0 Hnodup)
    as (Hverts & Hcnt & Hnum & Hidx & Hsize & Hseq & _).
  fold st in Hverts, Hcnt, Hnum, Hidx, Hsize, Hseq.
  split; [| split; [| split; [| split; [| split]]]].
  - intros i. split.
    + intros (v & Hlook). apply Hidx in Hlook as (k & -> & Hk).
      apply lookup_lt_Some in Hk. lia.
    + intros Hi.
      destruct (lookup_lt_is_Some_2 (placed_voxels oob edges voxels) (Z.to_nat i))
        as [v Hv]; [lia |].
      exists v. apply Hidx. exists (Z.to_nat i). split; [lia | exact Hv].
  - intros v v' i Hv Hv'.
    apply Hidx in Hv as (k & -> & Hk). apply Hidx in Hv' as (k' & Heq & Hk').
    apply Nat2Z.inj in Heq. subst k'. congruence.
  - rewrite Hseq. f_equal. lia.
  - lia.
  - rewrite Hverts, length_map. lia.
  - intros v i Hlook. apply Hidx in Hlook as (k & -> & Hk).
    rewrite Nat2Z.id, Hverts, list_lookup_map, Hk. reflexivity.
Qed.

End PlacerClaims.

Section MeshClaims.

Variable Density_Func : vec3 -> float.
Variable qef_solve_from_points_4d : list vec4 -> list vec4 -> Z -> vec4.
Variable glm_mix : vec4 -> vec4 -> float -> vec4.
Variable glm_mix3 : vec3 -> vec3 -> float -> vec3.
Variable glm_normalize : vec4 -> vec4.
Variable oob : Z -> Z.
Variable iter_set : gset Z -> list Z.
Variable iter_map : gmap Z EdgeInfo -> list (Z * EdgeInfo).

Local Abbreviation mesh_run_of :=
  (GenerateMesh_run Density_Func qef_solve_from_points_4d glm_mix glm_mix3
     glm_normalize oob iter_set iter_map).
Local Abbreviation mesh_of :=
  (GenerateMesh Density_Func qef_solve_from_points_4d glm_mix glm_mix3
     glm_normalize oob iter_set iter_map).
Local Abbreviation vertex_data := (GenerateVertexData qef_solve_from_points_4d oob).

Lemma mesh_run_scan_inv x y z cellSize cellData0 :
  scan_inv Density_Func glm_mix glm_mix3 glm_normalize x y z cellSize
    (run_scan (mesh_run_of x y z cellSize cellData0)).
Proof.
  unfold GenerateMesh_run. cbn [run_scan].
  apply FindActiveVoxels_inv, scan_inv_empty.
Qed.

(** The triangles of a mesh are, edge by edge in iteration order, what
    the recorded edges emit: two triangles wound by the edge's flag when
    all four identifiers the triangulator forms for the edge have a
    vertex index, nothing
    otherwise; and the flag of a recorded edge says whether the density at
    the lower endpoint of a crossing grid edge with that key is >= 0. *)
Lemma mesh_triangles_by_table_lookup :
  forall (x y z cellSize : Z) (cellData0 : list float),
    (forall (m : gmap Z EdgeInfo) (pair : Z * EdgeInfo),
        pair ∈ iter_map m -> m !! fst pair = Some (snd pair)) ->
    let r := mesh_run_of x y z cellSize cellData0 in
    let m := vertexIndices (run_vertex r) in
    triangles (run_buffer r)
      = flat_map (emitted_triangles oob m) (iter_map (activeEdges (run_scan r)))
    /\ forall pair : Z * EdgeInfo,
        pair ∈ iter_map (activeEdges (run_scan r)) ->
        (exists ex ey ez axis : Z,
            in_grid cellSize ex ey ez /\ 0 <= axis < 3 /\
            crossing_edge Density_Func x y z cellSize ex ey ez axis = true /\
            fst pair = EncodeAxisUniqueID axis ex ey ez /\
            winding (snd pair)
              = fge (Density Density_Func (lower_endpoint x y z cellSize ex ey ez)) f0)
        /\ match m !! voxelIDs oob (fst pair) 0, m !! voxelIDs oob (fst pair) 1,
                 m !! voxelIDs oob (fst pair) 2, m !! voxelIDs oob (fst pair) 3 with
           | Some v0, Some v1, Some v2, Some v3 =>
               emitted_triangles oob m pair
               = if winding (snd pair)
                 then [ mkMeshTriangle v0 v1 v3; mkMeshTriangle v0 v3 v2 ]
                 else [ mkMeshTriangle v0 v3 v1; mkMeshTriangle v0 v2 v3 ]
           | _, _, _, _ => emitted_triangles oob m pair = []
           end.
Proof.
  intros x y z cellSize cellData0 Hiter r m. split.
  - subst r m. unfold GenerateMesh_run. cbn [run_buffer run_vertex run_scan].
    rewrite GenerateTriangles_spec. reflexivity.
  - intros pair Hpair. split.
    + apply Hiter in Hpair.
      destruct (mesh_run_scan_inv x y z cellSize cellData0) as [_ Hedges].
      destruct (Hedges _ _ Hpair) as (ex & ey & ez & axis & Hg & Ha & Hc & Hkey & Hinfo).
      exists ex, ey, ez, axis.
      split; [exact Hg |]. split; [exact Ha |]. split; [exact Hc |].
      split; [exact Hkey |]. rewrite Hinfo. reflexivity.
    + unfold emitted_triangles, resolved_voxels.
      destruct (m !! voxelIDs oob (fst pair) 0);
        destruct (m !! voxelIDs oob (fst pair) 1);
        destruct (m !! voxelIDs oob (fst pair) 2);
        destruct (m !! voxelIDs oob (fst pair) 3); reflexivity.
Qed.

(** C2, as the code has it: the solver is called once for every voxel of
    the active set, with the samples the voxel gathered, also when there
    are fewer than two; such a voxel then gets no index and no vertex.
    The count passed is between 0 and 12, and between 1 and 12 for the
    voxels of a mesh generation on a grid of at most 1024 cells per
    axis. *)
Theorem C2_solver_called_for_every_voxel :
  forall (edges : gmap Z EdgeInfo) (voxels : list Z) (m0 : gmap Z Z) (n0 : Z)
         (c0 : list float),
    let st := vertex_data voxels edges m0 n0 c0 in
    qefCalls st = map (solver_call oob edges) voxels
    /\ Forall (fun c => 0 <= qef_count c <= 12) (qefCalls st)
    /\ (forall (st0 : vertex_state) (v : Z),
          crossing_count oob edges v < 2 ->
          let st1 := place_vertex qef_solve_from_points_4d oob edges st0 v in
          vertexIndices st1 = vertexIndices st0 /\
          vs_vertices st1 = vs_vertices st0 /\
          vs_numVertices st1 = vs_numVertices st0 /\
          idxCounter st1 = idxCounter st0 /\
          qefCalls st1 = qefCalls st0 ++ [solver_call oob edges v])
    /\ (forall (x y z cellSize : Z) (cellData0 : list float),
          cellSize <= 1024 ->
          (forall (s : gset Z) (v : Z), v ∈ iter_set s -> v ∈ s) ->
          Forall (fun c => 1 <= qef_count c <= 12)
                 (qefCalls (run_vertex (mesh_run_of x y z cellSize cellData0)))).
Proof.
  intros edges voxels m0 n0 c0 st. subst st.
  split; [apply GenerateVertexData_calls |].
  split; [| split].
  - rewrite GenerateVertexData_calls. apply Forall_map, Forall_forall.
    intros v _. cbn [qef_count solver_call]. apply crossing_count_range.
  - intros st0 v Hlt st1. subst st1.
    rewrite place_vertex_skipped by exact Hlt. repeat split.
  - intros x y z cellSize cellData0 Hsz Hiter.
    unfold GenerateMesh_run. cbn [run_vertex].
    rewrite GenerateVertexData_calls. apply Forall_map, Forall_forall.
    intros v Hv. cbn [qef_count solver_call].
    apply Hiter in Hv.
    pose proof (FindActiveVoxels_inv Density_Func glm_mix glm_mix3 glm_normalize
                  x y z cellSize _ (scan_inv_empty _ _ _ _ _ _ _ _)) as [Hvox _].
    pose proof (crossing_count_range oob
                  (activeEdges (FindActiveVoxels Density_Func glm_mix glm_mix3
                                  glm_normalize (mkScan ∅ ∅) x y z cellSize)) v).
    pose proof (activated_voxel_crossing oob cellSize _ v Hsz (Hvox v Hv)).
    lia.
Qed.

(** C4: whatever the density, the origin, the grid size and the iteration
    orders, the triangle count of a generated mesh is twice the number of
    edges that resolved their four voxels, hence even; it is the number
    of triangles written; and every index of every triangle is at least 0
    and below the vertex count, which is the number of vertices written. *)
Theorem C4_even_triangle_count_valid_indices :
  forall (x y z cellSize : Z) (cellData0 : list float),
    let r := mesh_run_of x y z cellSize cellData0 in
    let b := mesh_of x y z cellSize cellData0 in
    Z.even (numTriangles b) = true
    /\ numTriangles b
       = 2 * Z.of_nat (length (resolved_edges oob (vertexIndices (run_vertex r))
                                 (iter_map (activeEdges (run_scan r)))))
    /\ numTriangles b = Z.of_nat (length (triangles b))
    /\ numVertices b = Z.of_nat (length (vertices b))
    /\ Forall (fun t : MeshTriangle =>
                 0 <= indices_0 t < numVertices b /\
                 0 <= indices_1 t < numVertices b /\
                 0 <= indices_2 t < numVertices b)
              (triangles b).
Proof.
  intros x y z cellSize cellData0 r b. subst r b.
  unfold GenerateMesh, GenerateMesh_run. cbn [run_buffer run_vertex run_scan].
  rewrite GenerateTriangles_spec.
  cbn [numTriangles triangles numVertices vertices].
  set (sc := FindActiveVoxels _ _ _ _ _ _ _ _ _).
  set (vs := GenerateVertexData _ _ _ _ _ _ _).
  destruct (GenerateVertexData_below qef_solve_from_points_4d oob (activeEdges sc)
              (iter_set (activeVoxels sc)) 0 cellData0) as (Hlen & Hnum & Hidx).
  fold vs in Hlen, Hnum, Hidx.
  rewrite flat_map_emitted_length.
  split; [| split; [| split; [| split]]].
  - rewrite Z.add_0_l, Nat2Z.inj_mul, Z.even_mul. reflexivity.
  - lia.
  - reflexivity.
  - lia.
  - apply (flat_map_emitted_below oob (vertexIndices vs) (vs_numVertices vs)).
    intros v i Hlook. apply Hidx in Hlook. lia.
Qed.

(** The scanner's guard: a neighbour voxel with a negative coordinate
    leaves the active set as it is. *)
Lemma insert_edge_node_negative (idxPos : ivec4) (axis i : Z) (voxels : gset Z) :
  ix (ivec4_sub idxPos (edge_node_offset axis i)) < 0 \/
  iy (ivec4_sub idxPos (edge_node_offset axis i)) < 0 \/
  iz (ivec4_sub idxPos (edge_node_offset axis i)) < 0 ->
  insert_edge_node idxPos axis i voxels = voxels.
Proof.
  intros Hneg. unfold insert_edge_node.
  destruct (Z.ltb_spec (ix (ivec4_sub idxPos (edge_node_offset axis i))) 0);
    destruct (Z.ltb_spec (iy (ivec4_sub idxPos (edge_node_offset axis i))) 0);
    destruct (Z.ltb_spec (iz (ivec4_sub idxPos (edge_node_offset axis i))) 0);
    cbn [orb]; try reflexivity; lia.
Qed.

(** C6: every identifier in the active set of a mesh generation, and so
    every key of the vertex index map, decodes to coordinates inside the
    grid and is the identifier of a voxel around a recorded edge none of
    whose coordinates is negative; a neighbour voxel with a negative
    coordinate is not inserted. *)
Theorem C6_active_voxels_inside_grid :
  forall (x y z cellSize : Z) (cellData0 : list float) (id : Z),
    (forall (s : gset Z) (v : Z), v ∈ iter_set s -> v ∈ s) ->
    let r := mesh_run_of x y z cellSize cellData0 in
    id ∈ activeVoxels (run_scan r) \/ is_Some (vertexIndices (run_vertex r) !! id) ->
    (0 <= ix (DecodeVoxelUniqueID id) < cellSize /\
     0 <= iy (DecodeVoxelUniqueID id) < cellSize /\
     0 <= iz (DecodeVoxelUniqueID id) < cellSize)
    /\ (exists ex ey ez axis i : Z,
         in_grid cellSize ex ey ez /\ 0 <= axis < 3 /\ 0 <= i < 4 /\
         is_Some (activeEdges (run_scan r) !! EncodeAxisUniqueID axis ex ey ez) /\
         let nodeIdxPos := ivec4_sub (Ivec4 ex ey ez 0) (edge_node_offset axis i) in
         0 <= ix nodeIdxPos /\ 0 <= iy nodeIdxPos /\ 0 <= iz nodeIdxPos /\
         id = EncodeVoxelUniqueID nodeIdxPos)
    /\ (forall (idxPos : ivec4) (axis i : Z) (voxels : gset Z),
          ix (ivec4_sub idxPos (edge_node_offset axis i)) < 0 \/
          iy (ivec4_sub idxPos (edge_node_offset axis i)) < 0 \/
          iz (ivec4_sub idxPos (edge_node_offset axis i)) < 0 ->
          insert_edge_node idxPos axis i voxels = voxels).
Proof.
  intros x y z cellSize cellData0 id Hiter r Hid.
  destruct (mesh_run_scan_inv x y z cellSize cellData0) as [Hvox _].
  fold r in Hvox.
  assert (Hactive : id ∈ activeVoxels (run_scan r)).
  { destruct Hid as [Hin | Hkey]; [exact Hin |].
    subst r. unfold GenerateMesh_run in Hkey |- *. cbn [run_vertex run_scan] in Hkey |- *.
    apply GenerateVertexData_keys in Hkey as [Hin _]. apply Hiter. exact Hin. }
  split; [| split].
  - apply (activated_voxel_decodes_in_grid cellSize (activeEdges (run_scan r))).
    apply Hvox. exact Hactive.
  - exact (Hvox id Hactive).
  - apply insert_edge_node_negative.
Qed.

(** The keys of the vertex index map of a mesh generation are sums of
    coordinates of the grid. *)
Lemma mesh_run_vertex_keys x y z cellSize cellData0 id :
  cellSize <= 1024 ->
  (forall (s : gset Z) (v : Z), v ∈ iter_set s -> v ∈ s) ->
  is_Some (vertexIndices (run_vertex (mesh_run_of x y z cellSize cellData0)) !! id) ->
  exists kx ky kz,
    0 <= kx < cellSize /\ 0 <= ky < cellSize /\ 0 <= kz < cellSize /\
    id = kx + ky * 2 ^ 10 + kz * 2 ^ 20.
Proof.
  intros Hsz Hiter Hkey.
  destruct (mesh_run_scan_inv x y z cellSize cellData0) as [Hvox _].
  unfold GenerateMesh_run in Hkey, Hvox. cbn [run_vertex run_scan] in Hkey, Hvox.
  apply GenerateVertexData_keys in Hkey as [Hin _]. apply Hiter, Hvox in Hin.
  exact (activated_voxel_sum cellSize _ id Hsz Hin).
Qed.

(** Both packed tables are the packed
    expansions of the 3D offsets, entry by entry: the voxel table of
    [EDGE_NODE_OFFSETS], the edge table of the canonical edge-base offsets,
    which are the entries of [EDGE_NODE_OFFSETS] again (at the same index
    for axes 0 and 2).  In a mesh generation on a grid of at most 1023
    cells per axis every lookup by table, of a voxel around an edge or of
    a canonical edge of a voxel, returns what the lookup of the identifier
    computed from the 3D coordinates returns; and the identifiers
    themselves are equal wherever the offset stays inside [0, 1024). *)
Lemma packed_tables_expand_the_offsets :
  forall a i : Z, 0 <= a < 3 -> 0 <= i < 4 ->
    ENCODED_EDGE_NODE_OFFSETS !! Z.to_nat (4 * a + i)
      = Some (EncodeVoxelUniqueID (edge_node_offset a i))
    /\ (let o := canonical_edge_base_offset a i in
        ENCODED_EDGE_OFFSETS !! Z.to_nat (4 * a + i)
          = Some (EncodeAxisUniqueID a (ix o) (iy o) (iz o)))
    /\ (exists i' : Z,
          0 <= i' < 4 /\
          canonical_edge_base_offset a i = edge_node_offset a i' /\
          (a <> 1 -> i' = i))
    /\ (forall (wx wy wz cellSize : Z) (cellData0 : list float) (x y z : Z),
          cellSize <= 1023 ->
          (forall (s : gset Z) (v : Z), v ∈ iter_set s -> v ∈ s) ->
          in_grid cellSize x y z ->
          let r := mesh_run_of wx wy wz cellSize cellData0 in
          vertexIndices (run_vertex r) !! voxelIDs oob (EncodeAxisUniqueID a x y z) i
          = vertexIndices (run_vertex r) !! edge_voxel_id a i x y z
          /\ find_edge oob (activeEdges (run_scan r))
               (EncodeVoxelUniqueID (Ivec4 x y z 0)) (4 * a + i)
             = activeEdges (run_scan r) !! canonical_edge_id a i x y z)
    /\ (forall x y z : Z,
          0 <= x < 1024 -> 0 <= y < 1024 -> 0 <= z < 1024 ->
          0 <= x - ix (edge_node_offset a i) ->
          0 <= y - iy (edge_node_offset a i) ->
          0 <= z - iz (edge_node_offset a i) ->
          voxelIDs oob (EncodeAxisUniqueID a x y z) i = edge_voxel_id a i x y z)
    /\ (forall (edges : gmap Z EdgeInfo) (x y z : Z),
          0 <= x -> 0 <= y -> 0 <= z ->
          x + ix (canonical_edge_base_offset a i) < 1024 ->
          y + iy (canonical_edge_base_offset a i) < 1024 ->
          z + iz (canonical_edge_base_offset a i) < 1024 ->
          find_edge oob edges (EncodeVoxelUniqueID (Ivec4 x y z 0)) (4 * a + i)
          = edges !! canonical_edge_id a i x y z).
Proof.
  intros a i Ha Hi. split; [| split; [| split; [| split; [| split]]]].
  - axis_corner_cases a i; vm_compute; reflexivity.
  - axis_corner_cases a i; vm_compute; reflexivity.
  - axis_corner_cases a i;
      first [ exists 0; split; [lia | split; [reflexivity | intros; lia]]
            | exists 1; split; [lia | split; [reflexivity | intros; lia]]
            | exists 2; split; [lia | split; [reflexivity | intros; lia]]
            | exists 3; split; [lia | split; [reflexivity | intros; lia]] ].
  - intros wx wy wz cellSize cellData0 x y z Hsz Hiter (Hx & Hy & Hz) r. split.
    + apply voxel_lookups_agree; try lia.
      intros id Hid. subst r.
      destruct (mesh_run_vertex_keys wx wy wz cellSize cellData0 id ltac:(lia) Hiter Hid)
        as (kx & ky & kz & Hkx & Hky & Hkz & Hsum).
      exists kx, ky, kz. repeat split; try lia.
    + unfold find_edge. f_equal. apply canonical_edge_key; try lia.
      * axis_corner_cases a i; eval_tables; cbn [ix iy iz]; lia.
      * axis_corner_cases a i; eval_tables; cbn [ix iy iz]; lia.
      * axis_corner_cases a i; eval_tables; cbn [ix iy iz]; lia.
  - intros. apply voxelIDs_from_coordinates; assumption.
  - intros. unfold find_edge. f_equal. apply canonical_edge_key; assumption.
Qed.

End MeshClaims.

(** * The claims on the reference instance *)

Lemma map_to_list_lookup (m : gmap Z EdgeInfo) (pair : Z * EdgeInfo) :
  pair ∈ Reference.iter_map m -> m !! fst pair = Some (snd pair).
Proof. destruct pair as [k info]. apply elem_of_map_to_list. Qed.

Lemma elements_elem (s : gset Z) (v : Z) : v ∈ Reference.iter_set s -> v ∈ s.
Proof. apply elem_of_elements. Qed.

Lemma voxels3_NoDup : NoDup Reference.voxels3.
Proof. refine (bool_decide_unpack (NoDup Reference.voxels3) _). vm_compute. reflexivity. Qed.

(** On the grid of 3 cells per axis the plane gives 8 vertices and 3
    quads. *)
Example plane_mesh :
  numVertices (run_buffer (Reference.run 3)) = 8 /\
  numTriangles (run_buffer (Reference.run 3)) = 6 /\
  triangles (run_buffer (Reference.run 3))
  = [ mkMeshTriangle 0 4 1; mkMeshTriangle 0 3 4;
      mkMeshTriangle 1 7 6; mkMeshTriangle 1 4 7;
      mkMeshTriangle 2 6 5; mkMeshTriangle 2 1 6 ].
Proof. vm_compute. repeat split. Qed.

(** On the one-cell grid the only crossing is on the x edge of the only
    voxel: the voxel is active, gathers one sample, gets no vertex, and
    the solver is called with a count of 1. *)
Lemma C2_solver_called_with_one_sample :
  elements (activeVoxels (run_scan (Reference.run 1))) = [0] /\
  crossing_count Reference.oob (activeEdges (run_scan (Reference.run 1))) 0 = 1 /\
  vertices (run_buffer (Reference.run 1)) = [] /\
  map qef_count (qefCalls (run_vertex (Reference.run 1))) = [1] /\
  ~ Forall (fun c => 2 <= qef_count c <= 12) (qefCalls (run_vertex (Reference.run 1))).
Proof.
  assert (Hcalls : map qef_count (qefCalls (run_vertex (Reference.run 1))) = [1])
    by (vm_compute; reflexivity).
  split; [vm_compute; reflexivity |].
  split; [vm_compute; reflexivity |].
  split; [vm_compute; reflexivity |].
  split; [exact Hcalls |].
  intros Hall. apply (Forall_map qef_count (fun n => 2 <= n <= 12)) in Hall.
  rewrite Hcalls in Hall. inversion Hall as [| n l Hn _]. lia.
Qed.

Lemma C6_active_voxels_inside_grid_witness :
  0 <= ix (DecodeVoxelUniqueID 1025) < 3 /\
  0 <= iy (DecodeVoxelUniqueID 1025) < 3 /\
  0 <= iz (DecodeVoxelUniqueID 1025) < 3.
Proof.
  refine (proj1 (C6_active_voxels_inside_grid
                   Reference.Density_Func Reference.qef_solve_from_points_4d
                   Reference.glm_mix Reference.glm_mix3 Reference.glm_normalize
                   Reference.oob Reference.iter_set Reference.iter_map
                   0 0 0 3 [] 1025 elements_elem _)).
  right. vm_compute. eexists. reflexivity.
Defined.




(** The plane is crossed at x = 1/4, three quarters of the way along the
    edge: step 12. *)
Example reference_search_result :
  FindIntersection Reference.Density_Func Reference.glm_mix Reference.p0 Reference.p1
  = step_t 12.
Proof. vm_compute. reflexivity. Qed.

Lemma placed3_index_of_voxel_1 :
  vertexIndices (GenerateVertexData Reference.qef_solve_from_points_4d Reference.oob
              Reference.voxels3 Reference.edges3 ∅ 0 []) !! 1 = Some 0.
Proof. vm_compute. reflexivity. Qed.

Lemma C9_vertex_normal_is_sum_times_reciprocal_witness :
  exists vert : MeshVertex,
    vs_vertices
      (GenerateVertexData Reference.qef_solve_from_points_4d Reference.oob
       Reference.voxels3 Reference.edges3 ∅ 0 [])
    !! Z.to_nat 0 = Some vert /\
    let ns := map normal (recorded_canonical_edges Reference.oob Reference.edges3 1) in
    let n := Z.of_nat (length ns) in
    let r := fdiv f1 (float_of_int n) in
    2 <= n /\
    n = crossing_count Reference.oob Reference.edges3 1 /\
    vx (vertex_normal vert) = fmul (foldl fadd f0 (map vx ns)) r /\
    vy (vertex_normal vert) = fmul (foldl fadd f0 (map vy ns)) r /\
    vz (vertex_normal vert) = fmul (foldl fadd f0 (map vz ns)) r /\
    vw (vertex_normal vert) = fmul (foldl fadd f0 (map vw ns)) r.
Proof.
  exact (C9_vertex_normal_is_sum_times_reciprocal
           Reference.qef_solve_from_points_4d Reference.oob
           Reference.edges3 Reference.voxels3 0 [] 1 0
           voxels3_NoDup placed3_index_of_voxel_1).
Defined.

(** On the grid of 4 cells per axis about the origin, with the sphere of
    radius 3/2 as density, the voxel at (1, 1, 1) has three recorded
    crossings and the vertex with index 17; the normal stored for it
    differs in the last bit of each of its three components from the sum
    of the three normals divided by 3. *)
Lemma C9_reciprocal_differs_from_division :
  vertexIndices (run_vertex
    (GenerateMesh_run Reference.sphere Reference.qef_solve_from_points_4d
       Reference.glm_mix Reference.glm_mix3 Reference.glm_normalize
       Reference.oob Reference.iter_set Reference.iter_map 0 0 0 4 []))
  !! EncodeVoxelUniqueID (Ivec4 1 1 1 0) = Some 17 /\
  crossing_count Reference.oob
    (activeEdges (run_scan
       (GenerateMesh_run Reference.sphere Reference.qef_solve_from_points_4d
          Reference.glm_mix Reference.glm_mix3 Reference.glm_normalize
          Reference.oob Reference.iter_set Reference.iter_map 0 0 0 4 [])))
    (EncodeVoxelUniqueID (Ivec4 1 1 1 0)) = 3 /\
  exists vert : MeshVertex,
    vertices (run_buffer
      (GenerateMesh_run Reference.sphere Reference.qef_solve_from_points_4d
         Reference.glm_mix Reference.glm_mix3 Reference.glm_normalize
         Reference.oob Reference.iter_set Reference.iter_map 0 0 0 4 []))
    !! Z.to_nat 17 = Some vert /\
    vertex_normal vert
    <> mean_by_division
         (map normal
            (recorded_canonical_edges Reference.oob
               (activeEdges (run_scan
                  (GenerateMesh_run Reference.sphere Reference.qef_solve_from_points_4d
                     Reference.glm_mix Reference.glm_mix3 Reference.glm_normalize
                     Reference.oob Reference.iter_set Reference.iter_map 0 0 0 4 [])))
               (EncodeVoxelUniqueID (Ivec4 1 1 1 0)))) /\
    vx (vertex_normal vert) = S754_finite true 9320626 (-24) /\
    vx (mean_by_division
          (map normal
             (recorded_canonical_edges Reference.oob
                (activeEdges (run_scan
                   (GenerateMesh_run Reference.sphere Reference.qef_solve_from_points_4d
                      Reference.glm_mix Reference.glm_mix3 Reference.glm_normalize
                      Reference.oob Reference.iter_set Reference.iter_map 0 0 0 4 [])))
                (EncodeVoxelUniqueID (Ivec4 1 1 1 0)))))
    = S754_finite true 9320625 (-24).
Proof.
  split; [vm_compute; reflexivity |].
  split; [vm_compute; reflexivity |].
  eexists. split; [vm_compute; reflexivity |].
  split; [vm_compute; discriminate |].
  split; vm_compute; reflexivity.
Qed.

Lemma C10_indices_are_sequential_witness :
  omap (fun v =>
          vertexIndices
            (GenerateVertexData Reference.qef_solve_from_points_4d Reference.oob
       Reference.voxels3 Reference.edges3 ∅ 0 [])
          !! v)
       Reference.voxels3
  = seqZ 0 (vs_numVertices
       (GenerateVertexData Reference.qef_solve_from_points_4d Reference.oob
       Reference.voxels3 Reference.edges3 ∅ 0 [])).
Proof.
  exact (proj1 (proj2 (proj2 (C10_indices_are_sequential
                  Reference.qef_solve_from_points_4d Reference.oob
                  Reference.edges3 Reference.voxels3 [] voxels3_NoDup)))).
Defined.

(** * Further properties of the code *)

(** ** Identifiers *)

Lemma decode_encode_axis a x y z :
  0 <= a < 4 -> 0 <= x < 1024 -> 0 <= y < 1024 -> 0 <= z < 1024 ->
  DecodeVoxelUniqueID (EncodeAxisUniqueID a x y z) = Ivec4 x y z 0.
Proof.
  intros Ha Hx Hy Hz. rewrite encode_axis_arith by assumption.
  apply decode_arith; lia.
Qed.

(** X1: an edge key gives back its axis and its base corner: on axes 0..3
    and coordinates in [0, 1024) the triangulator's axis extraction returns
    the axis, its masked node id is the voxel id of the base corner, the
    decoded coordinates are the base corner, and two edges with the same
    key are the same edge. *)
Theorem X1_edge_key_round_trip :
  forall a x y z : Z,
    0 <= a < 4 -> 0 <= x < 1024 -> 0 <= y < 1024 -> 0 <= z < 1024 ->
    edge_axis (EncodeAxisUniqueID a x y z) = a
    /\ edge_nodeID (EncodeAxisUniqueID a x y z) = EncodeVoxelUniqueID (Ivec4 x y z 0)
    /\ DecodeVoxelUniqueID (EncodeAxisUniqueID a x y z) = Ivec4 x y z 0
    /\ (forall a' x' y' z' : Z,
          0 <= a' < 4 -> 0 <= x' < 1024 -> 0 <= y' < 1024 -> 0 <= z' < 1024 ->
          EncodeAxisUniqueID a x y z = EncodeAxisUniqueID a' x' y' z' ->
          a = a' /\ x = x' /\ y = y' /\ z = z').
Proof.
  intros a x y z Ha Hx Hy Hz.
  destruct (edge_key_fields a x y z Ha Hx Hy Hz) as [Haxis Hnode].
  split; [exact Haxis |].
  split; [rewrite Hnode, encode_voxel_arith by assumption; reflexivity |].
  split; [apply decode_encode_axis; assumption |].
  intros a' x' y' z' Ha' Hx' Hy' Hz' Heq.
  destruct (edge_key_fields a' x' y' z' Ha' Hx' Hy' Hz') as [Haxis' _].
  split; [rewrite <- Haxis, <- Haxis', Heq; reflexivity |].
  apply (f_equal DecodeVoxelUniqueID) in Heq.
  rewrite !decode_encode_axis in Heq by assumption.
  inversion Heq. auto.
Qed.

Lemma X1_edge_key_round_trip_witness :
  edge_axis (EncodeAxisUniqueID 2 1023 0 7) = 2.
Proof.
  exact (proj1 (X1_edge_key_round_trip 2 1023 0 7
                  ltac:(lia) ltac:(lia) ltac:(lia) ltac:(lia))).
Defined.

(** X2: decoding any 32-bit identifier and encoding the result keeps its
    low 30 bits and drops the two axis bits, which is what the
    triangulator's mask computes; so encoding inverts decoding on the
    identifiers below 2^30. *)
Theorem X2_encode_decode_low_bits :
  forall id : Z,
    0 <= id < 2 ^ 32 ->
    EncodeVoxelUniqueID (DecodeVoxelUniqueID id) = id mod 2 ^ 30
    /\ edge_nodeID id = EncodeVoxelUniqueID (DecodeVoxelUniqueID id)
    /\ (id < 2 ^ 30 -> EncodeVoxelUniqueID (DecodeVoxelUniqueID id) = id).
Proof.
  intros id Hid.
  assert (Henc : EncodeVoxelUniqueID (DecodeVoxelUniqueID id) = id mod 2 ^ 30).
  { destruct (decode_range id) as (Hx & Hy & Hz).
    unfold DecodeVoxelUniqueID in *. cbn [ix iy iz] in Hx, Hy, Hz.
    rewrite encode_voxel_arith by assumption.
    change 0x3ff with (Z.ones 10).
    rewrite !Z.land_ones, !Z.shiftr_div_pow2 by lia.
    Z.div_mod_to_equations. lia. }
  split; [exact Henc |]. split.
  - rewrite Henc. unfold edge_nodeID.
    change (u32 (Z.lnot 0xc0000000)) with (Z.ones 30).
    rewrite Z.land_ones by lia. apply s32_small.
    pose proof (Z.mod_pos_bound id (2 ^ 30) ltac:(lia)). lia.
  - intros Hlt. rewrite Henc. apply Z.mod_small. lia.
Qed.

Lemma X2_encode_decode_low_bits_witness :
  EncodeVoxelUniqueID (DecodeVoxelUniqueID 0x80100401) = 0x80100401 mod 2 ^ 30.
Proof.
  exact (proj1 (X2_encode_decode_low_bits 0x80100401 ltac:(lia))).
Defined.

(** ** Loops that reach a step *)

(** A property that every iteration preserves and that iteration [j]
    establishes holds after the loop. *)
Lemma for_range_establishes {S : Type} (Q : S -> Prop) (n j : Z) (body : Z -> S -> S) (s : S) :
  0 <= j < n ->
  (forall i s, 0 <= i < n -> Q s -> Q (body i s)) ->
  (forall s, Q (body j s)) ->
  Q (for_range n body s).
Proof.
  intros Hj Hkeep Hset. unfold for_range.
  replace n with (j + (1 + (n - j - 1))) by lia.
  rewrite seqZ_app, foldl_app by lia.
  rewrite (seqZ_app (0 + j) 1 (n - j - 1)), foldl_app by lia.
  apply foldl_invariant.
  - change (seqZ (0 + j) 1) with [0 + j]. cbn [foldl]. rewrite Z.add_0_l. apply Hset.
  - intros i s' Hi. apply Hkeep. apply elem_of_seqZ in Hi. lia.
Qed.

(** ** What the scanner records, exactly *)

Section ScannerExact.

Variable Density_Func : vec3 -> float.
Variable glm_mix : vec4 -> vec4 -> float -> vec4.
Variable glm_mix3 : vec3 -> vec3 -> float -> vec3.
Variable glm_normalize : vec4 -> vec4.
Variables worldX worldY worldZ voxelGridSize : Z.

Local Abbreviation step := (scan_axis Density_Func glm_mix glm_mix3 glm_normalize
                              worldX worldY worldZ voxelGridSize).
Local Abbreviation scanner := (FindActiveVoxels Density_Func glm_mix glm_mix3 glm_normalize).
Local Abbreviation crossing :=
  (crossing_edge Density_Func worldX worldY worldZ voxelGridSize).
Local Abbreviation info_of :=
  (fun x y z axis =>
     edge_info Density_Func glm_mix glm_mix3 glm_normalize
       (lower_endpoint worldX worldY worldZ voxelGridSize x y z)
       (upper_endpoint worldX worldY worldZ voxelGridSize x y z axis)).

Lemma scan_axis_no_crossing x y z axis st :
  crossing x y z axis = false -> step x y z axis st = st.
Proof.
  intros Hc. unfold scan_axis.
  change (zeroCrossing _ _) with (crossing x y z axis). rewrite Hc. reflexivity.
Qed.

Lemma scan_axis_crossing x y z axis st :
  crossing x y z axis = true ->
  step x y z axis st
  = mkScan (for_range 4 (insert_edge_node (Ivec4 x y z 0) axis) (activeVoxels st))
           (<[ EncodeAxisUniqueID axis x y z := info_of x y z axis ]> (activeEdges st)).
Proof.
  intros Hc. unfold scan_axis.
  change (zeroCrossing _ _) with (crossing x y z axis). rewrite Hc. reflexivity.
Qed.

(** Invariants of every iteration and what one iteration establishes,
    carried through the four nested loops. *)
Lemma FindActiveVoxels_preserves (Q : scan_state -> Prop) st :
  (forall x y z axis s,
      in_grid voxelGridSize x y z -> 0 <= axis < 3 -> Q s -> Q (step x y z axis s)) ->
  Q st -> Q (scanner st worldX worldY worldZ voxelGridSize).
Proof.
  intros Hkeep Hst. unfold FindActiveVoxels.
  apply for_range_invariant; [exact Hst |]. intros x s1 Hx H1.
  apply for_range_invariant; [exact H1 |]. intros y s2 Hy H2.
  apply for_range_invariant; [exact H2 |]. intros z s3 Hz H3.
  apply for_range_invariant; [exact H3 |]. intros axis s4 Ha H4.
  apply Hkeep; [repeat split; lia | exact Ha | exact H4].
Qed.

Lemma FindActiveVoxels_establishes (Q : scan_state -> Prop) x y z axis st :
  (forall x y z axis s,
      in_grid voxelGridSize x y z -> 0 <= axis < 3 -> Q s -> Q (step x y z axis s)) ->
  in_grid voxelGridSize x y z -> 0 <= axis < 3 ->
  (forall s, Q (step x y z axis s)) ->
  Q (scanner st worldX worldY worldZ voxelGridSize).
Proof.
  intros Hkeep (Hx & Hy & Hz) Ha Hset. unfold FindActiveVoxels.
  apply (for_range_establishes Q voxelGridSize x); [exact Hx | |].
  { intros x' s1 Hx' H1.
    apply for_range_invariant; [exact H1 |]. intros y' s2 Hy' H2.
    apply for_range_invariant; [exact H2 |]. intros z' s3 Hz' H3.
    apply for_range_invariant; [exact H3 |]. intros a' s4 Ha' H4.
    apply Hkeep; [repeat split; lia | exact Ha' | exact H4]. }
  intros s1. apply (for_range_establishes Q voxelGridSize y); [exact Hy | |].
  { intros y' s2 Hy' H2.
    apply for_range_invariant; [exact H2 |]. intros z' s3 Hz' H3.
    apply for_range_invariant; [exact H3 |]. intros a' s4 Ha' H4.
    apply Hkeep; [repeat split; lia | exact Ha' | exact H4]. }
  intros s2. apply (for_range_establishes Q voxelGridSize z); [exact Hz | |].
  { intros z' s3 Hz' H3.
    apply for_range_invariant; [exact H3 |]. intros a' s4 Ha' H4.
    apply Hkeep; [repeat split; lia | exact Ha' | exact H4]. }
  intros s3. apply (for_range_establishes Q 3 axis); [exact Ha | | exact Hset].
  intros a' s4 Ha' H4. apply Hkeep; [repeat split; lia | exact Ha' | exact H4].
Qed.

Lemma insert_edge_node_keeps idxPos axis i (V : gset Z) id :
  id ∈ V -> id ∈ insert_edge_node idxPos axis i V.
Proof.
  intros Hid. unfold insert_edge_node.
  destruct (_ || _); [exact Hid | apply elem_of_union; right; exact Hid].
Qed.

Lemma insert_edge_nodes_keep idxPos axis (V : gset Z) id :
  id ∈ V -> id ∈ for_range 4 (insert_edge_node idxPos axis) V.
Proof.
  intros Hid. apply (for_range_invariant (fun V' : gset Z => id ∈ V')); [exact Hid |].
  intros i V' _. apply insert_edge_node_keeps.
Qed.

Lemma insert_edge_nodes_add idxPos axis i (V : gset Z) :
  0 <= i < 4 ->
  0 <= ix (ivec4_sub idxPos (edge_node_offset axis i)) ->
  0 <= iy (ivec4_sub idxPos (edge_node_offset axis i)) ->
  0 <= iz (ivec4_sub idxPos (edge_node_offset axis i)) ->
  EncodeVoxelUniqueID (ivec4_sub idxPos (edge_node_offset axis i))
  ∈ for_range 4 (insert_edge_node idxPos axis) V.
Proof.
  intros Hi Hx Hy Hz.
  apply (for_range_establishes (fun V' : gset Z => _ ∈ V') 4 i); [exact Hi | |].
  - intros j V' _. apply insert_edge_node_keeps.
  - intros V'. unfold insert_edge_node.
    destruct (Z.ltb_spec (ix (ivec4_sub idxPos (edge_node_offset axis i))) 0); [lia |].
    destruct (Z.ltb_spec (iy (ivec4_sub idxPos (edge_node_offset axis i))) 0); [lia |].
    destruct (Z.ltb_spec (iz (ivec4_sub idxPos (edge_node_offset axis i))) 0); [lia |].
    cbn [orb]. apply elem_of_union. left. apply elem_of_singleton. reflexivity.
Qed.

Lemma scan_axis_keeps_voxel x y z axis st id :
  id ∈ activeVoxels st -> id ∈ activeVoxels (step x y z axis st).
Proof.
  intros Hid. destruct (crossing x y z axis) eqn:Hc.
  - rewrite scan_axis_crossing by exact Hc. cbn [activeVoxels].
    apply insert_edge_nodes_keep. exact Hid.
  - rewrite scan_axis_no_crossing by exact Hc. exact Hid.
Qed.

(** Voxels only enter the active set around a crossing edge. *)
Lemma FindActiveVoxels_voxels_sound st :
  (forall id, id ∈ activeVoxels st ->
     crossing_neighbour Density_Func worldX worldY worldZ voxelGridSize id) ->
  forall id, id ∈ activeVoxels (scanner st worldX worldY worldZ voxelGridSize) ->
    crossing_neighbour Density_Func worldX worldY worldZ voxelGridSize id.
Proof.
  intros Hst.
  apply (FindActiveVoxels_preserves
           (fun s => forall id, id ∈ activeVoxels s ->
              crossing_neighbour Density_Func worldX worldY worldZ voxelGridSize id));
    [| exact Hst].
  intros x y z axis s Hg Ha IH id Hid.
  destruct (crossing x y z axis) eqn:Hc.
  - rewrite scan_axis_crossing in Hid by exact Hc. cbn [activeVoxels] in Hid.
    apply insert_edge_nodes_elem in Hid as [Hold | (i & Hi & Hn)]; [apply IH; exact Hold |].
    exists x, y, z, axis, i.
    split; [exact Hg |]. split; [exact Ha |]. split; [exact Hi |].
    split; [exact Hc | exact Hn].
  - rewrite scan_axis_no_crossing in Hid by exact Hc. apply IH. exact Hid.
Qed.

(** Every voxel without negative coordinate around a crossing edge
    enters the active set. *)
Lemma FindActiveVoxels_voxels_complete st id :
  crossing_neighbour Density_Func worldX worldY worldZ voxelGridSize id ->
  id ∈ activeVoxels (scanner st worldX worldY worldZ voxelGridSize).
Proof.
  intros (x & y & z & axis & i & Hg & Ha & Hi & Hc & Hn).
  cbv zeta in Hn. destruct Hn as (Hx & Hy & Hz & ->).
  apply (FindActiveVoxels_establishes (fun s => _ ∈ activeVoxels s) x y z axis);
    [| exact Hg | exact Ha |].
  - intros x' y' z' a' s _ _. apply scan_axis_keeps_voxel.
  - intros s. rewrite scan_axis_crossing by exact Hc. cbn [activeVoxels].
    apply insert_edge_nodes_add; assumption.
Qed.

Lemma edge_key_inj a x y z a' x' y' z' :
  0 <= a < 4 -> 0 <= x < 1024 -> 0 <= y < 1024 -> 0 <= z < 1024 ->
  0 <= a' < 4 -> 0 <= x' < 1024 -> 0 <= y' < 1024 -> 0 <= z' < 1024 ->
  EncodeAxisUniqueID a x y z = EncodeAxisUniqueID a' x' y' z' ->
  a = a' /\ x = x' /\ y = y' /\ z = z'.
Proof.
  intros Ha Hx Hy Hz Ha' Hx' Hy' Hz' Heq.
  destruct (edge_key_fields a x y z Ha Hx Hy Hz) as [Haxis _].
  destruct (edge_key_fields a' x' y' z' Ha' Hx' Hy' Hz') as [Haxis' _].
  split; [rewrite <- Haxis, <- Haxis', Heq; reflexivity |].
  apply (f_equal DecodeVoxelUniqueID) in Heq.
  rewrite !decode_encode_axis in Heq by assumption.
  inversion Heq. auto.
Qed.

(** On a grid of at most 1024 cells per axis a crossing edge keeps its
    own entry: no other edge has its key. *)
Lemma FindActiveVoxels_edges_complete st x y z axis :
  voxelGridSize <= 1024 ->
  in_grid voxelGridSize x y z -> 0 <= axis < 3 ->
  crossing x y z axis = true ->
  activeEdges (scanner st worldX worldY worldZ voxelGridSize)
    !! EncodeAxisUniqueID axis x y z
  = Some (info_of x y z axis).
Proof.
  intros Hsz Hg Ha Hc.
  apply (FindActiveVoxels_establishes
           (fun s => activeEdges s !! EncodeAxisUniqueID axis x y z
                     = Some (info_of x y z axis)) x y z axis);
    [| exact Hg | exact Ha |].
  - intros x' y' z' a' s Hg' Ha' IH.
    destruct (crossing x' y' z' a') eqn:Hc'.
    + rewrite scan_axis_crossing by exact Hc'. cbn [activeEdges].
      destruct (decide (EncodeAxisUniqueID a' x' y' z' = EncodeAxisUniqueID axis x y z))
        as [Heq | Hne].
      * destruct Hg as (? & ? & ?), Hg' as (? & ? & ?).
        apply edge_key_inj in Heq as (-> & -> & -> & ->); try lia.
        apply lookup_insert_eq.
      * rewrite lookup_insert_ne by exact Hne. exact IH.
    + rewrite scan_axis_no_crossing by exact Hc'. exact IH.
  - intros s. rewrite scan_axis_crossing by exact Hc. cbn [activeEdges].
    apply lookup_insert_eq.
Qed.

(** X3: on a grid of at most 1024 cells per axis, started on empty
    containers, the scanner's edge map holds exactly the crossing edges of
    the grid: a key maps to an [EdgeInfo] if and only if it is the key of
    a grid edge whose endpoint densities cross zero and the [EdgeInfo] is
    the one built for that edge. *)
Theorem X3_edge_map_is_the_crossing_edges :
  voxelGridSize <= 1024 ->
  forall (code : Z) (info : EdgeInfo),
    activeEdges (scanner (mkScan ∅ ∅) worldX worldY worldZ voxelGridSize) !! code = Some info
    <->
    exists x y z axis : Z,
      in_grid voxelGridSize x y z /\ 0 <= axis < 3 /\
      crossing x y z axis = true /\
      code = EncodeAxisUniqueID axis x y z /\
      info = edge_info Density_Func glm_mix glm_mix3 glm_normalize
               (lower_endpoint worldX worldY worldZ voxelGridSize x y z)
               (upper_endpoint worldX worldY worldZ voxelGridSize x y z axis).
Proof.
  intros Hsz code info. split.
  - intros Hlook.
    destruct (FindActiveVoxels_inv Density_Func glm_mix glm_mix3 glm_normalize
                worldX worldY worldZ voxelGridSize _
                (scan_inv_empty _ _ _ _ _ _ _ _)) as [_ Hedges].
    exact (Hedges code info Hlook).
  - intros (x & y & z & axis & Hg & Ha & Hc & -> & ->).
    apply FindActiveVoxels_edges_complete; assumption.
Qed.

(** X4: for every grid size, started on empty containers, the scanner's
    active set holds exactly the identifiers of the voxels around the
    crossing edges of the grid that have no negative coordinate. *)
Theorem X4_active_set_is_the_crossing_neighbours :
  forall id : Z,
    id ∈ activeVoxels (scanner (mkScan ∅ ∅) worldX worldY worldZ voxelGridSize)
    <->
    exists x y z axis i : Z,
      in_grid voxelGridSize x y z /\ 0 <= axis < 3 /\ 0 <= i < 4 /\
      crossing x y z axis = true /\
      let nodeIdxPos := ivec4_sub (Ivec4 x y z 0) (edge_node_offset axis i) in
      0 <= ix nodeIdxPos /\ 0 <= iy nodeIdxPos /\ 0 <= iz nodeIdxPos /\
      id = EncodeVoxelUniqueID nodeIdxPos.
Proof.
  intros id. split.
  - apply FindActiveVoxels_voxels_sound. cbn. intros id' Hid'.
    apply not_elem_of_empty in Hid'. destruct Hid'.
  - apply FindActiveVoxels_voxels_complete.
Qed.

(** Without a crossing edge the scanner changes nothing. *)
Lemma FindActiveVoxels_no_crossing st :
  (forall x y z axis,
      in_grid voxelGridSize x y z -> 0 <= axis < 3 -> crossing x y z axis = false) ->
  scanner st worldX worldY worldZ voxelGridSize = st.
Proof.
  intros Hnone.
  apply (FindActiveVoxels_preserves (fun s => s = st)); [| reflexivity].
  intros x y z axis s Hg Ha ->. apply scan_axis_no_crossing, Hnone; assumption.
Qed.

Lemma outside_not_inside (a : float) : fge a f0 = true -> flt a f0 = false.
Proof.
  unfold fge, flt, SFleb, SFltb, f0. cbn.
  destruct a as [[] | [] | | [] m e]; cbn; congruence.
Qed.

(** X7: the winding flag of a recorded edge tells which endpoint is
    inside: when it is set the density is >= 0 at the lower endpoint and
    < 0 at the upper endpoint of a crossing grid edge with that key, and
    when it is clear the density is < 0 at the lower and >= 0 at the upper
    endpoint. *)
Theorem X7_winding_flag_orients_the_edge :
  forall (code : Z) (info : EdgeInfo),
    activeEdges (scanner (mkScan ∅ ∅) worldX worldY worldZ voxelGridSize) !! code = Some info ->
    exists x y z axis : Z,
      in_grid voxelGridSize x y z /\ 0 <= axis < 3 /\
      code = EncodeAxisUniqueID axis x y z /\
      let p := lower_endpoint worldX worldY worldZ voxelGridSize x y z in
      let q := upper_endpoint worldX worldY worldZ voxelGridSize x y z axis in
      if winding info
      then outside_at Density_Func p = true /\ inside_at Density_Func q = true
      else inside_at Density_Func p = true /\ outside_at Density_Func q = true.
Proof.
  intros code info Hlook.
  destruct (FindActiveVoxels_inv Density_Func glm_mix glm_mix3 glm_normalize
              worldX worldY worldZ voxelGridSize _
              (scan_inv_empty _ _ _ _ _ _ _ _)) as [_ Hedges].
  destruct (Hedges code info Hlook) as (x & y & z & axis & Hg & Ha & Hc & -> & ->).
  exists x, y, z, axis. split; [exact Hg |]. split; [exact Ha |]. split; [reflexivity |].
  cbv zeta. unfold crossing_edge, zeroCrossing in Hc.
  unfold outside_at, inside_at. cbn [winding edge_info].
  destruct (fge (Density Density_Func
                   (lower_endpoint worldX worldY worldZ voxelGridSize x y z)) f0) eqn:Hp.
  - rewrite (outside_not_inside _ Hp), andb_false_l, orb_false_r, andb_true_l in Hc.
    split; [reflexivity | exact Hc].
  - rewrite andb_false_l, orb_false_l in Hc. apply andb_true_iff in Hc. exact Hc.
Qed.

End ScannerExact.

(** ** The edge sampler at its limits *)

Section SamplerLimits.

Variable Density_Func : vec3 -> float.
Variable glm_mix : vec4 -> vec4 -> float -> vec4.

Lemma step_t_below_one k :
  0 <= k < 16 ->
  fge (step_t k) f0 = true /\ flt (step_t k) f1 = true /\ fge (step_t 15) (step_t k) = true.
Proof. intros Hk. step_cases k; vm_compute; repeat split. Qed.

(** X5: whatever the density returns, the search result is at least 0 and
    strictly below 1, at most 15/16: the far endpoint of the edge is
    never sampled and never returned. *)
Theorem X5_FindIntersection_never_reaches_far_endpoint :
  forall p0 p1 : vec4,
    fge (FindIntersection Density_Func glm_mix p0 p1) f0 = true
    /\ flt (FindIntersection Density_Func glm_mix p0 p1) f1 = true
    /\ fge (step_t 15) (FindIntersection Density_Func glm_mix p0 p1) = true.
Proof.
  intros p0 p1.
  destruct (FindIntersection_is_a_step Density_Func glm_mix p0 p1) as (k & Hk & ->).
  apply step_t_below_one. exact Hk.
Qed.

(** X6: when no sample has a magnitude below [FLT_MAX] (every sample is a
    NaN, an infinity or [FLT_MAX] itself) the search never updates its
    best step and returns 0, the near endpoint. *)
Theorem X6_FindIntersection_without_usable_sample :
  forall p0 p1 : vec4,
    (forall j : Z, 0 <= j < 16 ->
       flt (sample_magnitude Density_Func glm_mix p0 p1 j) FLT_MAX = false) ->
    FindIntersection Density_Func glm_mix p0 p1 = f0.
Proof.
  intros p0 p1 Hnone. unfold FindIntersection. change FIND_EDGE_INFO_STEPS with 16.
  enough (H : currentT (for_range 16 (fun _ => FindIntersection_step Density_Func glm_mix p0 p1)
                           (mkSearch FLT_MAX f0 f0)) = step_t 16 /\
              minValue (for_range 16 (fun _ => FindIntersection_step Density_Func glm_mix p0 p1)
                           (mkSearch FLT_MAX f0 f0)) = FLT_MAX /\
              best_t (for_range 16 (fun _ => FindIntersection_step Density_Func glm_mix p0 p1)
                           (mkSearch FLT_MAX f0 f0)) = f0) by tauto.
  apply (for_range_counted
           (fun i s => currentT s = step_t i /\ minValue s = FLT_MAX /\ best_t s = f0)
           16 (fun _ => FindIntersection_step Density_Func glm_mix p0 p1)); [lia | |].
  - repeat split.
  - intros i s Hi (Ht & Hmin & Hbest). unfold FindIntersection_step.
    rewrite Ht, Hmin.
    change (glm_abs (Density Density_Func (glm_mix p0 p1 (step_t i))))
      with (sample_magnitude Density_Func glm_mix p0 p1 i).
    rewrite (Hnone i Hi). cbn [minValue currentT best_t].
    rewrite Ht. split; [apply step_t_next; exact Hi |]. split; assumption.
Qed.

End SamplerLimits.

(** ** The vertex placer: arrays, log and capacity *)

Section PlacerBounds.

Variable qef_solve_from_points_4d : list vec4 -> list vec4 -> Z -> vec4.
Variable oob : Z -> Z.
Variable edges : gmap Z EdgeInfo.

Local Abbreviation place := (place_vertex qef_solve_from_points_4d oob edges).
Local Abbreviation run := (GenerateVertexData qef_solve_from_points_4d oob).

(** X10: every invocation of the solver gets two sample arrays that hold
    exactly as many entries as the count passed with them, and the count
    is at most 12: the 12-slot arrays [p] and [n] are never over-run and
    the solver is never pointed at a slot that was not written. *)
Theorem X10_solver_arrays_match_the_count :
  forall (voxels : list Z) (m0 : gmap Z Z) (n0 : Z) (c0 : list float),
    Forall (fun c : qef_call =>
              Z.of_nat (length (qef_positions c)) = qef_count c /\
              Z.of_nat (length (qef_normals c)) = qef_count c /\
              0 <= qef_count c <= 12)
           (qefCalls (run voxels edges m0 n0 c0)).
Proof.
  intros voxels m0 n0 c0. rewrite GenerateVertexData_calls.
  apply Forall_map, Forall_forall. intros v _.
  cbn [qef_positions qef_normals qef_count solver_call].
  unfold contributing_positions, contributing_normals. rewrite !length_map.
  split; [reflexivity |]. split; [reflexivity |]. apply crossing_count_range.
Qed.

Lemma place_vertex_log st v :
  cellData (place st v)
  = cellData st ++ logged_position qef_solve_from_points_4d oob edges v.
Proof.
  unfold place_vertex, logged_position.
  destruct (1 <? g_idx (gather_edges oob edges v)); reflexivity.
Qed.

(** X11: the placer appends to [cellData], for every voxel of the active
    set in iteration order and also for those that get no vertex, the
    three coordinates of the position the solver returned for it. *)
Theorem X11_cellData_logs_every_voxel :
  forall (voxels : list Z) (m0 : gmap Z Z) (n0 : Z) (c0 : list float),
    cellData (run voxels edges m0 n0 c0)
    = c0 ++ flat_map (logged_position qef_solve_from_points_4d oob edges) voxels
    /\ length (cellData (run voxels edges m0 n0 c0))
       = (length c0 + 3 * length voxels)%nat.
Proof.
  intros voxels m0 n0 c0. unfold GenerateVertexData.
  assert (Hlog : forall l st,
             cellData (foldl place st l)
             = cellData st ++ flat_map (logged_position qef_solve_from_points_4d oob edges) l).
  { induction l as [| v l IH]; intros st; cbn [foldl flat_map].
    - rewrite app_nil_r. reflexivity.
    - rewrite IH, place_vertex_log, <- app_assoc. reflexivity. }
  split; [apply Hlog |].
  rewrite Hlog, length_app. cbn [cellData]. f_equal.
  induction voxels as [| v l IH]; [reflexivity |].
  cbn [flat_map]. rewrite length_app, IH. cbn. lia.
Qed.

Lemma place_vertex_count st v :
  (length (vs_vertices (place st v)) <= Datatypes.S (length (vs_vertices st)))%nat.
Proof.
  destruct (Z.le_gt_cases 2 (crossing_count oob edges v)) as [Hplaced | Hskipped].
  - rewrite place_vertex_placed by exact Hplaced. cbn [vs_vertices].
    rewrite length_app. cbn. lia.
  - rewrite place_vertex_skipped by lia. cbn [vs_vertices]. lia.
Qed.

Lemma GenerateVertexData_capacity voxels m0 n0 c0 :
  (length (vs_vertices (run voxels edges m0 n0 c0)) <= length voxels)%nat.
Proof.
  unfold GenerateVertexData.
  assert (H : forall l st,
             (length (vs_vertices (foldl place st l))
              <= length (vs_vertices st) + length l)%nat).
  { induction l as [| v l IH]; intros st; cbn [foldl length]; [lia |].
    pose proof (IH (place st v)). pose proof (place_vertex_count st v). lia. }
  apply (H voxels).
Qed.

(** When the voxel list has no duplicates, a voxel has an index exactly
    when it is in the list with at least two crossings, and indices
    determine their voxel. *)
Lemma GenerateVertexData_domain voxels n0 c0 v :
  NoDup voxels ->
  is_Some (vertexIndices (run voxels edges ∅ n0 c0) !! v)
  <-> v ∈ voxels /\ 2 <= crossing_count oob edges v.
Proof.
  intros Hnodup.
  destruct (GenerateVertexData_exact qef_solve_from_points_4d oob edges voxels n0 c0 Hnodup)
    as (_ & _ & _ & Hidx & _).
  split.
  - apply GenerateVertexData_keys.
  - intros [Hin Hcount].
    assert (Hkept : v ∈ placed_voxels oob edges voxels)
      by (apply placed_voxels_elem; tauto).
    apply list_elem_of_lookup_1 in Hkept as [k Hk].
    exists (Z.of_nat k). apply Hidx. eauto.
Qed.

Lemma GenerateVertexData_injective voxels n0 c0 v v' i :
  NoDup voxels ->
  vertexIndices (run voxels edges ∅ n0 c0) !! v = Some i ->
  vertexIndices (run voxels edges ∅ n0 c0) !! v' = Some i ->
  v = v'.
Proof.
  intros Hnodup Hv Hv'.
  destruct (GenerateVertexData_exact qef_solve_from_points_4d oob edges voxels n0 c0 Hnodup)
    as (_ & _ & _ & Hidx & _).
  apply Hidx in Hv as (k & -> & Hk). apply Hidx in Hv' as (k' & Heq & Hk').
  apply Nat2Z.inj in Heq. subst k'. congruence.
Qed.

End PlacerBounds.

(** ** The whole mesh *)

Lemma table_read_in_range oob oob' (tbl : list Z) i :
  0 <= i < Z.of_nat (length tbl) ->
  table_read oob tbl i = table_read oob' tbl i.
Proof.
  intros Hi. unfold table_read.
  destruct (tbl !! Z.to_nat i) as [w |] eqn:Hw.
  - destruct (0 <=? i) eqn:Hpos; [reflexivity |].
    apply Z.leb_gt in Hpos. lia.
  - apply lookup_ge_None in Hw. lia.
Qed.

Lemma gather_edges_in_range oob oob' edges voxelID :
  gather_edges oob edges voxelID = gather_edges oob' edges voxelID.
Proof.
  rewrite !gather_edges_spec.
  unfold contributing_positions, contributing_normals, crossing_count,
    recorded_canonical_edges.
  rewrite (omap_agree (find_edge oob edges voxelID) (find_edge oob' edges voxelID));
    [reflexivity |].
  intros i Hi. apply elem_of_seqZ in Hi. unfold find_edge.
  rewrite (table_read_in_range oob oob') by (cbn; lia). reflexivity.
Qed.

Lemma place_vertex_in_range qef oob oob' edges st v :
  place_vertex qef oob edges st v = place_vertex qef oob' edges st v.
Proof.
  unfold place_vertex.
  generalize (gather_edges_in_range oob oob' edges v).
  generalize (gather_edges oob edges v) (gather_edges oob' edges v).
  intros g g' ->. reflexivity.
Qed.

Lemma GenerateVertexData_in_range qef oob oob' voxels edges m0 n0 c0 :
  GenerateVertexData qef oob voxels edges m0 n0 c0
  = GenerateVertexData qef oob' voxels edges m0 n0 c0.
Proof.
  unfold GenerateVertexData.
  generalize (mkVertexState m0 [] n0 0 c0 []).
  induction voxels as [| v l IH]; intros st; cbn [foldl]; [reflexivity |].
  rewrite (place_vertex_in_range qef oob oob'). apply IH.
Qed.

Lemma voxelIDs_in_range oob oob' a x y z i :
  0 <= a < 3 -> 0 <= x < 1024 -> 0 <= y < 1024 -> 0 <= z < 1024 -> 0 <= i < 4 ->
  voxelIDs oob (EncodeAxisUniqueID a x y z) i
  = voxelIDs oob' (EncodeAxisUniqueID a x y z) i.
Proof.
  intros Ha Hx Hy Hz Hi. unfold voxelIDs.
  destruct (edge_key_fields a x y z ltac:(lia) Hx Hy Hz) as [-> _].
  rewrite (table_read_in_range oob oob') by (cbn; lia). reflexivity.
Qed.

Lemma u32_sub_cancel n t t' :
  0 <= t < 2 ^ 32 -> 0 <= t' < 2 ^ 32 -> u32 (n - t) = u32 (n - t') -> t = t'.
Proof.
  intros Ht Ht' Heq. unfold u32 in Heq.
  assert (Hdiv : (t' - t) mod 2 ^ 32 = 0).
  { replace (t' - t) with ((n - t) - (n - t')) by lia.
    rewrite Zminus_mod, Heq, Z.sub_diag. reflexivity. }
  apply Z.mod_divide in Hdiv; [| lia]. destruct Hdiv as [k Hk].
  assert (k = 0) by nia. lia.
Qed.

Lemma voxelIDs_distinct oob a x y z i j :
  0 <= a < 3 -> 0 <= x < 1024 -> 0 <= y < 1024 -> 0 <= z < 1024 ->
  0 <= i < 4 -> 0 <= j < 4 -> i <> j ->
  voxelIDs oob (EncodeAxisUniqueID a x y z) i
  <> voxelIDs oob (EncodeAxisUniqueID a x y z) j.
Proof.
  intros Ha Hx Hy Hz Hi Hj Hij. unfold voxelIDs.
  destruct (edge_key_fields a x y z ltac:(lia) Hx Hy Hz) as [-> ->].
  intros Heq. apply u32_sub_cancel in Heq.
  - assert (Hj' : j = 0 \/ j = 1 \/ j = 2 \/ j = 3) by lia.
    axis_corner_cases a i; destruct Hj' as [-> | [-> | [-> | ->]]];
      try (apply Hij; reflexivity);
      revert Heq; eval_tables; discriminate.
  - axis_corner_cases a i; eval_tables; lia.
  - assert (Hj' : j = 0 \/ j = 1 \/ j = 2 \/ j = 3) by lia.
    destruct Hj' as [-> | [-> | [-> | ->]]];
    assert (Ha' : a = 0 \/ a = 1 \/ a = 2) by lia;
    destruct Ha' as [-> | [-> | ->]]; eval_tables; lia.
Qed.

Lemma resolved_voxels_is_Some oob (m : gmap Z Z) edge :
  is_Some (resolved_voxels oob m edge)
  <-> is_Some (m !! voxelIDs oob edge 0) /\ is_Some (m !! voxelIDs oob edge 1) /\
      is_Some (m !! voxelIDs oob edge 2) /\ is_Some (m !! voxelIDs oob edge 3).
Proof.
  unfold resolved_voxels.
  destruct (m !! voxelIDs oob edge 0) as [v0 |];
    destruct (m !! voxelIDs oob edge 1) as [v1 |];
    destruct (m !! voxelIDs oob edge 2) as [v2 |];
    destruct (m !! voxelIDs oob edge 3) as [v3 |];
    split; try (intros [q Hq]; discriminate);
    try (intros (H0 & H1 & H2 & H3);
         first [destruct H0 as [q Hq] | idtac];
         first [destruct H1 as [q' Hq'] | idtac];
         first [destruct H2 as [q'' Hq''] | idtac];
         first [destruct H3 as [q''' Hq'''] | idtac];
         discriminate);
    eauto 6.
Qed.

Lemma emitted_triangles_distinct oob (m : gmap Z Z) pair :
  (forall i j, 0 <= i < 4 -> 0 <= j < 4 -> i <> j ->
               voxelIDs oob (fst pair) i <> voxelIDs oob (fst pair) j) ->
  (forall v v' i, m !! v = Some i -> m !! v' = Some i -> v = v') ->
  Forall distinct_indices (emitted_triangles oob m pair).
Proof.
  intros Hdist Hinj. unfold emitted_triangles, resolved_voxels.
  destruct (m !! voxelIDs oob (fst pair) 0) as [v0 |] eqn:H0;
    destruct (m !! voxelIDs oob (fst pair) 1) as [v1 |] eqn:H1;
    destruct (m !! voxelIDs oob (fst pair) 2) as [v2 |] eqn:H2;
    destruct (m !! voxelIDs oob (fst pair) 3) as [v3 |] eqn:H3;
    try constructor.
  assert (H01 : v0 <> v1)
    by (intros ->; apply (Hdist 0 1); [lia | lia | lia | exact (Hinj _ _ _ H0 H1)]).
  assert (H02 : v0 <> v2)
    by (intros ->; apply (Hdist 0 2); [lia | lia | lia | exact (Hinj _ _ _ H0 H2)]).
  assert (H03 : v0 <> v3)
    by (intros ->; apply (Hdist 0 3); [lia | lia | lia | exact (Hinj _ _ _ H0 H3)]).
  assert (H13 : v1 <> v3)
    by (intros ->; apply (Hdist 1 3); [lia | lia | lia | exact (Hinj _ _ _ H1 H3)]).
  assert (H23 : v2 <> v3)
    by (intros ->; apply (Hdist 2 3); [lia | lia | lia | exact (Hinj _ _ _ H2 H3)]).
  unfold quad_triangles, distinct_indices.
  destruct (winding (snd pair)); repeat constructor; cbn; congruence.
Qed.

Lemma flat_map_Forall {A B : Type} (P : B -> Prop) (f : A -> list B) (l : list A) :
  (forall a, a ∈ l -> Forall P (f a)) -> Forall P (flat_map f l).
Proof.
  induction l as [| a l IH]; intros Hall; cbn [flat_map]; [constructor |].
  apply Forall_app. split; [apply Hall; left | apply IH].
  intros b Hb. apply Hall. right. exact Hb.
Qed.

Lemma flat_map_agree {A B : Type} (f g : A -> list B) (l : list A) :
  (forall a, a ∈ l -> f a = g a) -> flat_map f l = flat_map g l.
Proof.
  induction l as [| a l IH]; intros Hfg; [reflexivity |].
  cbn [flat_map]. rewrite (Hfg a) by left. rewrite IH; [reflexivity |].
  intros b Hb. apply Hfg. right. exact Hb.
Qed.

Section MeshBounds.

Variable Density_Func : vec3 -> float.
Variable qef_solve_from_points_4d : list vec4 -> list vec4 -> Z -> vec4.
Variable glm_mix : vec4 -> vec4 -> float -> vec4.
Variable glm_mix3 : vec3 -> vec3 -> float -> vec3.
Variable glm_normalize : vec4 -> vec4.
Variable oob : Z -> Z.
Variable iter_set : gset Z -> list Z.
Variable iter_map : gmap Z EdgeInfo -> list (Z * EdgeInfo).

Local Abbreviation mesh_run_of :=
  (GenerateMesh_run Density_Func qef_solve_from_points_4d glm_mix glm_mix3
     glm_normalize oob iter_set iter_map).
Local Abbreviation mesh_of :=
  (GenerateMesh Density_Func qef_solve_from_points_4d glm_mix glm_mix3
     glm_normalize oob iter_set iter_map).

(** The key of every edge the map iterates over, on a grid of at most
    1024 cells per axis, packs an axis in 0..2 and three coordinates
    below 1024. *)
Lemma mesh_run_edge_keys x y z cellSize cellData0 pair :
  cellSize <= 1024 ->
  (forall (m : gmap Z EdgeInfo) (pair : Z * EdgeInfo),
      pair ∈ iter_map m -> m !! fst pair = Some (snd pair)) ->
  pair ∈ iter_map (activeEdges (run_scan (mesh_run_of x y z cellSize cellData0))) ->
  exists a gx gy gz,
    0 <= a < 3 /\ 0 <= gx < 1024 /\ 0 <= gy < 1024 /\ 0 <= gz < 1024 /\
    fst pair = EncodeAxisUniqueID a gx gy gz.
Proof.
  intros Hsz Hmap Hin. apply Hmap in Hin.
  assert (Hinv : scan_inv Density_Func glm_mix glm_mix3 glm_normalize x y z cellSize
                   (run_scan (mesh_run_of x y z cellSize cellData0)))
    by (unfold GenerateMesh_run; cbn [run_scan];
        apply FindActiveVoxels_inv, scan_inv_empty).
  destruct Hinv as [_ Hedges].
  apply Hedges in Hin as (gx & gy & gz & a & Hgrid & Ha & _ & Hkey & _).
  unfold in_grid in Hgrid. exists a, gx, gy, gz.
  repeat split; solve [lia | exact Hkey].
Qed.

(** X8: when no edge of the grid has a sign change (in particular when
    the grid size is zero or negative), mesh generation returns the
    empty buffer, with both counters 0, never calls the solver and
    leaves [cellData] as it was. *)
Theorem X8_no_crossing_gives_the_empty_mesh :
  forall (x y z cellSize : Z) (cellData0 : list float),
    (forall gx gy gz axis : Z,
        in_grid cellSize gx gy gz -> 0 <= axis < 3 ->
        crossing_edge Density_Func x y z cellSize gx gy gz axis = false) ->
    (forall (s : gset Z) (v : Z), v ∈ iter_set s -> v ∈ s) ->
    (forall (m : gmap Z EdgeInfo) (pair : Z * EdgeInfo),
        pair ∈ iter_map m -> m !! fst pair = Some (snd pair)) ->
    mesh_of x y z cellSize cellData0 = mkMeshBuffer [] 0 [] 0 /\
    qefCalls (run_vertex (mesh_run_of x y z cellSize cellData0)) = [] /\
    cellData (run_vertex (mesh_run_of x y z cellSize cellData0)) = cellData0.
Proof.
  intros x y z cellSize cellData0 Hnone Hset Hmap.
  assert (Hvoxels : iter_set ∅ = []).
  { destruct (iter_set ∅) as [| v l] eqn:Hl; [reflexivity |].
    exfalso. apply (not_elem_of_empty (C:=gset Z) v), Hset. rewrite Hl. left. }
  assert (Hedges : iter_map ∅ = []).
  { destruct (iter_map ∅) as [| pair l] eqn:Hl; [reflexivity |].
    exfalso. assert (Hin : pair ∈ iter_map ∅) by (rewrite Hl; left).
    apply Hmap in Hin. rewrite lookup_empty in Hin. discriminate. }
  unfold GenerateMesh, GenerateMesh_run. cbv zeta. cbn [run_buffer run_vertex].
  rewrite (FindActiveVoxels_no_crossing Density_Func glm_mix glm_mix3 glm_normalize
             x y z cellSize (mkScan ∅ ∅) Hnone).
  cbn [activeVoxels activeEdges]. rewrite Hvoxels, Hedges.
  repeat split.
Qed.

(** X9: the vertex array is allocated for as many vertices as there are
    active voxels and the triangle array for two triangles per recorded
    edge; the generator never writes more than that, and the two
    counters of the buffer are exactly the numbers of entries written. *)
Theorem X9_buffers_fit_their_allocation :
  forall (x y z cellSize : Z) (cellData0 : list float),
    (forall s : gset Z, length (iter_set s) = size s) ->
    (forall m : gmap Z EdgeInfo, length (iter_map m) = size m) ->
    let r := mesh_run_of x y z cellSize cellData0 in
    (length (vertices (run_buffer r)) <= size (activeVoxels (run_scan r)))%nat /\
    (length (triangles (run_buffer r)) <= 2 * size (activeEdges (run_scan r)))%nat /\
    numVertices (run_buffer r) = Z.of_nat (length (vertices (run_buffer r))) /\
    numTriangles (run_buffer r) = Z.of_nat (length (triangles (run_buffer r))).
Proof.
  intros x y z cellSize cellData0 Hset Hmap r. subst r.
  unfold GenerateMesh_run. cbv zeta. cbn [run_buffer run_scan].
  rewrite GenerateTriangles_spec. cbn [vertices triangles numVertices numTriangles].
  set (sc := FindActiveVoxels Density_Func glm_mix glm_mix3 glm_normalize
               (mkScan ∅ ∅) x y z cellSize).
  split; [| split; [| split]].
  - rewrite <- Hset. apply GenerateVertexData_capacity.
  - rewrite flat_map_emitted_length, <- Hmap. unfold resolved_edges.
    match goal with |- (2 * length (filter ?P ?l) <= _)%nat =>
      pose proof (length_filter P l) end.
    lia.
  - destruct (GenerateVertexData_below qef_solve_from_points_4d oob (activeEdges sc)
                (iter_set (activeVoxels sc)) 0 cellData0) as (Hlen & Hnum & _).
    lia.
  - lia.
Qed.

(** X12: on a grid of at most 1024 cells per axis, when the set is
    iterated without repetition, the three vertex indices of every
    triangle of the mesh are pairwise different: no triangle is
    degenerate by index. *)
Theorem X12_triangles_have_three_different_corners :
  forall (x y z cellSize : Z) (cellData0 : list float),
    cellSize <= 1024 ->
    (forall s : gset Z, NoDup (iter_set s)) ->
    (forall (m : gmap Z EdgeInfo) (pair : Z * EdgeInfo),
        pair ∈ iter_map m -> m !! fst pair = Some (snd pair)) ->
    Forall (fun t : MeshTriangle =>
              indices_0 t <> indices_1 t /\ indices_0 t <> indices_2 t /\
              indices_1 t <> indices_2 t)
           (triangles (mesh_of x y z cellSize cellData0)).
Proof.
  intros x y z cellSize cellData0 Hsz Hnodup Hmap.
  pose proof (mesh_run_edge_keys x y z cellSize cellData0) as Hkeys.
  unfold GenerateMesh. unfold GenerateMesh_run in *. cbv zeta in *.
  cbn [run_buffer run_scan] in *.
  rewrite GenerateTriangles_spec. cbn [triangles].
  apply flat_map_Forall. intros pair Hpair.
  destruct (Hkeys pair Hsz Hmap Hpair) as (a & gx & gy & gz & Ha & Hx & Hy & Hz & Hkey).
  apply emitted_triangles_distinct.
  - intros i j Hi Hj Hij. rewrite Hkey. apply voxelIDs_distinct; assumption.
  - intros v v' i. apply GenerateVertexData_injective, Hnodup.
Qed.

(** X14: on a grid of at most 1024 cells per axis no read of the two
    packed tables falls outside their 12 entries: the whole run is the
    same whatever a read past the end would yield. *)
Theorem X14_tables_are_read_within_bounds :
  forall (oob' : Z -> Z) (x y z cellSize : Z) (cellData0 : list float),
    cellSize <= 1024 ->
    (forall (m : gmap Z EdgeInfo) (pair : Z * EdgeInfo),
        pair ∈ iter_map m -> m !! fst pair = Some (snd pair)) ->
    GenerateMesh_run Density_Func qef_solve_from_points_4d glm_mix glm_mix3
      glm_normalize oob iter_set iter_map x y z cellSize cellData0
    = GenerateMesh_run Density_Func qef_solve_from_points_4d glm_mix glm_mix3
        glm_normalize oob' iter_set iter_map x y z cellSize cellData0.
Proof.
  intros oob' x y z cellSize cellData0 Hsz Hmap.
  pose proof (mesh_run_edge_keys x y z cellSize cellData0) as Hkeys.
  unfold GenerateMesh_run in *. cbv zeta in *. cbn [run_scan] in *.
  rewrite (GenerateVertexData_in_range qef_solve_from_points_4d oob oob').
  rewrite !GenerateTriangles_spec. cbn [vertices numVertices numTriangles].
  set (m := vertexIndices _).
  rewrite (flat_map_agree (emitted_triangles oob m) (emitted_triangles oob' m));
    [reflexivity |].
  intros pair Hpair.
  destruct (Hkeys pair Hsz Hmap Hpair) as (a & gx & gy & gz & Ha & Hx & Hy & Hz & Hkey).
  unfold emitted_triangles, resolved_voxels. rewrite Hkey.
  rewrite !(voxelIDs_in_range oob oob' a gx gy gz) by lia. reflexivity.
Qed.

End MeshBounds.

(** ** Iteration order *)

Section IterationOrder.

Variable Density_Func : vec3 -> float.
Variable qef_solve_from_points_4d : list vec4 -> list vec4 -> Z -> vec4.
Variable glm_mix : vec4 -> vec4 -> float -> vec4.
Variable glm_mix3 : vec3 -> vec3 -> float -> vec3.
Variable glm_normalize : vec4 -> vec4.
Variable oob : Z -> Z.
Variables iter_set iter_set' : gset Z -> list Z.
Variables iter_map iter_map' : gmap Z EdgeInfo -> list (Z * EdgeInfo).

Lemma resolved_edges_order (edges : gmap Z EdgeInfo) (voxels voxels' : list Z)
    (l l' : list (Z * EdgeInfo)) (n0 : Z) (c0 : list float) :
  NoDup voxels -> voxels' ≡ₚ voxels -> l' ≡ₚ l ->
  length (resolved_edges oob
            (vertexIndices (GenerateVertexData qef_solve_from_points_4d oob
                              voxels' edges ∅ n0 c0)) l')
  = length (resolved_edges oob
              (vertexIndices (GenerateVertexData qef_solve_from_points_4d oob
                                voxels edges ∅ n0 c0)) l).
Proof.
  intros Hnodup Hvoxels Hedges.
  assert (Hnodup' : NoDup voxels') by (rewrite Hvoxels; exact Hnodup).
  set (m := vertexIndices (GenerateVertexData _ _ voxels edges ∅ n0 c0)).
  set (m' := vertexIndices (GenerateVertexData _ _ voxels' edges ∅ n0 c0)).
  assert (Hdom : forall v, is_Some (m' !! v) <-> is_Some (m !! v)).
  { intros v. subst m m'.
    rewrite !GenerateVertexData_domain by assumption.
    rewrite Hvoxels. reflexivity. }
  unfold resolved_edges.
  rewrite (list_filter_iff
             (fun pair => is_Some (resolved_voxels oob m' (fst pair)))
             (fun pair => is_Some (resolved_voxels oob m (fst pair)))).
  - apply Permutation_length. rewrite Hedges. reflexivity.
  - intros pair. rewrite !resolved_voxels_is_Some, !Hdom. reflexivity.
Qed.

(** X13: the hash containers may be iterated in any order (each active
    voxel once): the number of vertices, the vertices themselves up to
    their order in the array, and the number of triangles of the mesh do
    not depend on it. *)
Theorem X13_mesh_size_is_independent_of_iteration_order :
  forall (x y z cellSize : Z) (cellData0 : list float),
    (forall s : gset Z, NoDup (iter_set s)) ->
    (forall s : gset Z, iter_set' s ≡ₚ iter_set s) ->
    (forall m : gmap Z EdgeInfo, iter_map' m ≡ₚ iter_map m) ->
    let b := GenerateMesh Density_Func qef_solve_from_points_4d glm_mix glm_mix3
               glm_normalize oob iter_set iter_map x y z cellSize cellData0 in
    let b' := GenerateMesh Density_Func qef_solve_from_points_4d glm_mix glm_mix3
                glm_normalize oob iter_set' iter_map' x y z cellSize cellData0 in
    numVertices b' = numVertices b /\
    vertices b' ≡ₚ vertices b /\
    numTriangles b' = numTriangles b.
Proof.
  intros x y z cellSize cellData0 Hnodup Hset Hmap b b'. subst b b'.
  unfold GenerateMesh, GenerateMesh_run. cbv zeta. cbn [run_buffer].
  rewrite !GenerateTriangles_spec. cbn [vertices numVertices numTriangles].
  set (sc := FindActiveVoxels Density_Func glm_mix glm_mix3 glm_normalize
               (mkScan ∅ ∅) x y z cellSize).
  assert (Hnodup' : NoDup (iter_set' (activeVoxels sc)))
    by (rewrite Hset; apply Hnodup).
  destruct (GenerateVertexData_exact qef_solve_from_points_4d oob (activeEdges sc)
              (iter_set (activeVoxels sc)) 0 cellData0 (Hnodup _))
    as (Hv & _ & Hn & _).
  destruct (GenerateVertexData_exact qef_solve_from_points_4d oob (activeEdges sc)
              (iter_set' (activeVoxels sc)) 0 cellData0 Hnodup')
    as (Hv' & _ & Hn' & _).
  assert (Hkept : placed_voxels oob (activeEdges sc) (iter_set' (activeVoxels sc))
                  ≡ₚ placed_voxels oob (activeEdges sc) (iter_set (activeVoxels sc))).
  { unfold placed_voxels. rewrite (Hset (activeVoxels sc)). reflexivity. }
  split; [| split].
  - rewrite Hn, Hn'. rewrite (Permutation_length Hkept). reflexivity.
  - rewrite Hv, Hv'. rewrite Hkept. reflexivity.
  - rewrite !flat_map_emitted_length.
    rewrite (resolved_edges_order (activeEdges sc) (iter_set (activeVoxels sc))
               (iter_set' (activeVoxels sc)) (iter_map (activeEdges sc))
               (iter_map' (activeEdges sc)) 0 cellData0 (Hnodup _) (Hset _) (Hmap _)).
    reflexivity.
Qed.

End IterationOrder.

(** ** The super primitive *)

Lemma glm_abs_fneg (a : float) : glm_abs (fneg a) = glm_abs a.
Proof. destruct a as [s | s | | s m e]; reflexivity. Qed.

(** X15: the super primitive looks at its sample point through the
    absolute values of the three coordinates only: the shape is mirror
    symmetric about the three coordinate planes. *)
Theorem X15_sdSuperprim_is_mirror_symmetric :
  forall (glm_length : vec2 -> float) (px py pz : float) (s : vec4) (r : vec2),
    sdSuperprim glm_length (Vec3 (fneg px) py pz) s r
      = sdSuperprim glm_length (Vec3 px py pz) s r /\
    sdSuperprim glm_length (Vec3 px (fneg py) pz) s r
      = sdSuperprim glm_length (Vec3 px py pz) s r /\
    sdSuperprim glm_length (Vec3 px py (fneg pz)) s r
      = sdSuperprim glm_length (Vec3 px py pz) s r.
Proof.
  intros glm_length px py pz s r. unfold sdSuperprim. cbn [x3 y3 z3].
  rewrite !glm_abs_fneg. repeat split.
Qed.

(** ** Beyond 1024 cells per axis *)

Lemma lor_carry_into_odd x y :
  0 <= x < 1024 -> 0 <= y -> Z.odd y = true ->
  Z.lor (x + 1024) (y * 2 ^ 10) = Z.lor x (y * 2 ^ 10).
Proof.
  intros Hx Hy Hodd.
  replace (x + 1024) with (x + 1 * 2 ^ 10) by lia.
  rewrite <- (lor_shifted_add 10 x 1) by lia.
  rewrite <- Z.lor_assoc. f_equal.
  assert (Hk : exists k, y = 2 * k + 1).
  { exists (y / 2). pose proof (Zmod_odd y) as Hmod. rewrite Hodd in Hmod.
    pose proof (Z.div_mod y 2). lia. }
  destruct Hk as [k ->].
  replace ((2 * k + 1) * 2 ^ 10) with (1 * 2 ^ 10 + k * 2 ^ 11) by lia.
  rewrite <- (lor_shifted_add 11 (1 * 2 ^ 10) k) by lia.
  rewrite Z.lor_assoc, Z.lor_diag. reflexivity.
Qed.

(** X16: the packing has 10 bits per coordinate, without a check: a
    coordinate of 1024 or more spills into the next field.  For an odd
    [y], the edge and the voxel at [(x + 1024, y, z)] get the very key
    of those at [(x, y, z)], so on a grid of more than 1024 cells per
    axis different edges share one map entry. *)
Theorem X16_keys_collide_beyond_1024 :
  forall a x y z : Z,
    0 <= a < 4 -> 0 <= x < 1024 -> 0 <= y < 1024 -> 0 <= z < 1024 ->
    Z.odd y = true ->
    EncodeAxisUniqueID a (x + 1024) y z = EncodeAxisUniqueID a x y z /\
    EncodeVoxelUniqueID (Ivec4 (x + 1024) y z 0) = EncodeVoxelUniqueID (Ivec4 x y z 0).
Proof.
  intros a x y z Ha Hx Hy Hz Hodd.
  unfold EncodeAxisUniqueID, EncodeVoxelUniqueID. cbn [ix iy iz].
  rewrite !Z.shiftl_0_r, !Z.shiftl_mul_pow2 by lia.
  rewrite !(s32_small (x + 1024)), !(s32_small x), !(s32_small (y * 2 ^ 10)) by lia.
  rewrite lor_carry_into_odd by (lia || assumption).
  split; reflexivity.
Qed.

Lemma X16_keys_collide_beyond_1024_witness :
  EncodeAxisUniqueID 2 (5 + 1024) 7 9 = EncodeAxisUniqueID 2 5 7 9.
Proof.
  exact (proj1 (X16_keys_collide_beyond_1024 2 5 7 9
                  ltac:(lia) ltac:(lia) ltac:(lia) ltac:(lia) eq_refl)).
Defined.

(** ** The further properties on the reference instance *)

Lemma X3_edge_map_is_the_crossing_edges_witness :
  activeEdges (FindActiveVoxels Reference.Density_Func Reference.glm_mix
                 Reference.glm_mix3 Reference.glm_normalize (mkScan ∅ ∅) 0 0 0 1)
  !! EncodeAxisUniqueID 0 0 0 0
  = Some (edge_info Reference.Density_Func Reference.glm_mix Reference.glm_mix3
            Reference.glm_normalize
            (lower_endpoint 0 0 0 1 0 0 0) (upper_endpoint 0 0 0 1 0 0 0 0)).
Proof.
  apply (proj2 (X3_edge_map_is_the_crossing_edges
                  Reference.Density_Func Reference.glm_mix Reference.glm_mix3
                  Reference.glm_normalize 0 0 0 1 ltac:(lia)
                  (EncodeAxisUniqueID 0 0 0 0)
                  (edge_info Reference.Density_Func Reference.glm_mix Reference.glm_mix3
                     Reference.glm_normalize
                     (lower_endpoint 0 0 0 1 0 0 0) (upper_endpoint 0 0 0 1 0 0 0 0)))).
  exists 0, 0, 0, 0.
  split; [unfold in_grid; lia |]. split; [lia |].
  split; [vm_compute; reflexivity |]. split; reflexivity.
Defined.

Lemma X6_FindIntersection_without_usable_sample_witness :
  FindIntersection (fun _ : vec3 => S754_nan) Reference.glm_mix Reference.p0 Reference.p1
  = f0.
Proof.
  apply (X6_FindIntersection_without_usable_sample
           (fun _ : vec3 => S754_nan) Reference.glm_mix Reference.p0 Reference.p1).
  intros j Hj. reflexivity.
Defined.

Lemma reference_edge_recorded :
  activeEdges (FindActiveVoxels Reference.Density_Func Reference.glm_mix
                 Reference.glm_mix3 Reference.glm_normalize (mkScan ∅ ∅) 0 0 0 1)
  !! 0
  = Some (edge_info Reference.Density_Func Reference.glm_mix Reference.glm_mix3
            Reference.glm_normalize
            (lower_endpoint 0 0 0 1 0 0 0) (upper_endpoint 0 0 0 1 0 0 0 0)).
Proof. vm_compute. reflexivity. Qed.

Lemma X7_winding_flag_orients_the_edge_witness :
  exists x y z axis : Z,
    in_grid 1 x y z /\ 0 <= axis < 3 /\
    0 = EncodeAxisUniqueID axis x y z /\
    let p := lower_endpoint 0 0 0 1 x y z in
    let q := upper_endpoint 0 0 0 1 x y z axis in
    if winding (edge_info Reference.Density_Func Reference.glm_mix Reference.glm_mix3
                  Reference.glm_normalize
                  (lower_endpoint 0 0 0 1 0 0 0) (upper_endpoint 0 0 0 1 0 0 0 0))
    then outside_at Reference.Density_Func p = true /\
         inside_at Reference.Density_Func q = true
    else inside_at Reference.Density_Func p = true /\
         outside_at Reference.Density_Func q = true.
Proof.
  exact (X7_winding_flag_orients_the_edge
           Reference.Density_Func Reference.glm_mix Reference.glm_mix3
           Reference.glm_normalize 0 0 0 1 0
           (edge_info Reference.Density_Func Reference.glm_mix Reference.glm_mix3
              Reference.glm_normalize
              (lower_endpoint 0 0 0 1 0 0 0) (upper_endpoint 0 0 0 1 0 0 0 0))
           reference_edge_recorded).
Defined.

(** Ten units up the x axis the grid of 2 cells per axis is wholly on the
    positive side of the plane. *)
Lemma reference_far_from_plane (gx gy gz axis : Z) :
  in_grid 2 gx gy gz -> 0 <= axis < 3 ->
  crossing_edge Reference.Density_Func 10 0 0 2 gx gy gz axis = false.
Proof.
  unfold in_grid. intros (Hx & Hy & Hz) Ha.
  assert (Hx' : gx = 0 \/ gx = 1) by lia.
  assert (Hy' : gy = 0 \/ gy = 1) by lia.
  assert (Hz' : gz = 0 \/ gz = 1) by lia.
  assert (Ha' : axis = 0 \/ axis = 1 \/ axis = 2) by lia.
  destruct Hx' as [-> | ->], Hy' as [-> | ->], Hz' as [-> | ->],
    Ha' as [-> | [-> | ->]]; vm_compute; reflexivity.
Qed.

Lemma X8_no_crossing_gives_the_empty_mesh_witness :
  GenerateMesh Reference.Density_Func Reference.qef_solve_from_points_4d
    Reference.glm_mix Reference.glm_mix3 Reference.glm_normalize
    Reference.oob Reference.iter_set Reference.iter_map 10 0 0 2 []
  = mkMeshBuffer [] 0 [] 0.
Proof.
  exact (proj1 (X8_no_crossing_gives_the_empty_mesh
                  Reference.Density_Func Reference.qef_solve_from_points_4d
                  Reference.glm_mix Reference.glm_mix3 Reference.glm_normalize
                  Reference.oob Reference.iter_set Reference.iter_map
                  10 0 0 2 [] reference_far_from_plane elements_elem
                  map_to_list_lookup)).
Defined.

Lemma elements_length (s : gset Z) : length (Reference.iter_set s) = size s.
Proof. reflexivity. Qed.

Lemma map_to_list_length (m : gmap Z EdgeInfo) : length (Reference.iter_map m) = size m.
Proof. apply length_map_to_list. Qed.

Lemma X9_buffers_fit_their_allocation_witness :
  (length (vertices (run_buffer
     (GenerateMesh_run Reference.Density_Func Reference.qef_solve_from_points_4d
        Reference.glm_mix Reference.glm_mix3 Reference.glm_normalize
        Reference.oob Reference.iter_set Reference.iter_map 0 0 0 3 [])))
   <= size (activeVoxels (run_scan
     (GenerateMesh_run Reference.Density_Func Reference.qef_solve_from_points_4d
        Reference.glm_mix Reference.glm_mix3 Reference.glm_normalize
        Reference.oob Reference.iter_set Reference.iter_map 0 0 0 3 []))))%nat.
Proof.
  exact (proj1 (X9_buffers_fit_their_allocation
                  Reference.Density_Func Reference.qef_solve_from_points_4d
                  Reference.glm_mix Reference.glm_mix3 Reference.glm_normalize
                  Reference.oob Reference.iter_set Reference.iter_map
                  0 0 0 3 [] elements_length map_to_list_length)).
Defined.

Lemma elements_NoDup (s : gset Z) : NoDup (Reference.iter_set s).
Proof. apply NoDup_elements. Qed.

Lemma X12_triangles_have_three_different_corners_witness :
  Forall (fun t : MeshTriangle =>
            indices_0 t <> indices_1 t /\ indices_0 t <> indices_2 t /\
            indices_1 t <> indices_2 t)
         (triangles
            (GenerateMesh Reference.Density_Func Reference.qef_solve_from_points_4d
               Reference.glm_mix Reference.glm_mix3 Reference.glm_normalize
               Reference.oob Reference.iter_set Reference.iter_map 0 0 0 3 [])).
Proof.
  exact (X12_triangles_have_three_different_corners
           Reference.Density_Func Reference.qef_solve_from_points_4d
           Reference.glm_mix Reference.glm_mix3 Reference.glm_normalize
           Reference.oob Reference.iter_set Reference.iter_map
           0 0 0 3 [] ltac:(lia) elements_NoDup map_to_list_lookup).
Defined.

Lemma reverse_elements (s : gset Z) : reverse (elements s) ≡ₚ Reference.iter_set s.
Proof. apply reverse_Permutation. Qed.

Lemma reverse_map_to_list (m : gmap Z EdgeInfo) :
  reverse (map_to_list m) ≡ₚ Reference.iter_map m.
Proof. apply reverse_Permutation. Qed.

Lemma X13_mesh_size_is_independent_of_iteration_order_witness :
  numVertices
    (GenerateMesh Reference.Density_Func Reference.qef_solve_from_points_4d
       Reference.glm_mix Reference.glm_mix3 Reference.glm_normalize Reference.oob
       (fun s : gset Z => reverse (elements s))
       (fun m : gmap Z EdgeInfo => reverse (map_to_list m)) 0 0 0 3 [])
  = numVertices
      (GenerateMesh Reference.Density_Func Reference.qef_solve_from_points_4d
         Reference.glm_mix Reference.glm_mix3 Reference.glm_normalize Reference.oob
         Reference.iter_set Reference.iter_map 0 0 0 3 []).
Proof.
  exact (proj1 (X13_mesh_size_is_independent_of_iteration_order
                  Reference.Density_Func Reference.qef_solve_from_points_4d
                  Reference.glm_mix Reference.glm_mix3 Reference.glm_normalize
                  Reference.oob Reference.iter_set
                  (fun s : gset Z => reverse (elements s))
                  Reference.iter_map
                  (fun m : gmap Z EdgeInfo => reverse (map_to_list m))
                  0 0 0 3 [] elements_NoDup reverse_elements reverse_map_to_list)).
Defined.

Lemma X14_tables_are_read_within_bounds_witness :
  GenerateMesh_run Reference.Density_Func Reference.qef_solve_from_points_4d
    Reference.glm_mix Reference.glm_mix3 Reference.glm_normalize
    Reference.oob Reference.iter_set Reference.iter_map 0 0 0 3 []
  = GenerateMesh_run Reference.Density_Func Reference.qef_solve_from_points_4d
      Reference.glm_mix Reference.glm_mix3 Reference.glm_normalize
      (fun i : Z => i + 7) Reference.iter_set Reference.iter_map 0 0 0 3 [].
Proof.
  exact (X14_tables_are_read_within_bounds
           Reference.Density_Func Reference.qef_solve_from_points_4d
           Reference.glm_mix Reference.glm_mix3 Reference.glm_normalize
           Reference.oob Reference.iter_set Reference.iter_map
           (fun i : Z => i + 7) 0 0 0 3 [] ltac:(lia) map_to_list_lookup).
Defined.

(** * The packed offsets on a grid of 1024 cells per axis *)

(** Two hits among the 12 keys of a voxel give a count of at least 2. *)
Lemma crossing_count_two oob (edges : gmap Z EdgeInfo) v i j :
  0 <= i < j -> j < 12 ->
  is_Some (find_edge oob edges v i) -> is_Some (find_edge oob edges v j) ->
  2 <= crossing_count oob edges v.
Proof.
  intros Hij Hj Hi Hj'. unfold crossing_count, recorded_canonical_edges.
  replace 12 with (j + (12 - j)) by lia.
  rewrite seqZ_app by lia. rewrite omap_app, length_app.
  pose proof (omap_length_pos (find_edge oob edges v) (seqZ 0 j) i
                ltac:(apply elem_of_seqZ; lia) Hi).
  pose proof (omap_length_pos (find_edge oob edges v) (seqZ (0 + j) (12 - j)) j
                ltac:(apply elem_of_seqZ; lia) Hj').
  lia.
Qed.

Lemma flat_map_elem {A B : Type} (f : A -> list B) (l : list A) (a : A) (b : B) :
  a ∈ l -> b ∈ f a -> b ∈ flat_map f l.
Proof.
  intros Ha Hb. induction l as [| a' l IH]; [inversion Ha |].
  cbn [flat_map]. apply elem_of_app.
  apply elem_of_cons in Ha as [-> | Ha]; [left; exact Hb | right; exact (IH Ha)].
Qed.

Section BoundaryRuns.

Variable Density_Func : vec3 -> float.
Variable qef_solve_from_points_4d : list vec4 -> list vec4 -> Z -> vec4.
Variable glm_mix : vec4 -> vec4 -> float -> vec4.
Variable glm_mix3 : vec3 -> vec3 -> float -> vec3.
Variable glm_normalize : vec4 -> vec4.
Variable oob : Z -> Z.
Variable iter_set : gset Z -> list Z.
Variable iter_map : gmap Z EdgeInfo -> list (Z * EdgeInfo).
Variables x y z cellSize : Z.
Variable cellData0 : list float.

Local Abbreviation r :=
  (GenerateMesh_run Density_Func qef_solve_from_points_4d glm_mix glm_mix3
     glm_normalize oob iter_set iter_map x y z cellSize cellData0).
Local Abbreviation crossing := (crossing_edge Density_Func x y z cellSize).

(** A crossing edge of the grid is in the edge map, under its key. *)
Lemma mesh_run_edge_recorded ex ey ez a :
  cellSize <= 1024 -> in_grid cellSize ex ey ez -> 0 <= a < 3 ->
  crossing ex ey ez a = true ->
  is_Some (activeEdges (run_scan r) !! EncodeAxisUniqueID a ex ey ez).
Proof.
  intros Hsz Hg Ha Hc. unfold GenerateMesh_run. cbn [run_scan].
  rewrite (FindActiveVoxels_edges_complete Density_Func glm_mix glm_mix3 glm_normalize
             x y z cellSize (mkScan ∅ ∅) ex ey ez a Hsz Hg Ha Hc).
  eauto.
Qed.

(** An edge of the grid without a sign change is not. *)
Lemma mesh_run_edge_not_recorded ex ey ez a :
  cellSize <= 1024 -> in_grid cellSize ex ey ez -> 0 <= a < 3 ->
  crossing ex ey ez a = false ->
  activeEdges (run_scan r) !! EncodeAxisUniqueID a ex ey ez = None.
Proof.
  intros Hsz Hg Ha Hc.
  destruct (activeEdges (run_scan r) !! EncodeAxisUniqueID a ex ey ez) as [info |] eqn:Hlook;
    [| reflexivity].
  exfalso.
  destruct (FindActiveVoxels_inv Density_Func glm_mix glm_mix3 glm_normalize
              x y z cellSize _ (scan_inv_empty _ _ _ _ _ _ _ _)) as [_ Hedges].
  unfold GenerateMesh_run in Hlook. cbn [run_scan] in Hlook.
  destruct (Hedges _ _ Hlook) as (ex' & ey' & ez' & a' & Hg' & Ha' & Hc' & Hkey & _).
  unfold in_grid in Hg, Hg'.
  destruct (edge_key_inj a ex ey ez a' ex' ey' ez') as (-> & -> & -> & ->);
    try lia; try assumption.
  rewrite Hc in Hc'. discriminate.
Qed.

(** The key of an edge based outside the grid, at coordinates below
    1024, is not in the edge map. *)
Lemma mesh_run_edge_outside ex ey ez a :
  cellSize <= 1024 -> 0 <= a < 3 ->
  0 <= ex < 1024 -> 0 <= ey < 1024 -> 0 <= ez < 1024 ->
  ~ in_grid cellSize ex ey ez ->
  activeEdges (run_scan r) !! EncodeAxisUniqueID a ex ey ez = None.
Proof.
  intros Hsz Ha Hx Hy Hz Hout.
  destruct (activeEdges (run_scan r) !! EncodeAxisUniqueID a ex ey ez) as [info |] eqn:Hlook;
    [| reflexivity].
  exfalso.
  destruct (FindActiveVoxels_inv Density_Func glm_mix glm_mix3 glm_normalize
              x y z cellSize _ (scan_inv_empty _ _ _ _ _ _ _ _)) as [_ Hedges].
  unfold GenerateMesh_run in Hlook. cbn [run_scan] in Hlook.
  destruct (Hedges _ _ Hlook) as (ex' & ey' & ez' & a' & Hg' & Ha' & Hc' & Hkey & _).
  apply Hout. unfold in_grid in Hg' |- *.
  destruct (edge_key_inj a ex ey ez a' ex' ey' ez') as (-> & -> & -> & ->);
    try lia; assumption.
Qed.

(** The voxel at the base of a crossing edge is active. *)
Lemma mesh_run_voxel_active vx vy vz a :
  cellSize <= 1024 -> in_grid cellSize vx vy vz -> 0 <= a < 3 ->
  crossing vx vy vz a = true ->
  EncodeVoxelUniqueID (Ivec4 vx vy vz 0) ∈ activeVoxels (run_scan r).
Proof.
  intros Hsz Hg Ha Hc. unfold GenerateMesh_run. cbn [run_scan].
  apply FindActiveVoxels_voxels_complete.
  exists vx, vy, vz, a, 0. split; [exact Hg |]. split; [exact Ha |].
  split; [lia |]. split; [exact Hc |].
  unfold in_grid in Hg.
  assert (Hoff : edge_node_offset a 0 = Ivec4 0 0 0 0).
  { assert (Ha' : a = 0 \/ a = 1 \/ a = 2) by lia.
    destruct Ha' as [-> | [-> | ->]]; reflexivity. }
  cbv zeta. rewrite Hoff. unfold ivec4_sub. cbn [ix iy iz iw].
  rewrite !Z.sub_0_r, !s32_small by lia. repeat split; solve [lia | reflexivity].
Qed.

(** An active voxel with two hits among its 12 keys has a vertex index. *)
Lemma mesh_run_vertex_index v i j :
  (forall s : gset Z, NoDup (iter_set s)) ->
  (forall (s : gset Z) (u : Z), u ∈ s -> u ∈ iter_set s) ->
  v ∈ activeVoxels (run_scan r) ->
  0 <= i < j -> j < 12 ->
  is_Some (find_edge oob (activeEdges (run_scan r)) v i) ->
  is_Some (find_edge oob (activeEdges (run_scan r)) v j) ->
  is_Some (vertexIndices (run_vertex r) !! v).
Proof.
  intros Hnodup Hall Hactive Hij Hj Hi Hj'.
  unfold GenerateMesh_run in *. cbn [run_vertex run_scan] in *.
  apply GenerateVertexData_domain; [apply Hnodup |].
  split; [apply Hall; exact Hactive |].
  exact (crossing_count_two oob _ v i j Hij Hj Hi Hj').
Qed.

(** On grids of at most 1024 cells per axis the keys of the index map are
    below 2^30. *)
Lemma mesh_run_vertex_key_range id :
  cellSize <= 1024 ->
  (forall (s : gset Z) (v : Z), v ∈ iter_set s -> v ∈ s) ->
  2 ^ 30 <= id ->
  vertexIndices (run_vertex r) !! id = None.
Proof.
  intros Hsz Hiter Hid.
  destruct (vertexIndices (run_vertex r) !! id) as [k |] eqn:Hlook; [| reflexivity].
  exfalso.
  destruct (mesh_run_vertex_keys Density_Func qef_solve_from_points_4d glm_mix glm_mix3
              glm_normalize oob iter_set iter_map x y z cellSize cellData0 id Hsz Hiter
              ltac:(rewrite Hlook; eauto))
    as (kx & ky & kz & Hkx & Hky & Hkz & ->).
  lia.
Qed.

(** The triangles an iterated edge emits are triangles of the mesh. *)
Lemma mesh_run_emitted pair t :
  pair ∈ iter_map (activeEdges (run_scan r)) ->
  t ∈ emitted_triangles oob (vertexIndices (run_vertex r)) pair ->
  t ∈ triangles (run_buffer r).
Proof.
  intros Hpair Ht. unfold GenerateMesh_run in *. cbn [run_buffer run_vertex run_scan] in *.
  rewrite GenerateTriangles_spec. cbn [triangles].
  exact (flat_map_elem _ _ pair t Hpair Ht).
Qed.

End BoundaryRuns.

(** ** The plane x = 1/4 on the grid of 1024 cells per axis *)

(** Every x edge based at x = 512 crosses the plane, its lower endpoint
    inside. *)
Lemma plane_1024_crossing (ey ez : Z) :
  crossing_edge Reference.Density_Func 0 0 0 1024 512 ey ez 0 = true.
Proof.
  unfold crossing_edge, lower_endpoint, upper_endpoint, corner_position, Density,
    Reference.Density_Func, vec3_of, vec4_add.
  cbn [x3 vx AXIS_OFFSET]. vm_compute. reflexivity.
Qed.

Lemma plane_1024_lower_inside (ey ez : Z) :
  fge (Density Reference.Density_Func (lower_endpoint 0 0 0 1024 512 ey ez)) f0 = false.
Proof.
  unfold lower_endpoint, corner_position, Density, Reference.Density_Func, vec3_of.
  cbn [x3 vx]. vm_compute. reflexivity.
Qed.

Lemma plane_1024_edge (ey ez : Z) :
  0 <= ey < 1024 -> 0 <= ez < 1024 ->
  exists info : EdgeInfo,
    activeEdges (run_scan
      (GenerateMesh_run Reference.Density_Func Reference.qef_solve_from_points_4d
         Reference.glm_mix Reference.glm_mix3 Reference.glm_normalize
         Reference.oob Reference.iter_set Reference.iter_map 0 0 0 1024 []))
    !! EncodeAxisUniqueID 0 512 ey ez = Some info /\
    winding info = false.
Proof.
  intros Hy Hz.
  exists (edge_info Reference.Density_Func Reference.glm_mix Reference.glm_mix3
            Reference.glm_normalize
            (lower_endpoint 0 0 0 1024 512 ey ez) (upper_endpoint 0 0 0 1024 512 ey ez 0)).
  split.
  - unfold GenerateMesh_run. cbn [run_scan].
    apply (FindActiveVoxels_edges_complete Reference.Density_Func Reference.glm_mix
             Reference.glm_mix3 Reference.glm_normalize 0 0 0 1024 (mkScan ∅ ∅)
             512 ey ez 0); try lia.
    + unfold in_grid. lia.
    + exact (plane_1024_crossing ey ez).
  - cbn [winding edge_info]. exact (plane_1024_lower_inside ey ez).
Qed.

(** Every voxel at x = 512 below the top z layer has a vertex: the x
    edges at its base corner and one step up the z axis are recorded. *)
Lemma plane_1024_vertex (vy vz : Z) :
  0 <= vy < 1024 -> 0 <= vz < 1023 ->
  is_Some
    (vertexIndices (run_vertex
       (GenerateMesh_run Reference.Density_Func Reference.qef_solve_from_points_4d
          Reference.glm_mix Reference.glm_mix3 Reference.glm_normalize
          Reference.oob Reference.iter_set Reference.iter_map 0 0 0 1024 []))
     !! EncodeVoxelUniqueID (Ivec4 512 vy vz 0)).
Proof.
  intros Hy Hz.
  apply (mesh_run_vertex_index Reference.Density_Func Reference.qef_solve_from_points_4d
           Reference.glm_mix Reference.glm_mix3 Reference.glm_normalize
           Reference.oob Reference.iter_set Reference.iter_map 0 0 0 1024 []
           (EncodeVoxelUniqueID (Ivec4 512 vy vz 0)) 0 1).
  - intros s. apply NoDup_elements.
  - intros s u Hu. apply elem_of_elements. exact Hu.
  - apply (mesh_run_voxel_active _ _ _ _ _ _ _ _ _ _ _ _ _ 512 vy vz 0); try lia.
    + unfold in_grid. lia.
    + exact (plane_1024_crossing vy vz).
  - lia.
  - lia.
  - pose proof (canonical_edge_key Reference.oob 0 0 512 vy vz) as Hkey.
    unfold canonical_edge_id in Hkey. unfold find_edge.
    revert Hkey. eval_tables. cbn [ix iy iz]. rewrite !Z.add_0_r.
    intros Hkey. rewrite Hkey by lia.
    destruct (plane_1024_edge vy vz ltac:(lia) ltac:(lia)) as (info & -> & _). eauto.
  - pose proof (canonical_edge_key Reference.oob 0 1 512 vy vz) as Hkey.
    unfold canonical_edge_id in Hkey. unfold find_edge.
    revert Hkey. eval_tables. cbn [ix iy iz]. rewrite !Z.add_0_r.
    intros Hkey. rewrite Hkey by lia.
    destruct (plane_1024_edge vy (vz + 1) ltac:(lia) ltac:(lia)) as (info & -> & _). eauto.
Qed.

(** C1, at the failing input: on the grid of 1024 cells per axis about
    the origin, with the plane x = 1/4 as density, the x edge based at
    corner (512, 0, 2) is a recorded crossing edge.  Of the four voxels
    that share it, (512, 0, 2), (512, 0, 1), (512, -1, 2) and
    (512, -1, 1), the last two lie outside the grid and have no entry in
    the vertex index map; yet the triangulator emits the two triangles of
    a quad for it, through the vertices of the voxels (512, 1023, 1) and
    (512, 1023, 0) at the far side of the grid. *)
Theorem C1_quad_without_the_four_sharing_voxels :
  let r := GenerateMesh_run Reference.Density_Func Reference.qef_solve_from_points_4d
             Reference.glm_mix Reference.glm_mix3 Reference.glm_normalize
             Reference.oob Reference.iter_set Reference.iter_map 0 0 0 1024 [] in
  let m := vertexIndices (run_vertex r) in
  exists (info : EdgeInfo) (v0 v1 v2 v3 : Z),
    (EncodeAxisUniqueID 0 512 0 2, info) ∈ Reference.iter_map (activeEdges (run_scan r)) /\
    ivec4_sub (Ivec4 512 0 2 0) (edge_node_offset 0 2) = Ivec4 512 (-1) 2 0 /\
    ivec4_sub (Ivec4 512 0 2 0) (edge_node_offset 0 3) = Ivec4 512 (-1) 1 0 /\
    m !! edge_voxel_id 0 2 512 0 2 = None /\
    m !! edge_voxel_id 0 3 512 0 2 = None /\
    m !! EncodeVoxelUniqueID (Ivec4 512 0 2 0) = Some v0 /\
    m !! EncodeVoxelUniqueID (Ivec4 512 0 1 0) = Some v1 /\
    m !! EncodeVoxelUniqueID (Ivec4 512 1023 1 0) = Some v2 /\
    m !! EncodeVoxelUniqueID (Ivec4 512 1023 0 0) = Some v3 /\
    mkMeshTriangle v0 v3 v1 ∈ triangles (run_buffer r) /\
    mkMeshTriangle v0 v2 v3 ∈ triangles (run_buffer r).
Proof.
  cbv zeta.
  destruct (plane_1024_edge 0 2 ltac:(lia) ltac:(lia)) as (info & Hinfo & Hw).
  destruct (plane_1024_vertex 0 2 ltac:(lia) ltac:(lia)) as [v0 H0].
  destruct (plane_1024_vertex 0 1 ltac:(lia) ltac:(lia)) as [v1 H1].
  destruct (plane_1024_vertex 1023 1 ltac:(lia) ltac:(lia)) as [v2 H2].
  destruct (plane_1024_vertex 1023 0 ltac:(lia) ltac:(lia)) as [v3 H3].
  assert (Hpair : (EncodeAxisUniqueID 0 512 0 2, info)
                  ∈ Reference.iter_map
                      (activeEdges (run_scan
                         (GenerateMesh_run Reference.Density_Func
                            Reference.qef_solve_from_points_4d Reference.glm_mix
                            Reference.glm_mix3 Reference.glm_normalize Reference.oob
                            Reference.iter_set Reference.iter_map 0 0 0 1024 []))))
    by (unfold Reference.iter_map at 1; apply elem_of_map_to_list; exact Hinfo).
  assert (Hquad : emitted_triangles Reference.oob
                    (vertexIndices (run_vertex
                       (GenerateMesh_run Reference.Density_Func
                          Reference.qef_solve_from_points_4d Reference.glm_mix
                          Reference.glm_mix3 Reference.glm_normalize Reference.oob
                          Reference.iter_set Reference.iter_map 0 0 0 1024 [])))
                    (EncodeAxisUniqueID 0 512 0 2, info)
                  = [ mkMeshTriangle v0 v3 v1; mkMeshTriangle v0 v2 v3 ]).
  { unfold emitted_triangles, resolved_voxels. cbn [fst snd].
    replace (voxelIDs Reference.oob (EncodeAxisUniqueID 0 512 0 2) 0)
      with (EncodeVoxelUniqueID (Ivec4 512 0 2 0)) by (vm_compute; reflexivity).
    replace (voxelIDs Reference.oob (EncodeAxisUniqueID 0 512 0 2) 1)
      with (EncodeVoxelUniqueID (Ivec4 512 0 1 0)) by (vm_compute; reflexivity).
    replace (voxelIDs Reference.oob (EncodeAxisUniqueID 0 512 0 2) 2)
      with (EncodeVoxelUniqueID (Ivec4 512 1023 1 0)) by (vm_compute; reflexivity).
    replace (voxelIDs Reference.oob (EncodeAxisUniqueID 0 512 0 2) 3)
      with (EncodeVoxelUniqueID (Ivec4 512 1023 0 0)) by (vm_compute; reflexivity).
    rewrite H0, H1, H2, H3. unfold quad_triangles. rewrite Hw. reflexivity. }
  exists info, v0, v1, v2, v3.
  split; [exact Hpair |].
  split; [vm_compute; reflexivity |].
  split; [vm_compute; reflexivity |].
  split; [apply mesh_run_vertex_key_range;
          [lia | apply elements_elem | vm_compute; discriminate] |].
  split; [apply mesh_run_vertex_key_range;
          [lia | apply elements_elem | vm_compute; discriminate] |].
  split; [exact H0 |]. split; [exact H1 |]. split; [exact H2 |]. split; [exact H3 |].
  split.
  - apply (mesh_run_emitted _ _ _ _ _ _ _ _ _ _ _ _ _ _ _ Hpair).
    rewrite Hquad. left.
  - apply (mesh_run_emitted _ _ _ _ _ _ _ _ _ _ _ _ _ _ _ Hpair).
    rewrite Hquad. right. left.
Qed.

(** C7, at the failing input: both tables hold the packed offsets, entry
    by entry, but subtracting or adding a packed offset is not the
    computation in three dimensions where a coordinate leaves [0, 1024).
    For the x edge based at (512, 0, 2) the third voxel around the edge
    is, in three dimensions, (512, -1, 2), which the scanner's guard keeps
    out of the active set and which has no vertex index; by table it is
    voxel (512, 1023, 1), which on the grid of 1024 cells per axis with the
    plane x = 1/4 has one.  For the voxel at (1023, 5, 1023) the canonical
    y edge with offset (1, 0, 0) is based at x = 1024; by table its key
    is that of the y edge based at (0, 6, 1023). *)
Theorem C7_table_lookup_leaves_the_edge :
  let r := GenerateMesh_run Reference.Density_Func Reference.qef_solve_from_points_4d
             Reference.glm_mix Reference.glm_mix3 Reference.glm_normalize
             Reference.oob Reference.iter_set Reference.iter_map 0 0 0 1024 [] in
  let m := vertexIndices (run_vertex r) in
  ENCODED_EDGE_NODE_OFFSETS !! Z.to_nat (4 * 0 + 2)
    = Some (EncodeVoxelUniqueID (edge_node_offset 0 2)) /\
  ivec4_sub (Ivec4 512 0 2 0) (edge_node_offset 0 2) = Ivec4 512 (-1) 2 0 /\
  insert_edge_node (Ivec4 512 0 2 0) 0 2 (activeVoxels (run_scan r))
    = activeVoxels (run_scan r) /\
  m !! edge_voxel_id 0 2 512 0 2 = None /\
  voxelIDs Reference.oob (EncodeAxisUniqueID 0 512 0 2) 2
    = EncodeVoxelUniqueID (Ivec4 512 1023 1 0) /\
  is_Some (m !! voxelIDs Reference.oob (EncodeAxisUniqueID 0 512 0 2) 2) /\
  ENCODED_EDGE_OFFSETS !! Z.to_nat (4 * 1 + 2)
    = Some (EncodeAxisUniqueID 1 1 0 0) /\
  canonical_edge_base_offset 1 2 = Ivec4 1 0 0 0 /\
  u32 (EncodeVoxelUniqueID (Ivec4 1023 5 1023 0)
       + table_read Reference.oob ENCODED_EDGE_OFFSETS (4 * 1 + 2))
    = EncodeAxisUniqueID 1 0 6 1023.
Proof.
  cbv zeta.
  split; [vm_compute; reflexivity |].
  split; [vm_compute; reflexivity |].
  split; [apply insert_edge_node_negative; right; left; vm_compute; reflexivity |].
  split; [apply mesh_run_vertex_key_range;
          [lia | apply elements_elem | vm_compute; discriminate] |].
  split; [vm_compute; reflexivity |].
  split.
  - replace (voxelIDs Reference.oob (EncodeAxisUniqueID 0 512 0 2) 2)
      with (EncodeVoxelUniqueID (Ivec4 512 1023 1 0)) by (vm_compute; reflexivity).
    exact (plane_1024_vertex 1023 1 ltac:(lia) ltac:(lia)).
  - split; [vm_compute; reflexivity |].
    split; vm_compute; reflexivity.
Qed.

(** ** The slab on the grid of 1024 cells per axis *)

(** The y edges based at y = 5 and at y = 6 cross the slab, wherever they
    are. *)
Lemma slab_1024_crossing_5 (ex ez : Z) :
  crossing_edge Reference.slab 0 0 0 1024 ex 5 ez 1 = true.
Proof.
  unfold crossing_edge, lower_endpoint, upper_endpoint, corner_position, Density,
    Reference.slab, vec3_of, vec4_add.
  cbn [y3 vy AXIS_OFFSET]. vm_compute. reflexivity.
Qed.

Lemma slab_1024_crossing_6 (ex ez : Z) :
  crossing_edge Reference.slab 0 0 0 1024 ex 6 ez 1 = true.
Proof.
  unfold crossing_edge, lower_endpoint, upper_endpoint, corner_position, Density,
    Reference.slab, vec3_of, vec4_add.
  cbn [y3 vy AXIS_OFFSET]. vm_compute. reflexivity.
Qed.

Ltac eval_entry_in t H := let v := eval vm_compute in t in change t with v in H.

(** C3, at the failing input: on the grid of 1024 cells per axis about
    the origin, with the slab |y + 506| < 1/2 as density, the voxel at
    (1023, 5, 1023) is active and exactly one of its 12 canonical edges,
    the y edge at its base corner, is an edge of the grid with a recorded
    crossing.  The placer nevertheless counts at least two: entry 6 of
    [ENCODED_EDGE_OFFSETS], which stands for the y edge based at
    (1024, 5, 1023), makes the key of the y edge based at (0, 6, 1023),
    which is recorded.  The voxel gets a vertex index. *)
Theorem C3_vertex_with_one_recorded_crossing :
  let r := GenerateMesh_run Reference.slab Reference.qef_solve_from_points_4d
             Reference.glm_mix Reference.glm_mix3 Reference.glm_normalize
             Reference.oob Reference.iter_set Reference.iter_map 0 0 0 1024 [] in
  let edges := activeEdges (run_scan r) in
  let v := EncodeVoxelUniqueID (Ivec4 1023 5 1023 0) in
  v ∈ activeVoxels (run_scan r) /\
  recorded_crossings edges 1024 1023 5 1023 = 1 /\
  canonical_edge_base_offset 1 2 = Ivec4 1 0 0 0 /\
  find_edge Reference.oob edges v (4 * 1 + 2) = edges !! EncodeAxisUniqueID 1 0 6 1023 /\
  is_Some (find_edge Reference.oob edges v (4 * 1 + 2)) /\
  2 <= crossing_count Reference.oob edges v /\
  is_Some (vertexIndices (run_vertex r) !! v).
Proof.
  cbv zeta.
  pose proof (mesh_run_edge_recorded Reference.slab Reference.qef_solve_from_points_4d
                Reference.glm_mix Reference.glm_mix3 Reference.glm_normalize
                Reference.oob Reference.iter_set Reference.iter_map 0 0 0 1024 [])
    as Hyes.
  pose proof (mesh_run_edge_not_recorded Reference.slab Reference.qef_solve_from_points_4d
                Reference.glm_mix Reference.glm_mix3 Reference.glm_normalize
                Reference.oob Reference.iter_set Reference.iter_map 0 0 0 1024 [])
    as Hno.
  pose proof (Hyes 1023 5 1023 1 ltac:(lia) ltac:(unfold in_grid; lia) ltac:(lia)
                (slab_1024_crossing_5 1023 1023)) as Hbase.
  pose proof (Hyes 0 6 1023 1 ltac:(lia) ltac:(unfold in_grid; lia) ltac:(lia)
                (slab_1024_crossing_6 0 1023)) as Hfar.
  pose proof (Hno 1023 5 1023 0 ltac:(lia) ltac:(unfold in_grid; lia) ltac:(lia)
                ltac:(vm_compute; reflexivity)) as Hx5.
  pose proof (Hno 1023 6 1023 0 ltac:(lia) ltac:(unfold in_grid; lia) ltac:(lia)
                ltac:(vm_compute; reflexivity)) as Hx6.
  pose proof (Hno 1023 5 1023 2 ltac:(lia) ltac:(unfold in_grid; lia) ltac:(lia)
                ltac:(vm_compute; reflexivity)) as Hz5.
  pose proof (Hno 1023 6 1023 2 ltac:(lia) ltac:(unfold in_grid; lia) ltac:(lia)
                ltac:(vm_compute; reflexivity)) as Hz6.
  clear Hyes Hno.
  assert (Hactive : EncodeVoxelUniqueID (Ivec4 1023 5 1023 0)
                    ∈ activeVoxels (run_scan
                        (GenerateMesh_run Reference.slab Reference.qef_solve_from_points_4d
                           Reference.glm_mix Reference.glm_mix3 Reference.glm_normalize
                           Reference.oob Reference.iter_set Reference.iter_map
                           0 0 0 1024 []))).
  { apply (mesh_run_voxel_active _ _ _ _ _ _ _ _ _ _ _ _ _ 1023 5 1023 1); try lia.
    - unfold in_grid. lia.
    - exact (slab_1024_crossing_5 1023 1023). }
  assert (Hkey4 : u32 (EncodeVoxelUniqueID (Ivec4 1023 5 1023 0)
                       + table_read Reference.oob ENCODED_EDGE_OFFSETS 4)
                  = EncodeAxisUniqueID 1 1023 5 1023) by (vm_compute; reflexivity).
  assert (Hkey6 : u32 (EncodeVoxelUniqueID (Ivec4 1023 5 1023 0)
                       + table_read Reference.oob ENCODED_EDGE_OFFSETS (4 * 1 + 2))
                  = EncodeAxisUniqueID 1 0 6 1023) by (vm_compute; reflexivity).
  split; [exact Hactive |].
  split.
  - unfold recorded_crossings.
    revert Hbase Hfar Hx5 Hx6 Hz5 Hz6 Hactive Hkey4 Hkey6.
    generalize (activeEdges (run_scan
                  (GenerateMesh_run Reference.slab Reference.qef_solve_from_points_4d
                     Reference.glm_mix Reference.glm_mix3 Reference.glm_normalize
                     Reference.oob Reference.iter_set Reference.iter_map 0 0 0 1024 []))).
    intros edges Hbase _ Hx5 Hx6 Hz5 Hz6 _ _ _.
    eval_entry (omap (grid_canonical_edge_key 1024 1023 5 1023) canonical_edges).
    eval_entry_in (EncodeAxisUniqueID 1 1023 5 1023) Hbase.
    eval_entry_in (EncodeAxisUniqueID 0 1023 5 1023) Hx5.
    eval_entry_in (EncodeAxisUniqueID 0 1023 6 1023) Hx6.
    eval_entry_in (EncodeAxisUniqueID 2 1023 5 1023) Hz5.
    eval_entry_in (EncodeAxisUniqueID 2 1023 6 1023) Hz6.
    rewrite filter_cons_False by (rewrite Hx5; intros [? ?]; discriminate).
    rewrite filter_cons_False by (rewrite Hx6; intros [? ?]; discriminate).
    rewrite filter_cons_True by exact Hbase.
    rewrite filter_cons_False by (rewrite Hz5; intros [? ?]; discriminate).
    rewrite filter_cons_False by (rewrite Hz6; intros [? ?]; discriminate).
    reflexivity.
  - split; [vm_compute; reflexivity |].
    split; [unfold find_edge; rewrite Hkey6; reflexivity |].
    split; [unfold find_edge; rewrite Hkey6; exact Hfar |].
    assert (H4 : is_Some (find_edge Reference.oob
                   (activeEdges (run_scan
                      (GenerateMesh_run Reference.slab Reference.qef_solve_from_points_4d
                         Reference.glm_mix Reference.glm_mix3 Reference.glm_normalize
                         Reference.oob Reference.iter_set Reference.iter_map
                         0 0 0 1024 [])))
                   (EncodeVoxelUniqueID (Ivec4 1023 5 1023 0)) 4))
      by (unfold find_edge; rewrite Hkey4; exact Hbase).
    assert (H6 : is_Some (find_edge Reference.oob
                   (activeEdges (run_scan
                      (GenerateMesh_run Reference.slab Reference.qef_solve_from_points_4d
                         Reference.glm_mix Reference.glm_mix3 Reference.glm_normalize
                         Reference.oob Reference.iter_set Reference.iter_map
                         0 0 0 1024 [])))
                   (EncodeVoxelUniqueID (Ivec4 1023 5 1023 0)) 6))
      by (unfold find_edge;
          change (table_read Reference.oob ENCODED_EDGE_OFFSETS 6)
            with (table_read Reference.oob ENCODED_EDGE_OFFSETS (4 * 1 + 2));
          rewrite Hkey6; exact Hfar).
    split.
    + exact (crossing_count_two Reference.oob _ _ 4 6 ltac:(lia) ltac:(lia) H4 H6).
    + apply (mesh_run_vertex_index Reference.slab Reference.qef_solve_from_points_4d
               Reference.glm_mix Reference.glm_mix3 Reference.glm_normalize
               Reference.oob Reference.iter_set Reference.iter_map 0 0 0 1024 []
               (EncodeVoxelUniqueID (Ivec4 1023 5 1023 0)) 4 6).
      * intros s. apply NoDup_elements.
      * intros s u Hu. apply elem_of_elements. exact Hu.
      * exact Hactive.
      * lia.
      * lia.
      * exact H4.
      * exact H6.
Qed.

(** ** Below 1024 cells per axis the packed offsets are the offsets *)

Lemma canonical_edges_list :
  canonical_edges
  = [ (0, 0); (0, 1); (0, 2); (0, 3); (1, 0); (1, 1); (1, 2); (1, 3);
      (2, 0); (2, 1); (2, 2); (2, 3) ].
Proof. reflexivity. Qed.

(** The 12 keys the placer forms for a voxel whose coordinates are below
    1023 are the keys of its 12 canonical edges. *)
Lemma canonical_edge_keys_coordinates oob vx vy vz :
  0 <= vx < 1023 -> 0 <= vy < 1023 -> 0 <= vz < 1023 ->
  canonical_edge_keys oob (EncodeVoxelUniqueID (Ivec4 vx vy vz 0))
  = map (fun e => canonical_edge_id (fst e) (snd e) vx vy vz) canonical_edges.
Proof.
  intros Hx Hy Hz. unfold canonical_edge_keys.
  rewrite canonical_edges_list. change (seqZ 0 12) with [0; 1; 2; 3; 4; 5; 6; 7; 8; 9; 10; 11].
  cbn [map fst snd].
  rewrite <- (canonical_edge_key oob 0 0 vx vy vz), <- (canonical_edge_key oob 0 1 vx vy vz),
    <- (canonical_edge_key oob 0 2 vx vy vz), <- (canonical_edge_key oob 0 3 vx vy vz),
    <- (canonical_edge_key oob 1 0 vx vy vz), <- (canonical_edge_key oob 1 1 vx vy vz),
    <- (canonical_edge_key oob 1 2 vx vy vz), <- (canonical_edge_key oob 1 3 vx vy vz),
    <- (canonical_edge_key oob 2 0 vx vy vz), <- (canonical_edge_key oob 2 1 vx vy vz),
    <- (canonical_edge_key oob 2 2 vx vy vz), <- (canonical_edge_key oob 2 3 vx vy vz)
    by (try lia; eval_tables; cbn [ix iy iz]; lia).
  reflexivity.
Qed.

(** Dropping from a list of keys those that satisfy no [P] anyway does not
    change how many satisfy [P]. *)
Lemma filter_omap_guard {A : Type} (P : Z -> Prop) `{forall k, Decision (P k)}
    (key : A -> Z) (g : A -> bool) (l : list A) :
  (forall e, e ∈ l -> g e = false -> ~ P (key e)) ->
  length (filter P (map key l))
  = length (filter P (omap (fun e => if g e then Some (key e) else None) l)).
Proof.
  induction l as [| e l IH]; intros Hout; [reflexivity |].
  cbn [map omap list_omap].
  assert (IH' : length (filter P (map key l))
                = length (filter P (omap (fun e => if g e then Some (key e) else None) l)))
    by (apply IH; intros e' He'; apply Hout; right; exact He').
  destruct (g e) eqn:Hg.
  - rewrite !filter_cons. destruct (decide (P (key e))); cbn [length]; lia.
  - rewrite filter_cons_False by (apply Hout; [left | exact Hg]). exact IH'.
Qed.

Section BelowTheLimit.

Variable Density_Func : vec3 -> float.
Variable qef_solve_from_points_4d : list vec4 -> list vec4 -> Z -> vec4.
Variable glm_mix : vec4 -> vec4 -> float -> vec4.
Variable glm_mix3 : vec3 -> vec3 -> float -> vec3.
Variable glm_normalize : vec4 -> vec4.
Variable oob : Z -> Z.
Variable iter_set : gset Z -> list Z.
Variable iter_map : gmap Z EdgeInfo -> list (Z * EdgeInfo).
Variables x y z cellSize : Z.
Variable cellData0 : list float.

Local Abbreviation r :=
  (GenerateMesh_run Density_Func qef_solve_from_points_4d glm_mix glm_mix3
     glm_normalize oob iter_set iter_map x y z cellSize cellData0).

(** On a grid of at most 1023 cells per axis the placer's count for a
    voxel of the grid is the number of its canonical edges that are edges
    of the grid with a recorded crossing. *)
Lemma crossing_count_recorded vx vy vz :
  cellSize <= 1023 -> in_grid cellSize vx vy vz ->
  crossing_count oob (activeEdges (run_scan r)) (EncodeVoxelUniqueID (Ivec4 vx vy vz 0))
  = recorded_crossings (activeEdges (run_scan r)) cellSize vx vy vz.
Proof.
  intros Hsz (Hx & Hy & Hz).
  rewrite crossing_count_keys, canonical_edge_keys_coordinates by lia.
  unfold recorded_crossings. f_equal.
  apply (filter_omap_guard (fun k => is_Some (activeEdges (run_scan r) !! k))
           (fun e => canonical_edge_id (fst e) (snd e) vx vy vz)
           (fun e => let o := canonical_edge_base_offset (fst e) (snd e) in
                     (vx + ix o <? cellSize) && (vy + iy o <? cellSize)
                     && (vz + iz o <? cellSize))).
  intros e He Hguard. rewrite canonical_edges_list in He.
  assert (Hnone : activeEdges (run_scan r) !! canonical_edge_id (fst e) (snd e) vx vy vz
                  = None); [| rewrite Hnone; intros [? ?]; discriminate].
  unfold canonical_edge_id.
  repeat (apply elem_of_cons in He as [-> | He]);
    [ .. | inversion He ];
    cbn [fst snd] in Hguard |- *; revert Hguard; eval_tables; cbn [ix iy iz];
    intros Hguard;
    (apply mesh_run_edge_outside; [lia | lia | lia | lia | lia |]);
    unfold in_grid; intros (Hx' & Hy' & Hz');
    apply andb_false_iff in Hguard as [Hguard | Hguard];
    try (apply andb_false_iff in Hguard as [Hguard | Hguard]);
    apply Z.ltb_ge in Hguard; lia.
Qed.

(** So a voxel of the grid in the active set gets a vertex index exactly
    when at least two of its 12 canonical edges have a recorded crossing. *)
Lemma vertex_iff_two_recorded_crossings vx vy vz :
  cellSize <= 1023 -> in_grid cellSize vx vy vz ->
  (forall s : gset Z, NoDup (iter_set s)) ->
  EncodeVoxelUniqueID (Ivec4 vx vy vz 0) ∈ iter_set (activeVoxels (run_scan r)) ->
  is_Some (vertexIndices (run_vertex r) !! EncodeVoxelUniqueID (Ivec4 vx vy vz 0))
  <-> 2 <= recorded_crossings (activeEdges (run_scan r)) cellSize vx vy vz.
Proof.
  intros Hsz Hg Hnodup Hin.
  rewrite <- (crossing_count_recorded vx vy vz Hsz Hg).
  unfold GenerateMesh_run in *. cbn [run_vertex run_scan] in *.
  rewrite GenerateVertexData_domain by apply Hnodup. tauto.
Qed.

(** And a recorded edge emits its two triangles exactly when the four
    voxels that share it, computed in three dimensions, all have a vertex
    index. *)
Lemma triangles_iff_sharing_voxels (pair : Z * EdgeInfo) :
  cellSize <= 1023 ->
  (forall (s : gset Z) (v : Z), v ∈ iter_set s -> v ∈ s) ->
  (forall (m : gmap Z EdgeInfo) (pair : Z * EdgeInfo),
      pair ∈ iter_map m -> m !! fst pair = Some (snd pair)) ->
  pair ∈ iter_map (activeEdges (run_scan r)) ->
  exists ex ey ez axis : Z,
    in_grid cellSize ex ey ez /\ 0 <= axis < 3 /\
    crossing_edge Density_Func x y z cellSize ex ey ez axis = true /\
    fst pair = EncodeAxisUniqueID axis ex ey ez /\
    winding (snd pair)
      = fge (Density Density_Func (lower_endpoint x y z cellSize ex ey ez)) f0 /\
    match vertexIndices (run_vertex r) !! edge_voxel_id axis 0 ex ey ez,
          vertexIndices (run_vertex r) !! edge_voxel_id axis 1 ex ey ez,
          vertexIndices (run_vertex r) !! edge_voxel_id axis 2 ex ey ez,
          vertexIndices (run_vertex r) !! edge_voxel_id axis 3 ex ey ez with
    | Some v0, Some v1, Some v2, Some v3 =>
        emitted_triangles oob (vertexIndices (run_vertex r)) pair
        = if winding (snd pair)
          then [ mkMeshTriangle v0 v1 v3; mkMeshTriangle v0 v3 v2 ]
          else [ mkMeshTriangle v0 v3 v1; mkMeshTriangle v0 v2 v3 ]
    | _, _, _, _ => emitted_triangles oob (vertexIndices (run_vertex r)) pair = []
    end.
Proof.
  intros Hsz Hset Hmap Hpair.
  destruct (mesh_triangles_by_table_lookup Density_Func qef_solve_from_points_4d glm_mix
              glm_mix3 glm_normalize oob iter_set iter_map x y z cellSize cellData0 Hmap)
    as [_ Hedges].
  destruct (Hedges pair Hpair)
    as [(ex & ey & ez & axis & Hg & Ha & Hc & Hkey & Hw) Hemit].
  exists ex, ey, ez, axis.
  split; [exact Hg |]. split; [exact Ha |]. split; [exact Hc |].
  split; [exact Hkey |]. split; [exact Hw |].
  assert (Hagree : forall i, 0 <= i < 4 ->
            vertexIndices (run_vertex r) !! voxelIDs oob (fst pair) i
            = vertexIndices (run_vertex r) !! edge_voxel_id axis i ex ey ez).
  { intros i Hi. rewrite Hkey. unfold in_grid in Hg.
    apply voxel_lookups_agree; try lia.
    intros id Hid.
    destruct (mesh_run_vertex_keys Density_Func qef_solve_from_points_4d glm_mix glm_mix3
                glm_normalize oob iter_set iter_map x y z cellSize cellData0 id
                ltac:(lia) Hset Hid)
      as (kx & ky & kz & Hkx & Hky & Hkz & Hsum).
    exists kx, ky, kz. repeat split; solve [lia | exact Hsum]. }
  rewrite <- !Hagree by lia. exact Hemit.
Qed.

End BelowTheLimit.
